(** * terraform-provider-victoriametricscloud: a shallow embedding

    The provider is a set of schema-to-API adapters around one HTTP client
    (package [vmcloudapi]).  Every handler decodes a plan, state or
    configuration into a typed model, calls at most one client method and
    writes a typed model back.  The embedding follows the Go sources of
    [internal/provider]:

    - Go integers are [Z] with the wrap-around of each conversion written out;
    - Go strings are [string] (sequences of bytes);
    - [types.String], [types.Int64], [types.Float64] and [types.List] of the
      plugin framework are the three-valued [types.Value];
    - the API client is a record of answers, and every handler runs in a
      small monad that logs the client methods it invokes. *)

From Stdlib Require Import String Ascii List ZArith Lia Bool.
Import ListNotations.
Open Scope string_scope.
Open Scope Z_scope.

(** ** Go primitives used by the provider *)
Module Go.

(** Conversions [uint32(x)], [uint64(x)] and [int64(x)]: reduction modulo
    the width, then reading the bit pattern in the target type. *)
Definition uint32 (x : Z) : Z := x mod 2 ^ 32.
Definition uint64 (x : Z) : Z := x mod 2 ^ 64.
Definition int64 (x : Z) : Z := (x + 2 ^ 63) mod 2 ^ 64 - 2 ^ 63.

(** Integer division [x / y] truncates towards zero. *)
Definition div (x y : Z) : Z := Z.quot x y.

(** A Go [error]: [nil] or a value with its [Error()] text. *)
Inductive result (A : Type) : Type :=
| Ok (a : A)
| Err (msg : string).
Arguments Ok {A} a.
Arguments Err {A} msg.

Definition failed {A} (r : result A) : bool :=
  match r with Ok _ => false | Err _ => true end.

(** A Go slice: [nil], or a sequence of elements.  [len] of the nil slice
    is 0, ranging over it visits nothing, and [append] to it allocates. *)
Inductive slice (A : Type) : Type :=
| nil_slice
| slice_of (elems : list A).
Arguments nil_slice {A}.
Arguments slice_of {A} elems.

Definition elements {A} (s : slice A) : list A :=
  match s with nil_slice => [] | slice_of elems => elems end.

Definition len {A} (s : slice A) : nat := length (elements s).

Definition append {A} (s : slice A) (x : A) : slice A :=
  slice_of (elements s ++ [x])%list.

(** [strings.Split(s, sep)] for a separator of one byte: the substrings
    between the separators, [n + 1] of them for [n] separators. *)
Fixpoint Split (s : string) (sep : ascii) : list string :=
  match s with
  | EmptyString => [EmptyString]
  | String c rest =>
      if Ascii.eqb c sep then EmptyString :: Split rest sep
      else match Split rest sep with
           | [] => [String c EmptyString]
           | p :: ps => String c p :: ps
           end
  end.

(** [strings.Contains(s, string(sep))] for one byte. *)
Fixpoint ContainsByte (s : string) (sep : ascii) : bool :=
  match s with
  | EmptyString => false
  | String c rest => Ascii.eqb c sep || ContainsByte rest sep
  end.

(** [strings.Join(parts, string(sep))]. *)
Fixpoint Join (parts : list string) (sep : ascii) : string :=
  match parts with
  | [] => EmptyString
  | [p] => p
  | p :: ps => p ++ String sep (Join ps sep)
  end.

End Go.

(** ** Attribute values of the plugin framework (package [types]) *)
Module types.

(** A framework value is null, unknown or known. *)
Inductive Value (A : Type) : Type :=
| Null
| Unknown
| Known (a : A).
Arguments Null {A}.
Arguments Unknown {A}.
Arguments Known {A} a.

Definition IsNull {A} (v : Value A) : bool :=
  match v with Null => true | _ => false end.

Definition String : Type := Value string.
Definition Int64 : Type := Value Z.
(** [types.List] with [ElementType: types.StringType]. *)
Definition List : Type := Value (list String).

Definition StringValue (s : string) : String := Known s.
Definition StringNull : String := Null.
Definition Int64Value (n : Z) : Int64 := Known n.

(** [ValueString] and [ValueInt64] give the zero value for null and
    unknown. *)
Definition ValueString (v : String) : string :=
  match v with Known s => s | _ => EmptyString end.
Definition ValueInt64 (v : Int64) : Z :=
  match v with Known n => n | _ => 0 end.

End types.

(** ** Diagnostics (package [diag]) *)
Module diag.

Inductive Severity : Type := SeverityError | SeverityWarning.

Record Diagnostic : Type := mkDiagnostic {
  Severity_of : Severity;
  Summary : string;
  Detail : string
}.

Definition Diagnostics : Type := list Diagnostic.

Definition NewErrorDiagnostic (summary detail : string) : Diagnostic :=
  mkDiagnostic SeverityError summary detail.

Definition AddError (ds : Diagnostics) (summary detail : string) : Diagnostics :=
  (ds ++ [NewErrorDiagnostic summary detail])%list.

Definition Append (ds more : Diagnostics) : Diagnostics := (ds ++ more)%list.

Definition isError (d : Diagnostic) : bool :=
  match Severity_of d with SeverityError => true | SeverityWarning => false end.

Definition HasError (ds : Diagnostics) : bool := existsb isError ds.

(** Some diagnostic of [ds] carries the summary [s]. *)
Definition hasSummary (s : string) (ds : Diagnostics) : bool :=
  existsb (fun d => String.eqb (Summary d) s) ds.

End diag.

Import Go diag.

(** ** The provider *)
Set Implicit Arguments.

Section Provider.

(** Go library values the provider only passes along: [time.Time] with
    [Format(time.RFC3339)], [float64], and the [%q] verb of [fmt]
    ([strconv.Quote]). *)
Variable Time : Type.
Variable Format_RFC3339 : Time -> string.
Variable float64 : Type.
Variable Quote : string -> string.

(** *** Package [vmcloudapi]: requests, answers, client

    The named string types of the library ([DeploymentType],
    [DeploymentCloudProvider], [DeploymentStatus], [StorageUnit],
    [DurationUnit], [MaintenanceWindow], [AccessMode]) are Go strings: the
    provider converts plain strings to them, and their [String] method gives
    the string back.  Unsigned fields hold their value as a [Z]. *)

(** The fields the provider's composite literal fills; any other field of
    the library's struct keeps its zero value. *)
Record DeploymentCreationRequest : Type := {
  dcr_Name : string;
  dcr_Type : string;
  dcr_Provider : string;
  dcr_Region : string;
  dcr_Tier : Z;
  dcr_StorageSize : Z;
  dcr_StorageSizeUnit : string;
  dcr_Retention : Z;
  dcr_RetentionUnit : string;
  dcr_Deduplication : Z;
  dcr_DeduplicationUnit : string;
  dcr_MaintenanceWindow : string
}.

Record DeploymentFlags : Type := {
  SingleFlags : list string;
  SelectFlags : list string;
  StorageFlags : list string;
  InsertFlags : list string
}.

Record DeploymentUpdateRequest : Type := {
  dur_Name : string;
  dur_Tier : Z;
  dur_StorageSize : Z;
  dur_StorageSizeUnit : string;
  dur_Retention : Z;
  dur_RetentionUnit : string;
  dur_Deduplication : Z;
  dur_DeduplicationUnit : string;
  dur_MaintenanceWindow : string;
  dur_Flags : DeploymentFlags
}.

Record DeploymentPrice : Type := {
  ComputeCost : float64;
  StorageCost : float64;
  TotalCost : float64
}.

(** The deployment answered by [CreateDeployment], [GetDeploymentDetails]
    and [UpdateDeployment], with the fields the provider reads. *)
Record DeploymentInfo : Type := {
  di_ID : string;
  di_Name : string;
  di_Type : string;
  di_CloudProvider : string;
  di_Region : string;
  di_Tier : Z;
  di_RetentionValue : Z;
  di_RetentionUnit : string;
  di_DeduplicationValue : Z;
  di_DeduplicationUnit : string;
  di_MaintenanceWindow : string;
  di_Version : string;
  di_Status : string;
  di_CreatedAt : Time;
  di_AccessEndpoint : string;
  di_StorageSizeGb : Z;
  di_Price : DeploymentPrice
}.

(** An entry of [ListDeployments]. *)
Record DeploymentSummary : Type := {
  dl_ID : string;
  dl_Name : string;
  dl_Type : string;
  dl_Tier : Z;
  dl_Version : string;
  dl_CloudProvider : string;
  dl_Region : string;
  dl_Status : string;
  dl_CreatedAt : Time
}.

Record AccessTokenCreateRequest : Type := {
  atr_Type : string;
  atr_Description : string;
  atr_TenantID : string
}.

(** [LastUsedAt] is a [*time.Time]: [None] is the nil pointer. *)
Record AccessToken : Type := {
  at_ID : string;
  at_Type : string;
  at_Description : string;
  at_TenantID : string;
  at_Secret : string;
  at_CreatedBy : string;
  at_CreatedAt : Time;
  at_LastUsedAt : option Time
}.

Record CloudProvider : Type := {
  cp_ID : string;
  cp_URL : string
}.

Record Region : Type := {
  rg_Name : string;
  rg_CloudProvider : string
}.

Record Tier : Type := {
  tr_ID : Z;
  tr_Type : string;
  tr_CloudProvider : string;
  tr_Name : string;
  tr_ComputeCostPerHour : float64;
  tr_IngestionRate : Z;
  tr_ActiveTimeSeries : Z;
  tr_NewSeriesOver24h : Z;
  tr_DatapointsReadRate : Z;
  tr_SeriesReadPerQuery : Z;
  tr_AccessTokenConcurrentRequests : Z
}.

(** The remote API seen from one handler: what each client method answers.
    Methods that return only an [error] answer [result unit]. *)
Record VMCloudAPIClient : Type := {
  CreateDeployment : DeploymentCreationRequest -> result DeploymentInfo;
  GetDeploymentDetails : string -> result DeploymentInfo;
  UpdateDeployment : string -> DeploymentUpdateRequest -> result DeploymentInfo;
  DeleteDeployment : string -> result unit;
  ListDeployments : result (list DeploymentSummary);
  CreateDeploymentAccessToken : string -> AccessTokenCreateRequest -> result AccessToken;
  RevealDeploymentAccessToken : string -> string -> result AccessToken;
  DeleteDeploymentAccessToken : string -> string -> result unit;
  CreateDeploymentRuleFileContent : string -> string -> string -> result unit;
  GetDeploymentRuleFileContent : string -> string -> result string;
  UpdateDeploymentRuleFileContent : string -> string -> string -> result unit;
  DeleteDeploymentRuleFile : string -> string -> result unit;
  ListCloudProviders : result (list CloudProvider);
  ListRegions : result (list Region);
  ListTiers : result (list Tier)
}.

(** One invocation of a client method, with its arguments. *)
Inductive ClientCall : Type :=
| CallCreateDeployment (req : DeploymentCreationRequest)
| CallGetDeploymentDetails (id : string)
| CallUpdateDeployment (id : string) (req : DeploymentUpdateRequest)
| CallDeleteDeployment (id : string)
| CallListDeployments
| CallCreateDeploymentAccessToken (deploymentID : string) (req : AccessTokenCreateRequest)
| CallRevealDeploymentAccessToken (deploymentID tokenID : string)
| CallDeleteDeploymentAccessToken (deploymentID tokenID : string)
| CallCreateDeploymentRuleFileContent (deploymentID fileName content : string)
| CallGetDeploymentRuleFileContent (deploymentID fileName : string)
| CallUpdateDeploymentRuleFileContent (deploymentID fileName content : string)
| CallDeleteDeploymentRuleFile (deploymentID fileName : string)
| CallListCloudProviders
| CallListRegions
| CallListTiers.

(** The methods that change something on the remote side. *)
Definition isMutating (c : ClientCall) : bool :=
  match c with
  | CallGetDeploymentDetails _ | CallListDeployments
  | CallRevealDeploymentAccessToken _ _
  | CallGetDeploymentRuleFileContent _ _
  | CallListCloudProviders | CallListRegions | CallListTiers => false
  | _ => true
  end.

(** Did the client answer this call with an error? *)
Definition callFailed (cl : VMCloudAPIClient) (c : ClientCall) : bool :=
  match c with
  | CallCreateDeployment req => failed (CreateDeployment cl req)
  | CallGetDeploymentDetails id => failed (GetDeploymentDetails cl id)
  | CallUpdateDeployment id req => failed (UpdateDeployment cl id req)
  | CallDeleteDeployment id => failed (DeleteDeployment cl id)
  | CallListDeployments => failed (ListDeployments cl)
  | CallCreateDeploymentAccessToken d req => failed (CreateDeploymentAccessToken cl d req)
  | CallRevealDeploymentAccessToken d t => failed (RevealDeploymentAccessToken cl d t)
  | CallDeleteDeploymentAccessToken d t => failed (DeleteDeploymentAccessToken cl d t)
  | CallCreateDeploymentRuleFileContent d f c => failed (CreateDeploymentRuleFileContent cl d f c)
  | CallGetDeploymentRuleFileContent d f => failed (GetDeploymentRuleFileContent cl d f)
  | CallUpdateDeploymentRuleFileContent d f c => failed (UpdateDeploymentRuleFileContent cl d f c)
  | CallDeleteDeploymentRuleFile d f => failed (DeleteDeploymentRuleFile cl d f)
  | CallListCloudProviders => failed (ListCloudProviders cl)
  | CallListRegions => failed (ListRegions cl)
  | CallListTiers => failed (ListTiers cl)
  end.

(** *** Handlers run against a client and log the methods they invoke *)
Definition Api (A : Type) : Type := VMCloudAPIClient -> A * list ClientCall.

Definition ret {A} (a : A) : Api A := fun _ => (a, []).

Definition bind {A B} (m : Api A) (k : A -> Api B) : Api B :=
  fun cl =>
    let (a, t1) := m cl in
    let (b, t2) := k a cl in
    (b, (t1 ++ t2)%list).

(** [invoke c answer]: call the client method logged as [c]. *)
Definition invoke {A} (c : ClientCall) (answer : VMCloudAPIClient -> A) : Api A :=
  fun cl => (answer cl, [c]).

Definition answer_of {A} (m : Api A) (cl : VMCloudAPIClient) : A := fst (m cl).
Definition calls_of {A} (m : Api A) (cl : VMCloudAPIClient) : list ClientCall := snd (m cl).

Local Notation "x <- c ;; k" := (bind c (fun x => k))
  (at level 61, c at next level, right associativity).

(** *** Requests and responses of the plugin framework *)

(** [req.Plan], [req.State] or [req.Config] with what [Get(ctx, &model)]
    gives: the diagnostics of the decoding and the filled model. *)
Record tfsdkData (M : Type) : Type := mktfsdkData {
  Get_diags : Diagnostics;
  Get_model : M
}.
Arguments mktfsdkData {M} _ _.
Arguments Get_diags {M} _.
Arguments Get_model {M} _.

(** A response: its diagnostics, and the model handed to
    [resp.State.Set]; [None] when the handler never calls it, so that the
    state the framework put in the response stays as it was.  [State.Set]
    of a model that has the attributes of the schema reports nothing. *)
Record Response (M : Type) : Type := mkResponse {
  resp_Diagnostics : Diagnostics;
  resp_State : option M
}.
Arguments mkResponse {M} _ _.
Arguments resp_Diagnostics {M} _.
Arguments resp_State {M} _.

(** An import response: diagnostics and the calls of
    [resp.State.SetAttribute(ctx, path.Root(name), value)] in order. *)
Record ImportStateResponse : Type := mkImportStateResponse {
  imp_Diagnostics : Diagnostics;
  imp_SetAttribute : list (string * string)
}.

(** [list.ElementsAs(ctx, &target, false)] into a [[]string]: a list with
    only known elements is copied into the target; an unknown or null list
    or element cannot be held by a Go string and is reported, the target
    staying as it was. *)
Fixpoint knownStrings (l : list types.String) : option (list string) :=
  match l with
  | [] => Some []
  | types.Known s :: rest => option_map (cons s) (knownStrings rest)
  | _ :: _ => None
  end.

Definition ElementsAs (l : types.List) (target : list string) : Diagnostics * list string :=
  match l with
  | types.Known elems =>
      match knownStrings elems with
      | Some ss => ([], ss)
      | None => ([NewErrorDiagnostic "Value Conversion Error" "unhandled null or unknown element"], target)
      end
  | _ => ([NewErrorDiagnostic "Value Conversion Error" "unhandled null or unknown list"], target)
  end.

(** *** Schemas: requirement, sensitivity and plan modifiers of each attribute *)
Inductive PlanModifier : Type := UseStateForUnknown | RequiresReplace.

Record Attribute : Type := mkAttribute {
  attr_name : string;
  Required : bool;
  Optional : bool;
  Computed : bool;
  Sensitive : bool;
  PlanModifiers : list PlanModifier
}.

Definition Schema : Type := list Attribute.

Definition isRequiresReplace (m : PlanModifier) : bool :=
  match m with RequiresReplace => true | UseStateForUnknown => false end.

(** An attribute the practitioner writes in the configuration. *)
Definition configurable (a : Attribute) : bool := Required a || Optional a.

(** *** resource_deployment.go *)
Record deploymentResourceModel : Type := {
  dr_ID : types.String;
  dr_Name : types.String;
  dr_Type : types.String;
  dr_CloudProvider : types.String;
  dr_Region : types.String;
  dr_Tier : types.Int64;
  dr_StorageSize : types.Int64;
  dr_StorageSizeUnit : types.String;
  dr_Retention : types.Int64;
  dr_RetentionUnit : types.String;
  dr_Deduplication : types.Int64;
  dr_DeduplicationUnit : types.String;
  dr_MaintenanceWindow : types.String;
  dr_SingleFlags : types.List;
  dr_SelectFlags : types.List;
  dr_StorageFlags : types.List;
  dr_InsertFlags : types.List;
  dr_Version : types.String;
  dr_Status : types.String;
  dr_CreatedAt : types.String;
  dr_AccessEndpoint : types.String
}.

(** The model with other flag lists, and with another type, cloud provider
    and region: the plans that differ from [m] in these attributes only. *)
Definition withFlags (m : deploymentResourceModel)
    (single select storage insert : types.List) : deploymentResourceModel :=
  {| dr_ID := dr_ID m; dr_Name := dr_Name m; dr_Type := dr_Type m;
     dr_CloudProvider := dr_CloudProvider m; dr_Region := dr_Region m;
     dr_Tier := dr_Tier m; dr_StorageSize := dr_StorageSize m;
     dr_StorageSizeUnit := dr_StorageSizeUnit m;
     dr_Retention := dr_Retention m; dr_RetentionUnit := dr_RetentionUnit m;
     dr_Deduplication := dr_Deduplication m;
     dr_DeduplicationUnit := dr_DeduplicationUnit m;
     dr_MaintenanceWindow := dr_MaintenanceWindow m;
     dr_SingleFlags := single; dr_SelectFlags := select;
     dr_StorageFlags := storage; dr_InsertFlags := insert;
     dr_Version := dr_Version m; dr_Status := dr_Status m;
     dr_CreatedAt := dr_CreatedAt m; dr_AccessEndpoint := dr_AccessEndpoint m |}.

Definition withPlacement (m : deploymentResourceModel)
    (type cloudProvider region : types.String) : deploymentResourceModel :=
  {| dr_ID := dr_ID m; dr_Name := dr_Name m; dr_Type := type;
     dr_CloudProvider := cloudProvider; dr_Region := region;
     dr_Tier := dr_Tier m; dr_StorageSize := dr_StorageSize m;
     dr_StorageSizeUnit := dr_StorageSizeUnit m;
     dr_Retention := dr_Retention m; dr_RetentionUnit := dr_RetentionUnit m;
     dr_Deduplication := dr_Deduplication m;
     dr_DeduplicationUnit := dr_DeduplicationUnit m;
     dr_MaintenanceWindow := dr_MaintenanceWindow m;
     dr_SingleFlags := dr_SingleFlags m; dr_SelectFlags := dr_SelectFlags m;
     dr_StorageFlags := dr_StorageFlags m; dr_InsertFlags := dr_InsertFlags m;
     dr_Version := dr_Version m; dr_Status := dr_Status m;
     dr_CreatedAt := dr_CreatedAt m; dr_AccessEndpoint := dr_AccessEndpoint m |}.

Definition deploymentResource_Schema : Schema := [
  mkAttribute "id" false false true false [UseStateForUnknown];
  mkAttribute "name" true false false false [];
  mkAttribute "type" true false false false [UseStateForUnknown];
  mkAttribute "cloud_provider" true false false false [UseStateForUnknown];
  mkAttribute "region" true false false false [UseStateForUnknown];
  mkAttribute "tier" true false false false [];
  mkAttribute "storage_size" true false false false [];
  mkAttribute "storage_size_unit" true false false false [];
  mkAttribute "retention" true false false false [];
  mkAttribute "retention_unit" true false false false [];
  mkAttribute "deduplication" true false false false [];
  mkAttribute "deduplication_unit" true false false false [];
  mkAttribute "maintenance_window" true false false false [];
  mkAttribute "single_flags" false true false false [];
  mkAttribute "select_flags" false true false false [];
  mkAttribute "storage_flags" false true false false [];
  mkAttribute "insert_flags" false true false false [];
  mkAttribute "version" false false true false [];
  mkAttribute "status" false false true false [];
  mkAttribute "created_at" false false true false [UseStateForUnknown];
  mkAttribute "access_endpoint" false false true false []
].

(** The request [Create] builds from the plan. *)
Definition deployment_createRequest (plan : deploymentResourceModel) : DeploymentCreationRequest :=
  {| dcr_Name := types.ValueString (dr_Name plan);
     dcr_Type := types.ValueString (dr_Type plan);
     dcr_Provider := types.ValueString (dr_CloudProvider plan);
     dcr_Region := types.ValueString (dr_Region plan);
     dcr_Tier := uint32 (types.ValueInt64 (dr_Tier plan));
     dcr_StorageSize := uint64 (types.ValueInt64 (dr_StorageSize plan));
     dcr_StorageSizeUnit := types.ValueString (dr_StorageSizeUnit plan);
     dcr_Retention := uint32 (types.ValueInt64 (dr_Retention plan));
     dcr_RetentionUnit := types.ValueString (dr_RetentionUnit plan);
     dcr_Deduplication := uint32 (types.ValueInt64 (dr_Deduplication plan));
     dcr_DeduplicationUnit := types.ValueString (dr_DeduplicationUnit plan);
     dcr_MaintenanceWindow := types.ValueString (dr_MaintenanceWindow plan) |}.

Definition deploymentResource_Create (req : tfsdkData deploymentResourceModel)
  : Api (Response deploymentResourceModel) :=
  let plan := Get_model req in
  let diags := Append [] (Get_diags req) in
  if HasError diags then ret (mkResponse diags None) else
  let createRequest := deployment_createRequest plan in
  r <- invoke (CallCreateDeployment createRequest)
              (fun cl => CreateDeployment cl createRequest) ;;
  match r with
  | Err err =>
      ret (mkResponse
             (AddError diags "Error creating deployment"
                ("Could not create deployment, unexpected error: " ++ err))
             None)
  | Ok deployment =>
      let plan' :=
        {| dr_ID := types.StringValue (di_ID deployment);
           dr_Name := dr_Name plan;
           dr_Type := dr_Type plan;
           dr_CloudProvider := dr_CloudProvider plan;
           dr_Region := dr_Region plan;
           dr_Tier := dr_Tier plan;
           dr_StorageSize := dr_StorageSize plan;
           dr_StorageSizeUnit := dr_StorageSizeUnit plan;
           dr_Retention := dr_Retention plan;
           dr_RetentionUnit := dr_RetentionUnit plan;
           dr_Deduplication := dr_Deduplication plan;
           dr_DeduplicationUnit := dr_DeduplicationUnit plan;
           dr_MaintenanceWindow := dr_MaintenanceWindow plan;
           dr_SingleFlags := dr_SingleFlags plan;
           dr_SelectFlags := dr_SelectFlags plan;
           dr_StorageFlags := dr_StorageFlags plan;
           dr_InsertFlags := dr_InsertFlags plan;
           dr_Version := types.StringValue (di_Version deployment);
           dr_Status := types.StringValue (di_Status deployment);
           dr_CreatedAt := types.StringValue (Format_RFC3339 (di_CreatedAt deployment));
           dr_AccessEndpoint := types.StringValue (di_AccessEndpoint deployment) |} in
      ret (mkResponse diags (Some plan'))
  end.

(** [storage_size] as [Read] computes it from [storage_size_gb]. *)
Definition deployment_storageSize (state : deploymentResourceModel)
    (deployment : DeploymentInfo) : types.Int64 :=
  if negb (types.IsNull (dr_StorageSizeUnit state)) then
    if String.eqb (types.ValueString (dr_StorageSizeUnit state)) "GB" then
      types.Int64Value (int64 (di_StorageSizeGb deployment))
    else if String.eqb (types.ValueString (dr_StorageSizeUnit state)) "TB" then
      types.Int64Value (int64 (div (di_StorageSizeGb deployment) 1024))
    else dr_StorageSize state
  else dr_StorageSize state.

Definition deploymentResource_Read (req : tfsdkData deploymentResourceModel)
  : Api (Response deploymentResourceModel) :=
  let state := Get_model req in
  let diags := Append [] (Get_diags req) in
  if HasError diags then ret (mkResponse diags None) else
  r <- invoke (CallGetDeploymentDetails (types.ValueString (dr_ID state)))
              (fun cl => GetDeploymentDetails cl (types.ValueString (dr_ID state))) ;;
  match r with
  | Err err =>
      ret (mkResponse
             (AddError diags "Error Reading Deployment"
                ("Could not read deployment ID " ++ types.ValueString (dr_ID state)
                   ++ ": " ++ err))
             None)
  | Ok deployment =>
      let state' :=
        {| dr_ID := dr_ID state;
           dr_Name := types.StringValue (di_Name deployment);
           dr_Type := types.StringValue (di_Type deployment);
           dr_CloudProvider := types.StringValue (di_CloudProvider deployment);
           dr_Region := types.StringValue (di_Region deployment);
           dr_Tier := types.Int64Value (int64 (di_Tier deployment));
           dr_StorageSize := deployment_storageSize state deployment;
           dr_StorageSizeUnit := dr_StorageSizeUnit state;
           dr_Retention := types.Int64Value (int64 (di_RetentionValue deployment));
           dr_RetentionUnit := types.StringValue (di_RetentionUnit deployment);
           dr_Deduplication := types.Int64Value (int64 (di_DeduplicationValue deployment));
           dr_DeduplicationUnit := types.StringValue (di_DeduplicationUnit deployment);
           dr_MaintenanceWindow := types.StringValue (di_MaintenanceWindow deployment);
           dr_SingleFlags := dr_SingleFlags state;
           dr_SelectFlags := dr_SelectFlags state;
           dr_StorageFlags := dr_StorageFlags state;
           dr_InsertFlags := dr_InsertFlags state;
           dr_Version := types.StringValue (di_Version deployment);
           dr_Status := types.StringValue (di_Status deployment);
           dr_CreatedAt := types.StringValue (Format_RFC3339 (di_CreatedAt deployment));
           dr_AccessEndpoint := types.StringValue (di_AccessEndpoint deployment) |} in
      ret (mkResponse diags (Some state'))
  end.

(** One [if !list.IsNull() { diags = list.ElementsAs(...); Append }]. *)
Definition readFlags (l : types.List) (target : list string) (diags : Diagnostics)
  : Diagnostics * list string :=
  if negb (types.IsNull l) then
    let (d, target') := ElementsAs l target in (Append diags d, target')
  else (diags, target).

(** The flags [Update] prepares, with the diagnostics of preparing them. *)
Definition deployment_flags (plan : deploymentResourceModel) (diags : Diagnostics)
  : Diagnostics * DeploymentFlags :=
  let (diags1, single) := readFlags (dr_SingleFlags plan) [] diags in
  let (diags2, select) := readFlags (dr_SelectFlags plan) [] diags1 in
  let (diags3, storage) := readFlags (dr_StorageFlags plan) [] diags2 in
  let (diags4, insert) := readFlags (dr_InsertFlags plan) [] diags3 in
  (diags4, {| SingleFlags := single; SelectFlags := select;
              StorageFlags := storage; InsertFlags := insert |}).

Definition deployment_updateRequest (plan : deploymentResourceModel)
    (flags : DeploymentFlags) : DeploymentUpdateRequest :=
  {| dur_Name := types.ValueString (dr_Name plan);
     dur_Tier := uint32 (types.ValueInt64 (dr_Tier plan));
     dur_StorageSize := uint64 (types.ValueInt64 (dr_StorageSize plan));
     dur_StorageSizeUnit := types.ValueString (dr_StorageSizeUnit plan);
     dur_Retention := uint32 (types.ValueInt64 (dr_Retention plan));
     dur_RetentionUnit := types.ValueString (dr_RetentionUnit plan);
     dur_Deduplication := uint32 (types.ValueInt64 (dr_Deduplication plan));
     dur_DeduplicationUnit := types.ValueString (dr_DeduplicationUnit plan);
     dur_MaintenanceWindow := types.ValueString (dr_MaintenanceWindow plan);
     dur_Flags := flags |}.

Definition deploymentResource_Update (req : tfsdkData deploymentResourceModel)
  : Api (Response deploymentResourceModel) :=
  let plan := Get_model req in
  let diags := Append [] (Get_diags req) in
  if HasError diags then ret (mkResponse diags None) else
  let (diags', flags) := deployment_flags plan diags in
  if HasError diags' then ret (mkResponse diags' None) else
  let updateRequest := deployment_updateRequest plan flags in
  r <- invoke (CallUpdateDeployment (types.ValueString (dr_ID plan)) updateRequest)
              (fun cl => UpdateDeployment cl (types.ValueString (dr_ID plan)) updateRequest) ;;
  match r with
  | Err err =>
      ret (mkResponse
             (AddError diags' "Error updating deployment"
                ("Could not update deployment, unexpected error: " ++ err))
             None)
  | Ok deployment =>
      let plan' :=
        {| dr_ID := dr_ID plan;
           dr_Name := dr_Name plan;
           dr_Type := dr_Type plan;
           dr_CloudProvider := dr_CloudProvider plan;
           dr_Region := dr_Region plan;
           dr_Tier := dr_Tier plan;
           dr_StorageSize := dr_StorageSize plan;
           dr_StorageSizeUnit := dr_StorageSizeUnit plan;
           dr_Retention := dr_Retention plan;
           dr_RetentionUnit := dr_RetentionUnit plan;
           dr_Deduplication := dr_Deduplication plan;
           dr_DeduplicationUnit := dr_DeduplicationUnit plan;
           dr_MaintenanceWindow := dr_MaintenanceWindow plan;
           dr_SingleFlags := dr_SingleFlags plan;
           dr_SelectFlags := dr_SelectFlags plan;
           dr_StorageFlags := dr_StorageFlags plan;
           dr_InsertFlags := dr_InsertFlags plan;
           dr_Version := types.StringValue (di_Version deployment);
           dr_Status := types.StringValue (di_Status deployment);
           dr_CreatedAt := dr_CreatedAt plan;
           dr_AccessEndpoint := types.StringValue (di_AccessEndpoint deployment) |} in
      ret (mkResponse diags' (Some plan'))
  end.

Definition deploymentResource_Delete (req : tfsdkData deploymentResourceModel)
  : Api (Response deploymentResourceModel) :=
  let state := Get_model req in
  let diags := Append [] (Get_diags req) in
  if HasError diags then ret (mkResponse diags None) else
  r <- invoke (CallDeleteDeployment (types.ValueString (dr_ID state)))
              (fun cl => DeleteDeployment cl (types.ValueString (dr_ID state))) ;;
  match r with
  | Err err =>
      ret (mkResponse
             (AddError diags "Error deleting deployment"
                ("Could not delete deployment, unexpected error: " ++ err))
             None)
  | Ok _ => ret (mkResponse diags None)
  end.

(** [resource.ImportStatePassthroughID(ctx, path.Root("id"), req, resp)]:
    the framework's helper writes an import id that is not empty to the
    attribute of the path, and reports nothing for a path that is not
    empty. *)
Definition deploymentResource_ImportState (ID : string) : ImportStateResponse :=
  if String.eqb ID EmptyString then mkImportStateResponse [] []
  else mkImportStateResponse [] [("id", ID)].

(** *** resource_access_token.go *)
Record accessTokenResourceModel : Type := {
  ar_ID : types.String;
  ar_DeploymentID : types.String;
  ar_Type : types.String;
  ar_Description : types.String;
  ar_TenantID : types.String;
  ar_Secret : types.String;
  ar_CreatedBy : types.String;
  ar_CreatedAt : types.String;
  ar_LastUsedAt : types.String
}.

Definition accessTokenResource_Schema : Schema := [
  mkAttribute "id" false false true false [UseStateForUnknown];
  mkAttribute "deployment_id" true false false false [UseStateForUnknown];
  mkAttribute "type" true false false false [UseStateForUnknown];
  mkAttribute "description" true false false false [UseStateForUnknown];
  mkAttribute "tenant_id" false true false false [UseStateForUnknown];
  mkAttribute "secret" false false true true [UseStateForUnknown];
  mkAttribute "created_by" false false true false [];
  mkAttribute "created_at" false false true false [UseStateForUnknown];
  mkAttribute "last_used_at" false false true false []
].

Definition accessToken_createRequest (plan : accessTokenResourceModel)
  : AccessTokenCreateRequest :=
  {| atr_Type := types.ValueString (ar_Type plan);
     atr_Description := types.ValueString (ar_Description plan);
     atr_TenantID :=
       if negb (types.IsNull (ar_TenantID plan))
       then types.ValueString (ar_TenantID plan) else EmptyString |}.

Definition accessTokenResource_Create (req : tfsdkData accessTokenResourceModel)
  : Api (Response accessTokenResourceModel) :=
  let plan := Get_model req in
  let diags := Append [] (Get_diags req) in
  if HasError diags then ret (mkResponse diags None) else
  let createRequest := accessToken_createRequest plan in
  r <- invoke (CallCreateDeploymentAccessToken
                 (types.ValueString (ar_DeploymentID plan)) createRequest)
              (fun cl => CreateDeploymentAccessToken cl
                 (types.ValueString (ar_DeploymentID plan)) createRequest) ;;
  match r with
  | Err err =>
      ret (mkResponse
             (AddError diags "Error creating access token"
                ("Could not create access token, unexpected error: " ++ err))
             None)
  | Ok token =>
      let plan' :=
        {| ar_ID := types.StringValue (at_ID token);
           ar_DeploymentID := ar_DeploymentID plan;
           ar_Type := ar_Type plan;
           ar_Description := ar_Description plan;
           ar_TenantID := ar_TenantID plan;
           ar_Secret := types.StringValue (at_Secret token);
           ar_CreatedBy := types.StringValue (at_CreatedBy token);
           ar_CreatedAt := types.StringValue (Format_RFC3339 (at_CreatedAt token));
           ar_LastUsedAt :=
             match at_LastUsedAt token with
             | Some t => types.StringValue (Format_RFC3339 t)
             | None => ar_LastUsedAt plan
             end |} in
      ret (mkResponse diags (Some plan'))
  end.

Definition accessTokenResource_Read (req : tfsdkData accessTokenResourceModel)
  : Api (Response accessTokenResourceModel) :=
  let state := Get_model req in
  let diags := Append [] (Get_diags req) in
  if HasError diags then ret (mkResponse diags None) else
  r <- invoke (CallRevealDeploymentAccessToken
                 (types.ValueString (ar_DeploymentID state))
                 (types.ValueString (ar_ID state)))
              (fun cl => RevealDeploymentAccessToken cl
                 (types.ValueString (ar_DeploymentID state))
                 (types.ValueString (ar_ID state))) ;;
  match r with
  | Err err =>
      ret (mkResponse
             (AddError diags "Error Reading Access Token"
                ("Could not read access token ID " ++ types.ValueString (ar_ID state)
                   ++ ": " ++ err))
             None)
  | Ok token =>
      let state' :=
        {| ar_ID := ar_ID state;
           ar_DeploymentID := ar_DeploymentID state;
           ar_Type := types.StringValue (at_Type token);
           ar_Description := types.StringValue (at_Description token);
           ar_TenantID :=
             if negb (String.eqb (at_TenantID token) EmptyString)
             then types.StringValue (at_TenantID token)
             else ar_TenantID state;
           ar_Secret := types.StringValue (at_Secret token);
           ar_CreatedBy := types.StringValue (at_CreatedBy token);
           ar_CreatedAt := types.StringValue (Format_RFC3339 (at_CreatedAt token));
           ar_LastUsedAt :=
             match at_LastUsedAt token with
             | Some t => types.StringValue (Format_RFC3339 t)
             | None => types.StringNull
             end |} in
      ret (mkResponse diags (Some state'))
  end.

(** [Update] reads neither the plan nor the state. *)
Definition accessTokenResource_Update (req : tfsdkData accessTokenResourceModel)
  : Api (Response accessTokenResourceModel) :=
  ret (mkResponse
         (AddError [] "Update not supported"
            "Access tokens cannot be updated. Any changes require replacement.")
         None).

Definition accessTokenResource_Delete (req : tfsdkData accessTokenResourceModel)
  : Api (Response accessTokenResourceModel) :=
  let state := Get_model req in
  let diags := Append [] (Get_diags req) in
  if HasError diags then ret (mkResponse diags None) else
  r <- invoke (CallDeleteDeploymentAccessToken
                 (types.ValueString (ar_DeploymentID state))
                 (types.ValueString (ar_ID state)))
              (fun cl => DeleteDeploymentAccessToken cl
                 (types.ValueString (ar_DeploymentID state))
                 (types.ValueString (ar_ID state))) ;;
  match r with
  | Err err =>
      ret (mkResponse
             (AddError diags "Error deleting access token"
                ("Could not delete access token, unexpected error: " ++ err))
             None)
  | Ok _ => ret (mkResponse diags None)
  end.

(** The test of both [ImportState] methods: the number of parts is not 2,
    or the first part is empty, or the second part is empty.  Go's [||]
    evaluates [parts[1]] only when there are two parts. *)
Definition invalidImportParts (parts : list string) : bool :=
  negb (Nat.eqb (length parts) 2)
  || String.eqb (nth 0 parts EmptyString) EmptyString
  || String.eqb (nth 1 parts EmptyString) EmptyString.

Definition accessTokenResource_ImportState (ID : string) : ImportStateResponse :=
  let parts := Split ID "/"%char in
  if invalidImportParts parts then
    mkImportStateResponse
      (AddError [] "Invalid Import ID"
         ("Expected import identifier with format: deployment_id/token_id. Got: "
            ++ Quote ID))
      []
  else
    mkImportStateResponse []
      [("deployment_id", nth 0 parts EmptyString);
       ("id", nth 1 parts EmptyString)].

(** *** resource_rule_file.go *)
Record ruleFileResourceModel : Type := {
  rf_ID : types.String;
  rf_DeploymentID : types.String;
  rf_FileName : types.String;
  rf_Content : types.String
}.

Definition ruleFileResource_Schema : Schema := [
  mkAttribute "id" false false true false [UseStateForUnknown];
  mkAttribute "deployment_id" true false false false [RequiresReplace];
  mkAttribute "file_name" true false false false [RequiresReplace];
  mkAttribute "content" true false false false []
].

Definition ruleFileResource_Create (req : tfsdkData ruleFileResourceModel)
  : Api (Response ruleFileResourceModel) :=
  let plan := Get_model req in
  let diags := Append [] (Get_diags req) in
  if HasError diags then ret (mkResponse diags None) else
  r <- invoke (CallCreateDeploymentRuleFileContent
                 (types.ValueString (rf_DeploymentID plan))
                 (types.ValueString (rf_FileName plan))
                 (types.ValueString (rf_Content plan)))
              (fun cl => CreateDeploymentRuleFileContent cl
                 (types.ValueString (rf_DeploymentID plan))
                 (types.ValueString (rf_FileName plan))
                 (types.ValueString (rf_Content plan))) ;;
  match r with
  | Err err =>
      ret (mkResponse
             (AddError diags "Error creating rule file"
                ("Could not create rule file, unexpected error: " ++ err))
             None)
  | Ok _ =>
      let plan' :=
        {| rf_ID := types.StringValue
                      (types.ValueString (rf_DeploymentID plan) ++ "/"
                         ++ types.ValueString (rf_FileName plan));
           rf_DeploymentID := rf_DeploymentID plan;
           rf_FileName := rf_FileName plan;
           rf_Content := rf_Content plan |} in
      ret (mkResponse diags (Some plan'))
  end.

Definition ruleFileResource_Read (req : tfsdkData ruleFileResourceModel)
  : Api (Response ruleFileResourceModel) :=
  let state := Get_model req in
  let diags := Append [] (Get_diags req) in
  if HasError diags then ret (mkResponse diags None) else
  r <- invoke (CallGetDeploymentRuleFileContent
                 (types.ValueString (rf_DeploymentID state))
                 (types.ValueString (rf_FileName state)))
              (fun cl => GetDeploymentRuleFileContent cl
                 (types.ValueString (rf_DeploymentID state))
                 (types.ValueString (rf_FileName state))) ;;
  match r with
  | Err err =>
      ret (mkResponse
             (AddError diags "Error Reading Rule File"
                ("Could not read rule file " ++ types.ValueString (rf_FileName state)
                   ++ ": " ++ err))
             None)
  | Ok content =>
      let state' :=
        {| rf_ID := rf_ID state;
           rf_DeploymentID := rf_DeploymentID state;
           rf_FileName := rf_FileName state;
           rf_Content := types.StringValue content |} in
      ret (mkResponse diags (Some state'))
  end.

Definition ruleFileResource_Update (req : tfsdkData ruleFileResourceModel)
  : Api (Response ruleFileResourceModel) :=
  let plan := Get_model req in
  let diags := Append [] (Get_diags req) in
  if HasError diags then ret (mkResponse diags None) else
  r <- invoke (CallUpdateDeploymentRuleFileContent
                 (types.ValueString (rf_DeploymentID plan))
                 (types.ValueString (rf_FileName plan))
                 (types.ValueString (rf_Content plan)))
              (fun cl => UpdateDeploymentRuleFileContent cl
                 (types.ValueString (rf_DeploymentID plan))
                 (types.ValueString (rf_FileName plan))
                 (types.ValueString (rf_Content plan))) ;;
  match r with
  | Err err =>
      ret (mkResponse
             (AddError diags "Error updating rule file"
                ("Could not update rule file, unexpected error: " ++ err))
             None)
  | Ok _ => ret (mkResponse diags (Some plan))
  end.

Definition ruleFileResource_Delete (req : tfsdkData ruleFileResourceModel)
  : Api (Response ruleFileResourceModel) :=
  let state := Get_model req in
  let diags := Append [] (Get_diags req) in
  if HasError diags then ret (mkResponse diags None) else
  r <- invoke (CallDeleteDeploymentRuleFile
                 (types.ValueString (rf_DeploymentID state))
                 (types.ValueString (rf_FileName state)))
              (fun cl => DeleteDeploymentRuleFile cl
                 (types.ValueString (rf_DeploymentID state))
                 (types.ValueString (rf_FileName state))) ;;
  match r with
  | Err err =>
      ret (mkResponse
             (AddError diags "Error deleting rule file"
                ("Could not delete rule file, unexpected error: " ++ err))
             None)
  | Ok _ => ret (mkResponse diags None)
  end.

Definition ruleFileResource_ImportState (ID : string) : ImportStateResponse :=
  let parts := Split ID "/"%char in
  if invalidImportParts parts then
    mkImportStateResponse
      (AddError [] "Invalid Import ID"
         ("Expected import identifier with format: deployment_id/file_name. Got: "
            ++ Quote ID))
      []
  else
    mkImportStateResponse []
      [("deployment_id", nth 0 parts EmptyString);
       ("file_name", nth 1 parts EmptyString);
       ("id", ID)].

(** *** data_source_cloud_providers.go, data_source_regions.go,
    data_source_tiers.go, data_source_deployments.go *)
Record cloudProviderModel : Type := {
  cpm_ID : types.String;
  cpm_URL : types.String
}.

Record regionModel : Type := {
  rm_Name : types.String;
  rm_CloudProvider : types.String
}.

Record tierModel : Type := {
  tm_ID : types.Int64;
  tm_Type : types.String;
  tm_CloudProvider : types.String;
  tm_Name : types.String;
  tm_ComputeCostPerHour : types.Value float64;
  tm_IngestionRate : types.Int64;
  tm_ActiveTimeSeries : types.Int64;
  tm_NewSeriesOver24h : types.Int64;
  tm_DatapointsReadRate : types.Int64;
  tm_SeriesReadPerQuery : types.Int64;
  tm_AccessTokenConcurrentRequests : types.Int64
}.

Record deploymentSummaryModel : Type := {
  dsm_ID : types.String;
  dsm_Name : types.String;
  dsm_Type : types.String;
  dsm_Tier : types.Int64;
  dsm_Version : types.String;
  dsm_CloudProvider : types.String;
  dsm_Region : types.String;
  dsm_Status : types.String;
  dsm_CreatedAt : types.String
}.

Record cloudProvidersDataSourceModel : Type := {
  CloudProviders : slice cloudProviderModel
}.

Record regionsDataSourceModel : Type := {
  Regions : slice regionModel
}.

Record tiersDataSourceModel : Type := {
  Tiers : slice tierModel
}.

Record deploymentsDataSourceModel : Type := {
  Deployments : slice deploymentSummaryModel
}.

(** The loop [for _, x := range xs { state = append(state, f(x)) }]. *)
Definition rangeAppend {A B} (f : A -> B) (xs : list A) (state : slice B) : slice B :=
  fold_left (fun acc x => append acc (f x)) xs state.

Definition providerState (provider : CloudProvider) : cloudProviderModel :=
  {| cpm_ID := types.StringValue (cp_ID provider);
     cpm_URL := types.StringValue (cp_URL provider) |}.

Definition cloudProvidersDataSource_Read : Api (Response cloudProvidersDataSourceModel) :=
  r <- invoke CallListCloudProviders ListCloudProviders ;;
  match r with
  | Err err =>
      ret (mkResponse (AddError [] "Unable to Read Cloud Providers" err) None)
  | Ok providers =>
      ret (mkResponse []
             (Some {| CloudProviders := rangeAppend providerState providers nil_slice |}))
  end.

Definition regionState (region : Region) : regionModel :=
  {| rm_Name := types.StringValue (rg_Name region);
     rm_CloudProvider := types.StringValue (rg_CloudProvider region) |}.

Definition regionsDataSource_Read : Api (Response regionsDataSourceModel) :=
  r <- invoke CallListRegions ListRegions ;;
  match r with
  | Err err =>
      ret (mkResponse (AddError [] "Unable to Read Regions" err) None)
  | Ok regions =>
      ret (mkResponse []
             (Some {| Regions := rangeAppend regionState regions nil_slice |}))
  end.

Definition tierState (tier : Tier) : tierModel :=
  {| tm_ID := types.Int64Value (int64 (tr_ID tier));
     tm_Type := types.StringValue (tr_Type tier);
     tm_CloudProvider := types.StringValue (tr_CloudProvider tier);
     tm_Name := types.StringValue (tr_Name tier);
     tm_ComputeCostPerHour := types.Known (tr_ComputeCostPerHour tier);
     tm_IngestionRate := types.Int64Value (int64 (tr_IngestionRate tier));
     tm_ActiveTimeSeries := types.Int64Value (int64 (tr_ActiveTimeSeries tier));
     tm_NewSeriesOver24h := types.Int64Value (int64 (tr_NewSeriesOver24h tier));
     tm_DatapointsReadRate := types.Int64Value (int64 (tr_DatapointsReadRate tier));
     tm_SeriesReadPerQuery := types.Int64Value (int64 (tr_SeriesReadPerQuery tier));
     tm_AccessTokenConcurrentRequests :=
       types.Int64Value (int64 (tr_AccessTokenConcurrentRequests tier)) |}.

(** Every numeric field of the tier fits the state's 64-bit integer. *)
Definition tierFitsInt64 (tier : Tier) : Prop :=
  0 <= tr_ID tier < 2 ^ 63
  /\ 0 <= tr_IngestionRate tier < 2 ^ 63
  /\ 0 <= tr_ActiveTimeSeries tier < 2 ^ 63
  /\ 0 <= tr_NewSeriesOver24h tier < 2 ^ 63
  /\ 0 <= tr_DatapointsReadRate tier < 2 ^ 63
  /\ 0 <= tr_SeriesReadPerQuery tier < 2 ^ 63
  /\ 0 <= tr_AccessTokenConcurrentRequests tier < 2 ^ 63.

Definition tiersDataSource_Read : Api (Response tiersDataSourceModel) :=
  r <- invoke CallListTiers ListTiers ;;
  match r with
  | Err err =>
      ret (mkResponse (AddError [] "Unable to Read Tiers" err) None)
  | Ok tiers =>
      ret (mkResponse []
             (Some {| Tiers := rangeAppend tierState tiers nil_slice |}))
  end.

Definition deploymentState (deployment : DeploymentSummary) : deploymentSummaryModel :=
  {| dsm_ID := types.StringValue (dl_ID deployment);
     dsm_Name := types.StringValue (dl_Name deployment);
     dsm_Type := types.StringValue (dl_Type deployment);
     dsm_Tier := types.Int64Value (int64 (dl_Tier deployment));
     dsm_Version := types.StringValue (dl_Version deployment);
     dsm_CloudProvider := types.StringValue (dl_CloudProvider deployment);
     dsm_Region := types.StringValue (dl_Region deployment);
     dsm_Status := types.StringValue (dl_Status deployment);
     dsm_CreatedAt := types.StringValue (Format_RFC3339 (dl_CreatedAt deployment)) |}.

Definition deploymentsDataSource_Read : Api (Response deploymentsDataSourceModel) :=
  r <- invoke CallListDeployments ListDeployments ;;
  match r with
  | Err err =>
      ret (mkResponse (AddError [] "Unable to Read Deployments" err) None)
  | Ok deployments =>
      ret (mkResponse []
             (Some {| Deployments :=
                        rangeAppend deploymentState deployments (slice_of []) |}))
  end.

(** *** data_source_deployment.go *)
Record deploymentDataSourceModel : Type := {
  dd_ID : types.String;
  dd_Name : types.String;
  dd_Type : types.String;
  dd_CloudProvider : types.String;
  dd_Region : types.String;
  dd_Tier : types.Int64;
  dd_Retention : types.Int64;
  dd_RetentionUnit : types.String;
  dd_Deduplication : types.Int64;
  dd_DeduplicationUnit : types.String;
  dd_MaintenanceWindow : types.String;
  dd_Version : types.String;
  dd_Status : types.String;
  dd_CreatedAt : types.String;
  dd_AccessEndpoint : types.String;
  dd_StorageSizeGb : types.Int64;
  dd_ComputeCost : types.Value float64;
  dd_StorageCost : types.Value float64;
  dd_TotalCost : types.Value float64
}.

Definition deploymentDataSource_Read (req : tfsdkData deploymentDataSourceModel)
  : Api (Response deploymentDataSourceModel) :=
  let state := Get_model req in
  let diags := Append [] (Get_diags req) in
  if HasError diags then ret (mkResponse diags None) else
  r <- invoke (CallGetDeploymentDetails (types.ValueString (dd_ID state)))
              (fun cl => GetDeploymentDetails cl (types.ValueString (dd_ID state))) ;;
  match r with
  | Err err =>
      ret (mkResponse (AddError diags "Unable to Read Deployment" err) None)
  | Ok deployment =>
      let state' :=
        {| dd_ID := dd_ID state;
           dd_Name := types.StringValue (di_Name deployment);
           dd_Type := types.StringValue (di_Type deployment);
           dd_CloudProvider := types.StringValue (di_CloudProvider deployment);
           dd_Region := types.StringValue (di_Region deployment);
           dd_Tier := types.Int64Value (int64 (di_Tier deployment));
           dd_Retention := types.Int64Value (int64 (di_RetentionValue deployment));
           dd_RetentionUnit := types.StringValue (di_RetentionUnit deployment);
           dd_Deduplication := types.Int64Value (int64 (di_DeduplicationValue deployment));
           dd_DeduplicationUnit := types.StringValue (di_DeduplicationUnit deployment);
           dd_MaintenanceWindow := types.StringValue (di_MaintenanceWindow deployment);
           dd_Version := types.StringValue (di_Version deployment);
           dd_Status := types.StringValue (di_Status deployment);
           dd_CreatedAt := types.StringValue (Format_RFC3339 (di_CreatedAt deployment));
           dd_AccessEndpoint := types.StringValue (di_AccessEndpoint deployment);
           dd_StorageSizeGb := types.Int64Value (int64 (di_StorageSizeGb deployment));
           dd_ComputeCost := types.Known (ComputeCost (di_Price deployment));
           dd_StorageCost := types.Known (StorageCost (di_Price deployment));
           dd_TotalCost := types.Known (TotalCost (di_Price deployment)) |} in
      ret (mkResponse diags (Some state'))
  end.

(** *** provider.go *)
Record victoriametricsCloudProviderModel : Type := {
  APIKey : types.String;
  BaseURL : types.String
}.

Inductive VMCloudAPIClientOption : Type :=
| WithBaseURL (baseURL : string).

(** What [Configure] hands to the data sources and resources, and the
    calls of the constructor [vmcloudapi.New(apiKey, options...)]. *)
Record ConfigureResponse : Type := mkConfigureResponse {
  cfg_Diagnostics : Diagnostics;
  DataSourceData : option VMCloudAPIClient;
  ResourceData : option VMCloudAPIClient;
  cfg_New_calls : list (string * list VMCloudAPIClientOption)
}.

(** The key and the URL [Configure] settles on: the environment variable,
    overridden by a configuration value that is not null. *)
Definition resolved_apiKey (Getenv : string -> string)
    (config : victoriametricsCloudProviderModel) : string :=
  if negb (types.IsNull (APIKey config))
  then types.ValueString (APIKey config) else Getenv "VMCLOUD_API_KEY".

Definition resolved_baseURL (Getenv : string -> string)
    (config : victoriametricsCloudProviderModel) : string :=
  if negb (types.IsNull (BaseURL config))
  then types.ValueString (BaseURL config) else Getenv "VMCLOUD_BASE_URL".

(** The detail of the Missing API Key Configuration error. *)
Definition missingAPIKeyDetail : string :=
  "While configuring the provider, the API key was not found in "
    ++ "the VMCLOUD_API_KEY environment variable or provider "
    ++ "configuration block api_key attribute.".

(** [Getenv] is [os.Getenv] in the process environment and [New] the
    constructor of the client library. *)
Definition Configure
    (Getenv : string -> string)
    (New : string -> list VMCloudAPIClientOption -> result VMCloudAPIClient)
    (req : tfsdkData victoriametricsCloudProviderModel) : ConfigureResponse :=
  let config := Get_model req in
  let diags := Append [] (Get_diags req) in
  if HasError diags then mkConfigureResponse diags None None [] else
  let apiKey := resolved_apiKey Getenv config in
  let baseURL := resolved_baseURL Getenv config in
  if String.eqb apiKey EmptyString then
    mkConfigureResponse
      (AddError diags "Missing API Key Configuration" missingAPIKeyDetail)
      None None []
  else
    let options :=
      if negb (String.eqb baseURL EmptyString)
      then ([] ++ [WithBaseURL baseURL])%list else [] in
    match New apiKey options with
    | Err err =>
        mkConfigureResponse
          (AddError diags "Unable to Create VictoriaMetrics Cloud API Client"
             ("An unexpected error occurred when creating the VictoriaMetrics Cloud API client: "
                ++ err))
          None None [(apiKey, options)]
    | Ok client =>
        mkConfigureResponse diags (Some client) (Some client) [(apiKey, options)]
    end.

(** *** Every handler behind one type

    The operations the framework can ask of the provider's resources and
    data sources, each with its request. *)
Inductive Operation : Type :=
| DeploymentCreate (req : tfsdkData deploymentResourceModel)
| DeploymentRead (req : tfsdkData deploymentResourceModel)
| DeploymentUpdate (req : tfsdkData deploymentResourceModel)
| DeploymentDelete (req : tfsdkData deploymentResourceModel)
| DeploymentImportState (ID : string)
| AccessTokenCreate (req : tfsdkData accessTokenResourceModel)
| AccessTokenRead (req : tfsdkData accessTokenResourceModel)
| AccessTokenUpdate (req : tfsdkData accessTokenResourceModel)
| AccessTokenDelete (req : tfsdkData accessTokenResourceModel)
| AccessTokenImportState (ID : string)
| RuleFileCreate (req : tfsdkData ruleFileResourceModel)
| RuleFileRead (req : tfsdkData ruleFileResourceModel)
| RuleFileUpdate (req : tfsdkData ruleFileResourceModel)
| RuleFileDelete (req : tfsdkData ruleFileResourceModel)
| RuleFileImportState (ID : string)
| CloudProvidersRead
| RegionsRead
| TiersRead
| DeploymentsRead
| DeploymentDataRead (req : tfsdkData deploymentDataSourceModel).

(** What an operation did: the client methods it invoked, the diagnostics
    of its response, and whether it wrote the response state. *)
Record Outcome : Type := mkOutcome {
  out_calls : list ClientCall;
  out_Diagnostics : Diagnostics;
  out_stateSet : bool
}.

Definition isSome {A} (o : option A) : bool :=
  match o with Some _ => true | None => false end.

Definition outcome {M} (m : Api (Response M)) (cl : VMCloudAPIClient) : Outcome :=
  let (resp, calls) := m cl in
  mkOutcome calls (resp_Diagnostics resp) (isSome (resp_State resp)).

Definition importOutcome (resp : ImportStateResponse) : Outcome :=
  mkOutcome [] (imp_Diagnostics resp)
    (match imp_SetAttribute resp with [] => false | _ :: _ => true end).

Definition run (cl : VMCloudAPIClient) (op : Operation) : Outcome :=
  match op with
  | DeploymentCreate req => outcome (deploymentResource_Create req) cl
  | DeploymentRead req => outcome (deploymentResource_Read req) cl
  | DeploymentUpdate req => outcome (deploymentResource_Update req) cl
  | DeploymentDelete req => outcome (deploymentResource_Delete req) cl
  | DeploymentImportState ID => importOutcome (deploymentResource_ImportState ID)
  | AccessTokenCreate req => outcome (accessTokenResource_Create req) cl
  | AccessTokenRead req => outcome (accessTokenResource_Read req) cl
  | AccessTokenUpdate req => outcome (accessTokenResource_Update req) cl
  | AccessTokenDelete req => outcome (accessTokenResource_Delete req) cl
  | AccessTokenImportState ID => importOutcome (accessTokenResource_ImportState ID)
  | RuleFileCreate req => outcome (ruleFileResource_Create req) cl
  | RuleFileRead req => outcome (ruleFileResource_Read req) cl
  | RuleFileUpdate req => outcome (ruleFileResource_Update req) cl
  | RuleFileDelete req => outcome (ruleFileResource_Delete req) cl
  | RuleFileImportState ID => importOutcome (ruleFileResource_ImportState ID)
  | CloudProvidersRead => outcome cloudProvidersDataSource_Read cl
  | RegionsRead => outcome regionsDataSource_Read cl
  | TiersRead => outcome tiersDataSource_Read cl
  | DeploymentsRead => outcome deploymentsDataSource_Read cl
  | DeploymentDataRead req => outcome (deploymentDataSource_Read req) cl
  end.

(** The diagnostics that come from the framework's decoding: those of
    [Get] on the plan, state or configuration, and for the deployment
    [Update] those of [ElementsAs] on the flag lists. *)
Definition frameworkDiagnostics (op : Operation) : Diagnostics :=
  match op with
  | DeploymentUpdate req => fst (deployment_flags (Get_model req) (Get_diags req))
  | DeploymentCreate req | DeploymentRead req | DeploymentDelete req => Get_diags req
  | AccessTokenCreate req | AccessTokenRead req
  | AccessTokenUpdate req | AccessTokenDelete req => Get_diags req
  | RuleFileCreate req | RuleFileRead req
  | RuleFileUpdate req | RuleFileDelete req => Get_diags req
  | DeploymentDataRead req => Get_diags req
  | _ => []
  end.

(** Create, Read, Update and Delete of the deployment and the rule file,
    Create, Read and Delete of the access token, Read of a data source. *)
Definition isRemoteOperation (op : Operation) : bool :=
  match op with
  | DeploymentImportState _ | AccessTokenImportState _ | RuleFileImportState _
  | AccessTokenUpdate _ => false
  | _ => true
  end.

(** *** What the framework plans for a changed configuration

    The plugin framework's planning, as far as replacement goes.  With
    [changed] the attributes whose configured value differs from the state,
    the framework plans a replacement when a plan modifier of a changed
    attribute requires it, and an update in place otherwise. *)
Inductive PlannedAction : Type := NoOp | UpdateInPlace | Replace.

Definition requiresReplace (sch : Schema) (name : string) : bool :=
  existsb (fun a => String.eqb (attr_name a) name
                    && existsb isRequiresReplace (PlanModifiers a)) sch.

Definition plannedAction (sch : Schema) (changed : list string) : PlannedAction :=
  match changed with
  | [] => NoOp
  | _ :: _ => if existsb (requiresReplace sch) changed then Replace else UpdateInPlace
  end.

End Provider.

Arguments tierFitsInt64 {float64} tier.
Arguments cloudProvidersDataSource_Read {Time float64}.
Arguments regionsDataSource_Read {Time float64}.
Arguments tiersDataSource_Read {Time float64}.
Arguments deploymentsDataSource_Read {Time} Format_RFC3339 {float64}.

(** ** A concrete provider run, from [examples/]

    Times are given by their RFC 3339 text, costs by an integer number of
    cents, and [%q] wraps its argument in double quotes. *)
Module Example.

Definition Time : Type := string.
Definition Format_RFC3339 (t : Time) : string := t.
Definition float64 : Type := Z.
Definition Quote (s : string) : string :=
  String "034"%char (s ++ String "034"%char EmptyString).

(** [victoriametricscloud_deployment.single_demo] of
    [examples/resources], as planned for its creation. *)
Definition single_demo : deploymentResourceModel :=
  {| dr_ID := types.Unknown;
     dr_Name := types.Known "Single demo";
     dr_Type := types.Known "single_node";
     dr_CloudProvider := types.Known "aws";
     dr_Region := types.Known "eu-west-1";
     dr_Tier := types.Known 21;
     dr_StorageSize := types.Known 20;
     dr_StorageSizeUnit := types.Known "GB";
     dr_Retention := types.Known 30;
     dr_RetentionUnit := types.Known "d";
     dr_Deduplication := types.Known 30;
     dr_DeduplicationUnit := types.Known "s";
     dr_MaintenanceWindow := types.Known "Sat-Sun 3-4am";
     dr_SingleFlags := types.Known [types.Known "-search.maxQueryDuration=360s"];
     dr_SelectFlags := types.Null;
     dr_StorageFlags := types.Null;
     dr_InsertFlags := types.Null;
     dr_Version := types.Unknown;
     dr_Status := types.Unknown;
     dr_CreatedAt := types.Unknown;
     dr_AccessEndpoint := types.Unknown |}.

(** The deployment the API answers with. *)
Definition demoInfo : DeploymentInfo Time float64 :=
  {| di_ID := "dep-1";
     di_Name := "Single demo";
     di_Type := "single_node";
     di_CloudProvider := "aws";
     di_Region := "eu-west-1";
     di_Tier := 21;
     di_RetentionValue := 30;
     di_RetentionUnit := "d";
     di_DeduplicationValue := 30;
     di_DeduplicationUnit := "s";
     di_MaintenanceWindow := "Sat-Sun 3-4am";
     di_Version := "v1.106.0";
     di_Status := "RUNNING";
     di_CreatedAt := "2025-01-01T00:00:00Z";
     di_AccessEndpoint := "https://gw.example.cloud";
     di_StorageSizeGb := 2048;
     di_Price := {| ComputeCost := 19000; StorageCost := 200; TotalCost := 19200 |} |}.

(** [single_demo] once created: its state. *)
Definition single_demo_state : deploymentResourceModel :=
  {| dr_ID := types.Known "dep-1";
     dr_Name := types.Known "Single demo";
     dr_Type := types.Known "single_node";
     dr_CloudProvider := types.Known "aws";
     dr_Region := types.Known "eu-west-1";
     dr_Tier := types.Known 21;
     dr_StorageSize := types.Known 2;
     dr_StorageSizeUnit := types.Known "TB";
     dr_Retention := types.Known 30;
     dr_RetentionUnit := types.Known "d";
     dr_Deduplication := types.Known 30;
     dr_DeduplicationUnit := types.Known "s";
     dr_MaintenanceWindow := types.Known "Sat-Sun 3-4am";
     dr_SingleFlags := types.Known [types.Known "-search.maxQueryDuration=360s"];
     dr_SelectFlags := types.Null;
     dr_StorageFlags := types.Null;
     dr_InsertFlags := types.Null;
     dr_Version := types.Known "v1.106.0";
     dr_Status := types.Known "PROVISIONING";
     dr_CreatedAt := types.Known "2025-01-01T00:00:00Z";
     dr_AccessEndpoint := types.Known "https://gw.example.cloud" |}.

Definition demoToken : AccessToken Time :=
  {| at_ID := "tok-1";
     at_Type := "r";
     at_Description := "Grafana read-only token";
     at_TenantID := EmptyString;
     at_Secret := "s3cr3t";
     at_CreatedBy := "dev@example.com";
     at_CreatedAt := "2025-01-02T00:00:00Z";
     at_LastUsedAt := None |}.

(** [victoriametricscloud_access_token.single_grafana_token], planned and
    in the state. *)
Definition single_grafana_token : accessTokenResourceModel :=
  {| ar_ID := types.Unknown;
     ar_DeploymentID := types.Known "dep-1";
     ar_Type := types.Known "r";
     ar_Description := types.Known "Grafana read-only token";
     ar_TenantID := types.Null;
     ar_Secret := types.Unknown;
     ar_CreatedBy := types.Unknown;
     ar_CreatedAt := types.Unknown;
     ar_LastUsedAt := types.Unknown |}.

Definition single_grafana_token_state : accessTokenResourceModel :=
  {| ar_ID := types.Known "tok-1";
     ar_DeploymentID := types.Known "dep-1";
     ar_Type := types.Known "r";
     ar_Description := types.Known "Grafana read-only token";
     ar_TenantID := types.Known "7";
     ar_Secret := types.Known "s3cr3t";
     ar_CreatedBy := types.Known "dev@example.com";
     ar_CreatedAt := types.Known "2025-01-02T00:00:00Z";
     ar_LastUsedAt := types.Known "2025-01-03T00:00:00Z" |}.

Definition demoTier : Tier float64 :=
  {| tr_ID := 21;
     tr_Type := "single_node";
     tr_CloudProvider := "aws";
     tr_Name := "s.starter.a";
     tr_ComputeCostPerHour := 26;
     tr_IngestionRate := 2000;
     tr_ActiveTimeSeries := 100000;
     tr_NewSeriesOver24h := 100000;
     tr_DatapointsReadRate := 1000000;
     tr_SeriesReadPerQuery := 10000;
     tr_AccessTokenConcurrentRequests := 16 |}.

(** A remote API on which every call succeeds. *)
Definition client : VMCloudAPIClient Time float64 :=
  {| CreateDeployment := fun _ => Ok demoInfo;
     GetDeploymentDetails := fun _ => Ok demoInfo;
     UpdateDeployment := fun _ _ => Ok demoInfo;
     DeleteDeployment := fun _ => Ok tt;
     ListDeployments := Ok [];
     CreateDeploymentAccessToken := fun _ _ => Ok demoToken;
     RevealDeploymentAccessToken := fun _ _ => Ok demoToken;
     DeleteDeploymentAccessToken := fun _ _ => Ok tt;
     CreateDeploymentRuleFileContent := fun _ _ _ => Ok tt;
     GetDeploymentRuleFileContent := fun _ _ => Ok "groups: []";
     UpdateDeploymentRuleFileContent := fun _ _ _ => Ok tt;
     DeleteDeploymentRuleFile := fun _ _ => Ok tt;
     ListCloudProviders := Ok [ {| cp_ID := "aws"; cp_URL := "https://aws.amazon.com" |} ];
     ListRegions := Ok [ {| rg_Name := "eu-west-1"; rg_CloudProvider := "aws" |};
                         {| rg_Name := "us-east-2"; rg_CloudProvider := "aws" |} ];
     ListTiers := Ok [ demoTier ] |}.

(** The process environment without the provider's variables, one with
    both of them, and a client constructor that always succeeds. *)
Definition Getenv (name : string) : string := EmptyString.
Definition Getenv_set (name : string) : string :=
  if String.eqb name "VMCLOUD_API_KEY" then "key-of-the-environment"
  else if String.eqb name "VMCLOUD_BASE_URL" then "https://api.example.cloud"
  else EmptyString.
Definition New (apiKey : string) (options : list VMCloudAPIClientOption)
  : result (VMCloudAPIClient Time float64) := Ok client.

End Example.

(** ** The rest of the provider: registration, configuration of the
    handlers, and what a failed call reports *)

(** [strings.Count(s, string(sep))] for one byte. *)
Fixpoint CountByte (s : string) (sep : ascii) : nat :=
  match s with
  | EmptyString => O
  | String c rest => ((if Ascii.eqb c sep then 1 else 0) + CountByte rest sep)%nat
  end.

(** The ids of the form deployment id, slash, name: both parts not empty
    and without a slash. *)
Definition compositeID (ID : string) : Prop :=
  exists d f, ID = d ++ "/" ++ f
              /\ d <> EmptyString /\ f <> EmptyString
              /\ ContainsByte d "/" = false /\ ContainsByte f "/" = false.

Section Registration.

Variable Time : Type.
Variable float64 : Type.

(** A Go [any] as the [Configure] methods look at it: the nil interface, a
    [*vmcloudapi.VMCloudAPIClient], or a value of another dynamic type, given
    by what the [%T] verb of [fmt] prints for it. *)
Inductive any : Type :=
| any_nil
| any_client (client : VMCloudAPIClient Time float64)
| any_other (T : string).

(** The [DataSourceData] and [ResourceData] of the provider's response as
    the framework passes them on in [req.ProviderData]: a field never
    assigned is the nil interface. *)
Definition providerData (data : option (VMCloudAPIClient Time float64)) : any :=
  match data with
  | Some client => any_client client
  | None => any_nil
  end.

(** [Configure] of [deploymentResource], [accessTokenResource] and
    [ruleFileResource] (the three bodies are the same): from the receiver's
    [client] field and the request's [ProviderData], the diagnostics and the
    field afterwards. *)
Definition resource_Configure
    (client : option (VMCloudAPIClient Time float64)) (ProviderData : any)
  : Diagnostics * option (VMCloudAPIClient Time float64) :=
  match ProviderData with
  | any_nil => ([], client)
  | any_client c => ([], Some c)
  | any_other T =>
      (AddError [] "Unexpected Resource Configure Type"
         ("Expected *vmcloudapi.VMCloudAPIClient, got: " ++ T
            ++ ". Please report this issue to the provider developers."),
       client)
  end.

Definition deploymentResource_Configure := resource_Configure.
Definition accessTokenResource_Configure := resource_Configure.
Definition ruleFileResource_Configure := resource_Configure.

(** [Configure] of the five data sources (the same body in each). *)
Definition dataSource_Configure
    (client : option (VMCloudAPIClient Time float64)) (ProviderData : any)
  : Diagnostics * option (VMCloudAPIClient Time float64) :=
  match ProviderData with
  | any_nil => ([], client)
  | any_client c => ([], Some c)
  | any_other T =>
      (AddError [] "Unexpected Data Source Configure Type"
         ("Expected *vmcloudapi.VMCloudAPIClient, got: " ++ T
            ++ ". Please report this issue to the provider developers."),
       client)
  end.

Definition cloudProvidersDataSource_Configure := dataSource_Configure.
Definition regionsDataSource_Configure := dataSource_Configure.
Definition tiersDataSource_Configure := dataSource_Configure.
Definition deploymentDataSource_Configure := dataSource_Configure.
Definition deploymentsDataSource_Configure := dataSource_Configure.

(** The implementations the provider registers, and their [Metadata]: the
    type name each answers for a provider type name. *)
Inductive resourceImpl : Type :=
| deploymentResource
| accessTokenResource
| ruleFileResource.

Inductive dataSourceImpl : Type :=
| cloudProvidersDataSource
| regionsDataSource
| tiersDataSource
| deploymentDataSource
| deploymentsDataSource.

Definition resource_Metadata (r : resourceImpl) (ProviderTypeName : string) : string :=
  match r with
  | deploymentResource => ProviderTypeName ++ "_deployment"
  | accessTokenResource => ProviderTypeName ++ "_access_token"
  | ruleFileResource => ProviderTypeName ++ "_rule_file"
  end.

Definition dataSource_Metadata (d : dataSourceImpl) (ProviderTypeName : string) : string :=
  match d with
  | cloudProvidersDataSource => ProviderTypeName ++ "_cloud_providers"
  | regionsDataSource => ProviderTypeName ++ "_regions"
  | tiersDataSource => ProviderTypeName ++ "_tiers"
  | deploymentDataSource => ProviderTypeName ++ "_deployment"
  | deploymentsDataSource => ProviderTypeName ++ "_deployments"
  end.

(** [Metadata] of the provider: its type name and its version. *)
Definition victoriametricsCloudProvider_Metadata (version : string) : string * string :=
  ("victoriametricscloud", version).

(** [DataSources] and [Resources] of the provider, in their order. *)
Definition DataSources : list dataSourceImpl :=
  [cloudProvidersDataSource; regionsDataSource; tiersDataSource;
   deploymentDataSource; deploymentsDataSource].

Definition Resources : list resourceImpl :=
  [deploymentResource; accessTokenResource; ruleFileResource].

(** The [Error()] text of a failed answer. *)
Definition resultError {A} (r : result A) : option string :=
  match r with Ok _ => None | Err msg => Some msg end.

(** The error text the client answers this call with, if it fails. *)
Definition callError (cl : VMCloudAPIClient Time float64) (c : ClientCall) : option string :=
  match c with
  | CallCreateDeployment req => resultError (CreateDeployment cl req)
  | CallGetDeploymentDetails id => resultError (GetDeploymentDetails cl id)
  | CallUpdateDeployment id req => resultError (UpdateDeployment cl id req)
  | CallDeleteDeployment id => resultError (DeleteDeployment cl id)
  | CallListDeployments => resultError (ListDeployments cl)
  | CallCreateDeploymentAccessToken d req => resultError (CreateDeploymentAccessToken cl d req)
  | CallRevealDeploymentAccessToken d t => resultError (RevealDeploymentAccessToken cl d t)
  | CallDeleteDeploymentAccessToken d t => resultError (DeleteDeploymentAccessToken cl d t)
  | CallCreateDeploymentRuleFileContent d f c =>
      resultError (CreateDeploymentRuleFileContent cl d f c)
  | CallGetDeploymentRuleFileContent d f => resultError (GetDeploymentRuleFileContent cl d f)
  | CallUpdateDeploymentRuleFileContent d f c =>
      resultError (UpdateDeploymentRuleFileContent cl d f c)
  | CallDeleteDeploymentRuleFile d f => resultError (DeleteDeploymentRuleFile cl d f)
  | CallListCloudProviders => resultError (ListCloudProviders cl)
  | CallListRegions => resultError (ListRegions cl)
  | CallListTiers => resultError (ListTiers cl)
  end.

(** The diagnostics of [Get] on the request of an operation; the catalog
    data sources and [ImportState] decode nothing. *)
Definition decodeDiagnostics (op : Operation float64) : Diagnostics :=
  match op with
  | DeploymentCreate _ req | DeploymentRead _ req
  | DeploymentUpdate _ req | DeploymentDelete _ req => Get_diags req
  | AccessTokenCreate _ req | AccessTokenRead _ req
  | AccessTokenUpdate _ req | AccessTokenDelete _ req => Get_diags req
  | RuleFileCreate _ req | RuleFileRead _ req
  | RuleFileUpdate _ req | RuleFileDelete _ req => Get_diags req
  | DeploymentDataRead req => Get_diags req
  | _ => []
  end.

Definition isDelete (op : Operation float64) : bool :=
  match op with
  | DeploymentDelete _ _ | AccessTokenDelete _ _ | RuleFileDelete _ _ => true
  | _ => false
  end.

End Registration.

Arguments any_nil {Time float64}.
Arguments any_other {Time float64} T.
Arguments decodeDiagnostics {float64} op.
Arguments isDelete {float64} op.

(** A [types.Int64] as a plan, state or configuration can hold it: its
    number, when it has one, is an [int64]. *)
Definition fitsInt64 (v : types.Int64) : Prop :=
  match v with
  | types.Known n => - 2 ^ 63 <= n < 2 ^ 63
  | _ => True
  end.

(** *** Where a diagnostic comes from *)
Section Origins.

Variable Time : Type.
Variable Format_RFC3339 : Time -> string.
Variable float64 : Type.
Variable Quote : string -> string.

(** What [ElementsAs] of the framework reports for a flag list of the
    deployment [Update], which converts the lists that are not null. *)
Definition elementsAsDiagnostics (l : types.List) : Diagnostics :=
  if negb (types.IsNull l) then fst (ElementsAs l []) else [].

(** What the framework itself reports for an operation: the diagnostics of
    [Get] on the plan, state or configuration, and for the deployment
    [Update] those of [ElementsAs] on the four flag lists of the plan.
    Nothing here is computed by a handler. *)
Definition terraformDiagnostics (op : Operation float64) : Diagnostics :=
  match op with
  | DeploymentUpdate _ req =>
      (Get_diags req
         ++ elementsAsDiagnostics (dr_SingleFlags (Get_model req))
         ++ elementsAsDiagnostics (dr_SelectFlags (Get_model req))
         ++ elementsAsDiagnostics (dr_StorageFlags (Get_model req))
         ++ elementsAsDiagnostics (dr_InsertFlags (Get_model req)))%list
  | DeploymentCreate _ req | DeploymentRead _ req | DeploymentDelete _ req =>
      Get_diags req
  | AccessTokenCreate _ req | AccessTokenRead _ req
  | AccessTokenUpdate _ req | AccessTokenDelete _ req => Get_diags req
  | RuleFileCreate _ req | RuleFileRead _ req
  | RuleFileUpdate _ req | RuleFileDelete _ req => Get_diags req
  | DeploymentDataRead req => Get_diags req
  | _ => []
  end.

(** The diagnostic [d] reports a failed call: the operation invoked one
    client method, the client answered it with an error, and [d] is the last
    diagnostic of the response, an error whose detail ends with the text of
    the client's error. *)
Definition reportsFailedCall (cl : VMCloudAPIClient Time float64)
    (op : Operation float64) (d : Diagnostic) : Prop :=
  exists c msg summary prefix before,
    out_calls (run Format_RFC3339 Quote cl op) = [c]
    /\ callError cl c = Some msg
    /\ d = NewErrorDiagnostic summary (prefix ++ msg)
    /\ out_Diagnostics (run Format_RFC3339 Quote cl op) = (before ++ [d])%list.

(** Every diagnostic of the operation is one the framework reported or
    reports the failed call of the operation. *)
Definition diagnosticsComeFromOutside (cl : VMCloudAPIClient Time float64)
    (op : Operation float64) : Prop :=
  forall d, In d (out_Diagnostics (run Format_RFC3339 Quote cl op)) ->
    In d (terraformDiagnostics op) \/ reportsFailedCall cl op d.

(** The operations whose handler rejects an input itself: [ImportState] of
    the access token and of the rule file, and [Update] of the access
    token. *)
Definition checksLocally (op : Operation float64) : bool :=
  match op with
  | AccessTokenImportState _ _ | RuleFileImportState _ _
  | AccessTokenUpdate _ _ => true
  | _ => false
  end.

End Origins.

Arguments terraformDiagnostics {float64} op.
Arguments checksLocally {float64} op.

(** A second run: an API that answers every call with an error, the
    diagnostics of a plan that does not decode, and the rule file and the
    deployments of the examples. *)
Module Outage.

Definition client : VMCloudAPIClient Example.Time Example.float64 :=
  {| CreateDeployment := fun _ => Err "503 Service Unavailable";
     GetDeploymentDetails := fun _ => Err "503 Service Unavailable";
     UpdateDeployment := fun _ _ => Err "503 Service Unavailable";
     DeleteDeployment := fun _ => Err "503 Service Unavailable";
     ListDeployments := Err "503 Service Unavailable";
     CreateDeploymentAccessToken := fun _ _ => Err "503 Service Unavailable";
     RevealDeploymentAccessToken := fun _ _ => Err "503 Service Unavailable";
     DeleteDeploymentAccessToken := fun _ _ => Err "503 Service Unavailable";
     CreateDeploymentRuleFileContent := fun _ _ _ => Err "503 Service Unavailable";
     GetDeploymentRuleFileContent := fun _ _ => Err "503 Service Unavailable";
     UpdateDeploymentRuleFileContent := fun _ _ _ => Err "503 Service Unavailable";
     DeleteDeploymentRuleFile := fun _ _ => Err "503 Service Unavailable";
     ListCloudProviders := Err "503 Service Unavailable";
     ListRegions := Err "503 Service Unavailable";
     ListTiers := Err "503 Service Unavailable" |}.

Definition undecodable : Diagnostics :=
  [NewErrorDiagnostic "Value Conversion Error" "the plan does not fit the model"].

(** A warning of the framework's decoding. *)
Definition deprecation : Diagnostic :=
  mkDiagnostic SeverityWarning "Attribute Deprecated" "single_flags is deprecated".

(** The error a failed [Read] of the deployment of the examples reports. *)
Definition readError : Diagnostic :=
  NewErrorDiagnostic "Error Reading Deployment"
    "Could not read deployment ID dep-1: 503 Service Unavailable".

(** [single_demo] planned with numbers out of range: a tier above 2^32, a
    negative storage size, a retention of 2^32 and a negative
    deduplication. *)
Definition oversized : deploymentResourceModel :=
  {| dr_ID := types.Unknown;
     dr_Name := types.Known "Single demo";
     dr_Type := types.Known "single_node";
     dr_CloudProvider := types.Known "aws";
     dr_Region := types.Known "eu-west-1";
     dr_Tier := types.Known 4294967317;
     dr_StorageSize := types.Known (-1);
     dr_StorageSizeUnit := types.Known "GB";
     dr_Retention := types.Known 4294967296;
     dr_RetentionUnit := types.Known "d";
     dr_Deduplication := types.Known (-30);
     dr_DeduplicationUnit := types.Known "s";
     dr_MaintenanceWindow := types.Known "Sat-Sun 3-4am";
     dr_SingleFlags := types.Null;
     dr_SelectFlags := types.Null;
     dr_StorageFlags := types.Null;
     dr_InsertFlags := types.Null;
     dr_Version := types.Unknown;
     dr_Status := types.Unknown;
     dr_CreatedAt := types.Unknown;
     dr_AccessEndpoint := types.Unknown |}.

(** [victoriametricscloud_rule_file] of [examples/resources]. *)
Definition recording_rules : ruleFileResourceModel :=
  {| rf_ID := types.Known "dep-1/recording_rules.yaml";
     rf_DeploymentID := types.Known "dep-1";
     rf_FileName := types.Known "recording_rules.yaml";
     rf_Content := types.Known "groups: []" |}.

Definition demoSummary : DeploymentSummary Example.Time :=
  {| dl_ID := "dep-1";
     dl_Name := "Single demo";
     dl_Type := "single_node";
     dl_Tier := 21;
     dl_Version := "v1.106.0";
     dl_CloudProvider := "aws";
     dl_Region := "eu-west-1";
     dl_Status := "RUNNING";
     dl_CreatedAt := "2025-01-01T00:00:00Z" |}.

(** The configuration of a [victoriametricscloud_deployment] data source
    for the deployment of the examples. *)
Definition demoConfig : deploymentDataSourceModel Example.float64 :=
  {| dd_ID := types.Known "dep-1";
     dd_Name := types.Null; dd_Type := types.Null; dd_CloudProvider := types.Null;
     dd_Region := types.Null; dd_Tier := types.Null; dd_Retention := types.Null;
     dd_RetentionUnit := types.Null; dd_Deduplication := types.Null;
     dd_DeduplicationUnit := types.Null; dd_MaintenanceWindow := types.Null;
     dd_Version := types.Null; dd_Status := types.Null; dd_CreatedAt := types.Null;
     dd_AccessEndpoint := types.Null; dd_StorageSizeGb := types.Null;
     dd_ComputeCost := types.Null; dd_StorageCost := types.Null;
     dd_TotalCost := types.Null |}.

End Outage.

Unset Implicit Arguments.

(** ** Facts about the Go primitives *)

Lemma int64_in_range (x : Z) : - 2 ^ 63 <= x < 2 ^ 63 -> int64 x = x.
Proof.
  intros H. unfold int64.
  rewrite Z.mod_small by lia. lia.
Qed.

Lemma div_nonneg (x y : Z) : 0 <= x -> 0 < y -> div x y = x / y.
Proof.
  intros Hx Hy. unfold div. apply Z.quot_div_nonneg; lia.
Qed.

Lemma Split_not_nil (s : string) (sep : ascii) : Split s sep <> [].
Proof.
  destruct s as [|c rest]; cbn [Split]; [discriminate|].
  destruct (Ascii.eqb c sep); [discriminate|].
  destruct (Split rest sep); discriminate.
Qed.

Lemma Split_without_sep (s : string) (sep : ascii) :
  ContainsByte s sep = false -> Split s sep = [s].
Proof.
  induction s as [|c rest IH]; cbn [Split ContainsByte]; intros H; [reflexivity|].
  apply orb_false_iff in H. destruct H as [Hc Hrest].
  rewrite Hc, (IH Hrest). reflexivity.
Qed.

Lemma Split_app_sep (a b : string) (sep : ascii) :
  ContainsByte a sep = false ->
  Split (a ++ String sep b) sep = a :: Split b sep.
Proof.
  induction a as [|c rest IH]; cbn [Split ContainsByte String.append]; intros H.
  - rewrite Ascii.eqb_refl. reflexivity.
  - apply orb_false_iff in H. destruct H as [Hc Hrest].
    rewrite Hc, (IH Hrest). reflexivity.
Qed.

Lemma Join_Split (s : string) (sep : ascii) : Join (Split s sep) sep = s.
Proof.
  induction s as [|c rest IH]; cbn [Split]; [reflexivity|].
  destruct (Ascii.eqb_spec c sep) as [->|Hne].
  - pose proof (Split_not_nil rest sep) as Hnn.
    cbn [Join]. destruct (Split rest sep) as [|p ps]; [congruence|].
    cbn [String.append]. now rewrite IH.
  - pose proof (Split_not_nil rest sep) as Hnn.
    destruct (Split rest sep) as [|p ps]; [congruence|].
    destruct ps as [|q qs]; cbn [Join String.append] in *; now rewrite IH.
Qed.

Lemma Split_parts_without_sep (s : string) (sep : ascii) :
  Forall (fun p => ContainsByte p sep = false) (Split s sep).
Proof.
  induction s as [|c rest IH]; cbn [Split].
  - constructor; [reflexivity|constructor].
  - destruct (Ascii.eqb c sep) eqn:Hc.
    + constructor; [reflexivity|exact IH].
    + destruct (Split rest sep) as [|p ps]; [repeat constructor; cbn; now rewrite Hc|].
      inversion IH; subst. constructor; [|assumption].
      cbn [ContainsByte]. rewrite Hc. assumption.
Qed.

(** [Split] gives exactly two parts on the strings with exactly one
    separator, and the parts are what surrounds it. *)
Lemma Split_two_parts (s a b : string) (sep : ascii) :
  Split s sep = [a; b] <->
  s = a ++ String sep b /\ ContainsByte a sep = false /\ ContainsByte b sep = false.
Proof.
  split.
  - intros H. pose proof (Join_Split s sep) as HJ.
    pose proof (Split_parts_without_sep s sep) as HF.
    rewrite H in HJ, HF. cbn [Join] in HJ.
    inversion HF as [|? ? Ha HF']; subst. inversion HF' as [|? ? Hb _]; subst.
    auto.
  - intros (-> & Ha & Hb).
    rewrite (Split_app_sep _ _ _ Ha), (Split_without_sep _ _ Hb). reflexivity.
Qed.

(** ** Import identifiers *)

Lemma invalidImportParts_false (parts : list string) :
  invalidImportParts parts = false <->
  exists a b, parts = [a; b] /\ a <> EmptyString /\ b <> EmptyString.
Proof.
  unfold invalidImportParts. split.
  - intros H.
    apply orb_false_iff in H. destruct H as [H Hb].
    apply orb_false_iff in H. destruct H as [Hlen Ha].
    destruct parts as [|a [|b [|c rest]]]; cbn in Hlen; try discriminate.
    cbn [nth] in Ha, Hb.
    exists a, b. repeat split.
    + intros ->. discriminate.
    + intros ->. discriminate.
  - intros (a & b & -> & Ha & Hb). cbn [length nth Nat.eqb negb orb].
    apply String.eqb_neq in Ha. apply String.eqb_neq in Hb.
    rewrite Ha, Hb. reflexivity.
Qed.

Lemma invalidImportParts_true (parts : list string) :
  invalidImportParts parts = true <->
  ~ exists a b, parts = [a; b] /\ a <> EmptyString /\ b <> EmptyString.
Proof.
  rewrite <- invalidImportParts_false.
  destruct (invalidImportParts parts); split; congruence.
Qed.

Section Properties.

Context {Time float64 : Type}.
Variable Format_RFC3339 : Time -> string.
Variable Quote : string -> string.

Local Notation "'Client'" := (VMCloudAPIClient Time float64).

(** Run a handler up to its first test. *)
Ltac handler_steps :=
  unfold answer_of, calls_of, outcome, bind, invoke, ret;
  cbn [Get_diags Get_model Append app fst snd].

(** C3 (composite identifiers).  A successful rule-file [Create] stores the
    id made of the deployment id, a slash and the file name.  For a
    deployment id and a name that are not empty and hold no slash, importing
    that composite id writes back exactly the deployment id and the file name
    (the token id, for an access token) and reports nothing.  For every
    import id, either [ImportState] reports Invalid Import ID exactly when
    splitting the id at the slashes does not give two parts that are both
    non-empty. *)
Theorem composite_id_round_trip (deploymentID name : string)
    (Hd : deploymentID <> EmptyString) (Hn : name <> EmptyString)
    (Hds : ContainsByte deploymentID "/" = false)
    (Hns : ContainsByte name "/" = false) :
  (forall (cl : Client) diags plan u,
      HasError diags = false ->
      CreateDeploymentRuleFileContent cl
        (types.ValueString (rf_DeploymentID plan))
        (types.ValueString (rf_FileName plan))
        (types.ValueString (rf_Content plan)) = Ok u ->
      option_map rf_ID
        (resp_State (answer_of (ruleFileResource_Create (mktfsdkData diags plan)) cl))
      = Some (types.StringValue
                (types.ValueString (rf_DeploymentID plan) ++ "/"
                   ++ types.ValueString (rf_FileName plan))))
  /\ ruleFileResource_ImportState Quote (deploymentID ++ "/" ++ name)
     = mkImportStateResponse []
         [("deployment_id", deploymentID); ("file_name", name);
          ("id", deploymentID ++ "/" ++ name)]
  /\ accessTokenResource_ImportState Quote (deploymentID ++ "/" ++ name)
     = mkImportStateResponse [] [("deployment_id", deploymentID); ("id", name)]
  /\ (forall ID,
        hasSummary "Invalid Import ID"
          (imp_Diagnostics (ruleFileResource_ImportState Quote ID)) = true
        <-> ~ exists a b, Split ID "/" = [a; b] /\ a <> EmptyString /\ b <> EmptyString)
  /\ (forall ID,
        hasSummary "Invalid Import ID"
          (imp_Diagnostics (accessTokenResource_ImportState Quote ID)) = true
        <-> ~ exists a b, Split ID "/" = [a; b] /\ a <> EmptyString /\ b <> EmptyString)
  /\ (forall ID,
        HasError (imp_Diagnostics (ruleFileResource_ImportState Quote ID))
        = hasSummary "Invalid Import ID"
            (imp_Diagnostics (ruleFileResource_ImportState Quote ID))
        /\ HasError (imp_Diagnostics (accessTokenResource_ImportState Quote ID))
           = hasSummary "Invalid Import ID"
               (imp_Diagnostics (accessTokenResource_ImportState Quote ID))).
Proof.
  assert (Hsplit : Split (deploymentID ++ "/" ++ name) "/" = [deploymentID; name]).
  { apply Split_two_parts. auto. }
  assert (Hvalid : invalidImportParts [deploymentID; name] = false).
  { apply invalidImportParts_false. eauto. }
  repeat split.
  - intros cl diags plan u Hdiags Hcall.
    unfold ruleFileResource_Create. handler_steps.
    rewrite Hdiags, Hcall. reflexivity.
  - unfold ruleFileResource_ImportState. rewrite Hsplit, Hvalid. reflexivity.
  - unfold accessTokenResource_ImportState. rewrite Hsplit, Hvalid. reflexivity.
  - unfold ruleFileResource_ImportState.
    destruct (invalidImportParts (Split ID "/")) eqn:E; cbn.
    + intros _. now apply invalidImportParts_true.
    + discriminate.
  - unfold ruleFileResource_ImportState. intros Hno.
    apply invalidImportParts_true in Hno. rewrite Hno. reflexivity.
  - unfold accessTokenResource_ImportState.
    destruct (invalidImportParts (Split ID "/")) eqn:E; cbn.
    + intros _. now apply invalidImportParts_true.
    + discriminate.
  - unfold accessTokenResource_ImportState. intros Hno.
    apply invalidImportParts_true in Hno. rewrite Hno. reflexivity.
  - unfold ruleFileResource_ImportState.
    destruct (invalidImportParts (Split ID "/")); reflexivity.
  - unfold accessTokenResource_ImportState.
    destruct (invalidImportParts (Split ID "/")); reflexivity.
Qed.

(** *** The deployment resource *)

(** A successful [Read]: the whole response. *)
Lemma deploymentResource_Read_ok (cl : Client) diags state deployment :
  HasError diags = false ->
  GetDeploymentDetails cl (types.ValueString (dr_ID state)) = Ok deployment ->
  exists state',
    deploymentResource_Read Format_RFC3339 (mktfsdkData diags state) cl
    = (mkResponse diags (Some state'),
       [CallGetDeploymentDetails (types.ValueString (dr_ID state))])
    /\ dr_StorageSize state' = deployment_storageSize state deployment
    /\ dr_StorageSizeUnit state' = dr_StorageSizeUnit state.
Proof.
  intros Hdiags Hcall. eexists.
  unfold deploymentResource_Read. handler_steps.
  rewrite Hdiags, Hcall. cbn [fst snd app].
  split; [reflexivity|]. split; reflexivity.
Qed.

(** C2 (storage size on refresh).  In a successful [Read] of a deployment
    whose storage size in GB fits the state's 64-bit integer: with the unit
    GB the state's [storage_size] is the size in GB; with the unit TB it is
    the size in GB divided by 1024, so that a size of [n] whole TB, held as
    [n * 1024] GB, reads back as [n]; with any other unit, null or unknown,
    [storage_size] is the one of the prior state.  The unit itself is never
    changed. *)
Theorem deployment_Read_storage_size (cl : Client) diags state deployment
    (Hdiags : HasError diags = false)
    (Hcall : GetDeploymentDetails cl (types.ValueString (dr_ID state)) = Ok deployment)
    (Hrange : 0 <= di_StorageSizeGb deployment < 2 ^ 63) :
  exists state',
    resp_State
      (answer_of (deploymentResource_Read Format_RFC3339 (mktfsdkData diags state)) cl)
    = Some state'
    /\ dr_StorageSizeUnit state' = dr_StorageSizeUnit state
    /\ (dr_StorageSizeUnit state = types.StringValue "GB" ->
        dr_StorageSize state' = types.Int64Value (di_StorageSizeGb deployment))
    /\ (dr_StorageSizeUnit state = types.StringValue "TB" ->
        dr_StorageSize state' = types.Int64Value (di_StorageSizeGb deployment / 1024))
    /\ (forall n, dr_StorageSizeUnit state = types.StringValue "TB" ->
        di_StorageSizeGb deployment = n * 1024 ->
        dr_StorageSize state' = types.Int64Value n)
    /\ (dr_StorageSizeUnit state <> types.StringValue "GB" ->
        dr_StorageSizeUnit state <> types.StringValue "TB" ->
        dr_StorageSize state' = dr_StorageSize state).
Proof.
  destruct (@deploymentResource_Read_ok cl diags state deployment Hdiags Hcall)
    as (state' & Hrun & Hsize & Hunit).
  exists state'. unfold answer_of. rewrite Hrun. cbn [fst resp_State].
  split; [reflexivity|]. split; [exact Hunit|].
  rewrite Hsize. unfold deployment_storageSize.
  assert (HTB : int64 (div (di_StorageSizeGb deployment) 1024)
                = di_StorageSizeGb deployment / 1024).
  { rewrite div_nonneg by lia. apply int64_in_range.
    assert (0 <= di_StorageSizeGb deployment / 1024) by (apply Z.div_pos; lia).
    assert (di_StorageSizeGb deployment / 1024 <= di_StorageSizeGb deployment)
      by (apply Z.div_le_upper_bound; lia).
    lia. }
  repeat split.
  - intros ->. cbn. now rewrite int64_in_range by lia.
  - intros ->. cbn. now rewrite HTB.
  - intros n -> Hn. cbn. rewrite HTB, Hn, Z.div_mul by lia. reflexivity.
  - intros HGB HTB'.
    destruct (dr_StorageSizeUnit state) as [| |unit]; cbn; try reflexivity.
    destruct (String.eqb_spec unit "GB") as [->|_]; [now elim HGB|].
    destruct (String.eqb_spec unit "TB") as [->|_]; [now elim HTB'|].
    reflexivity.
Qed.

(** The flags [Update] sends do not depend on the type, the cloud provider
    or the region of the plan. *)
Lemma deployment_flags_withPlacement plan type cloudProvider region diags :
  deployment_flags (withPlacement plan type cloudProvider region) diags
  = deployment_flags plan diags.
Proof. reflexivity. Qed.

Lemma deployment_updateRequest_withPlacement plan type cloudProvider region flags :
  deployment_updateRequest (withPlacement plan type cloudProvider region) flags
  = deployment_updateRequest plan flags.
Proof. reflexivity. Qed.

(** C7 (what [Update] touches).  The only client call of a deployment
    [Update] is [UpdateDeployment] with the planned id and a request made of
    the name, the tier, the storage size and unit, the retention and
    deduplication values and units, the maintenance window and the flags;
    plans that differ only in type, cloud provider and region produce the
    same call.  After a successful [Update] the state is the plan with
    version, status and access endpoint taken from the answer: type, cloud
    provider, region and creation time, like every other attribute, are
    those of the plan. *)
Theorem deployment_Update_frame (cl : Client) diags plan deployment
    (Hdiags : HasError diags = false)
    (Hflags : HasError (fst (deployment_flags plan diags)) = false)
    (Hcall : UpdateDeployment cl (types.ValueString (dr_ID plan))
               (deployment_updateRequest plan (snd (deployment_flags plan diags)))
             = Ok deployment) :
  (forall type cloudProvider region,
      calls_of (deploymentResource_Update
                  (mktfsdkData diags (withPlacement plan type cloudProvider region))) cl
      = calls_of (deploymentResource_Update (mktfsdkData diags plan)) cl)
  /\ calls_of (deploymentResource_Update (mktfsdkData diags plan)) cl
     = [CallUpdateDeployment (types.ValueString (dr_ID plan))
          {| dur_Name := types.ValueString (dr_Name plan);
             dur_Tier := uint32 (types.ValueInt64 (dr_Tier plan));
             dur_StorageSize := uint64 (types.ValueInt64 (dr_StorageSize plan));
             dur_StorageSizeUnit := types.ValueString (dr_StorageSizeUnit plan);
             dur_Retention := uint32 (types.ValueInt64 (dr_Retention plan));
             dur_RetentionUnit := types.ValueString (dr_RetentionUnit plan);
             dur_Deduplication := uint32 (types.ValueInt64 (dr_Deduplication plan));
             dur_DeduplicationUnit := types.ValueString (dr_DeduplicationUnit plan);
             dur_MaintenanceWindow := types.ValueString (dr_MaintenanceWindow plan);
             dur_Flags := snd (deployment_flags plan diags) |}]
  /\ exists state',
       resp_State (answer_of (deploymentResource_Update (mktfsdkData diags plan)) cl)
       = Some state'
       /\ dr_Type state' = dr_Type plan
       /\ dr_CloudProvider state' = dr_CloudProvider plan
       /\ dr_Region state' = dr_Region plan
       /\ dr_CreatedAt state' = dr_CreatedAt plan
       /\ dr_Version state' = types.StringValue (di_Version deployment)
       /\ dr_Status state' = types.StringValue (di_Status deployment)
       /\ dr_AccessEndpoint state' = types.StringValue (di_AccessEndpoint deployment)
       /\ withPlacement state' (dr_Type plan) (dr_CloudProvider plan) (dr_Region plan)
          = {| dr_ID := dr_ID plan; dr_Name := dr_Name plan; dr_Type := dr_Type plan;
               dr_CloudProvider := dr_CloudProvider plan; dr_Region := dr_Region plan;
               dr_Tier := dr_Tier plan; dr_StorageSize := dr_StorageSize plan;
               dr_StorageSizeUnit := dr_StorageSizeUnit plan;
               dr_Retention := dr_Retention plan;
               dr_RetentionUnit := dr_RetentionUnit plan;
               dr_Deduplication := dr_Deduplication plan;
               dr_DeduplicationUnit := dr_DeduplicationUnit plan;
               dr_MaintenanceWindow := dr_MaintenanceWindow plan;
               dr_SingleFlags := dr_SingleFlags plan;
               dr_SelectFlags := dr_SelectFlags plan;
               dr_StorageFlags := dr_StorageFlags plan;
               dr_InsertFlags := dr_InsertFlags plan;
               dr_Version := types.StringValue (di_Version deployment);
               dr_Status := types.StringValue (di_Status deployment);
               dr_CreatedAt := dr_CreatedAt plan;
               dr_AccessEndpoint := types.StringValue (di_AccessEndpoint deployment) |}.
Proof.
  split; [|split].
  - intros type cloudProvider region.
    unfold deploymentResource_Update. handler_steps.
    destruct (HasError diags); [reflexivity|].
    rewrite deployment_flags_withPlacement.
    destruct (deployment_flags plan diags) as [diags' flags].
    destruct (HasError diags'); [reflexivity|].
    rewrite deployment_updateRequest_withPlacement.
    change (dr_ID (withPlacement plan type cloudProvider region)) with (dr_ID plan).
    destruct (UpdateDeployment cl _ _); reflexivity.
  - unfold deploymentResource_Update. handler_steps. rewrite Hdiags.
    destruct (deployment_flags plan diags) as [diags' flags].
    cbn [fst snd] in *. rewrite Hflags, Hcall. reflexivity.
  - unfold deploymentResource_Update. handler_steps. rewrite Hdiags.
    destruct (deployment_flags plan diags) as [diags' flags].
    cbn [fst snd] in *. rewrite Hflags, Hcall. cbn [fst resp_State].
    eexists. split; [reflexivity|]. repeat split.
Qed.

(** *** The access-token resource *)

(** C10 (last use and tenant on refresh and on creation).  A successful
    [Read] sets [last_used_at] to the RFC 3339 text of the reported last use,
    and to null when the API reports none; it sets [tenant_id] to the
    reported tenant only when that is not empty and keeps the prior state's
    value otherwise.  A successful [Create] sets [last_used_at] only when the
    API reports a last use and leaves the planned value otherwise. *)
Theorem accessToken_last_used_and_tenant (cl : Client) diags state plan token created
    (Hdiags : HasError diags = false)
    (Hread : RevealDeploymentAccessToken cl
               (types.ValueString (ar_DeploymentID state))
               (types.ValueString (ar_ID state)) = Ok token)
    (Hcreate : CreateDeploymentAccessToken cl
                 (types.ValueString (ar_DeploymentID plan))
                 (accessToken_createRequest plan) = Ok created) :
  (exists state',
      resp_State
        (answer_of (accessTokenResource_Read Format_RFC3339 (mktfsdkData diags state)) cl)
      = Some state'
      /\ (forall t, at_LastUsedAt token = Some t ->
            ar_LastUsedAt state' = types.StringValue (Format_RFC3339 t))
      /\ (at_LastUsedAt token = None -> ar_LastUsedAt state' = types.StringNull)
      /\ (at_TenantID token <> EmptyString ->
            ar_TenantID state' = types.StringValue (at_TenantID token))
      /\ (at_TenantID token = EmptyString -> ar_TenantID state' = ar_TenantID state))
  /\ (exists plan',
        resp_State
          (answer_of (accessTokenResource_Create Format_RFC3339 (mktfsdkData diags plan)) cl)
        = Some plan'
        /\ (forall t, at_LastUsedAt created = Some t ->
              ar_LastUsedAt plan' = types.StringValue (Format_RFC3339 t))
        /\ (at_LastUsedAt created = None -> ar_LastUsedAt plan' = ar_LastUsedAt plan)).
Proof.
  split.
  - unfold accessTokenResource_Read. handler_steps. rewrite Hdiags, Hread.
    cbn [fst resp_State]. eexists. split; [reflexivity|].
    cbn [ar_LastUsedAt ar_TenantID]. repeat split.
    + intros t ->. reflexivity.
    + intros ->. reflexivity.
    + intros Hne. apply String.eqb_neq in Hne. now rewrite Hne.
    + intros ->. reflexivity.
  - unfold accessTokenResource_Create. handler_steps. rewrite Hdiags, Hcreate.
    cbn [fst resp_State]. eexists. split; [reflexivity|].
    cbn [ar_LastUsedAt]. split.
    + intros t ->. reflexivity.
    + intros ->. reflexivity.
Qed.

(** *** The catalog data sources *)

Lemma rangeAppend_map {A B} (f : A -> B) (xs : list A) (state : slice B) :
  elements (rangeAppend f xs state) = (elements state ++ map f xs)%list.
Proof.
  unfold rangeAppend. revert state.
  induction xs as [|x xs IH]; intros state; cbn [fold_left map].
  - now rewrite app_nil_r.
  - rewrite IH. unfold append. cbn [elements]. rewrite <- app_assoc. reflexivity.
Qed.

Lemma rangeAppend_len {A B} (f : A -> B) (xs : list A) :
  len (rangeAppend f xs nil_slice) = length xs.
Proof.
  unfold len. rewrite rangeAppend_map. cbn [elements app]. apply length_map.
Qed.

Lemma tierState_fits (tier : Tier float64) :
  tierFitsInt64 tier ->
  tierState tier
  = {| tm_ID := types.Int64Value (tr_ID tier);
       tm_Type := types.StringValue (tr_Type tier);
       tm_CloudProvider := types.StringValue (tr_CloudProvider tier);
       tm_Name := types.StringValue (tr_Name tier);
       tm_ComputeCostPerHour := types.Known (tr_ComputeCostPerHour tier);
       tm_IngestionRate := types.Int64Value (tr_IngestionRate tier);
       tm_ActiveTimeSeries := types.Int64Value (tr_ActiveTimeSeries tier);
       tm_NewSeriesOver24h := types.Int64Value (tr_NewSeriesOver24h tier);
       tm_DatapointsReadRate := types.Int64Value (tr_DatapointsReadRate tier);
       tm_SeriesReadPerQuery := types.Int64Value (tr_SeriesReadPerQuery tier);
       tm_AccessTokenConcurrentRequests :=
         types.Int64Value (tr_AccessTokenConcurrentRequests tier) |}.
Proof.
  intros (H1 & H2 & H3 & H4 & H5 & H6 & H7). unfold tierState.
  rewrite !int64_in_range by lia. reflexivity.
Qed.

(** C8 (catalog reads).  Whatever the client answers, the cloud-providers,
    regions and tiers data sources invoke exactly one client method, the
    list method of their catalog, which changes nothing remotely.  When it
    succeeds the state list has the length of the answer and its [i]-th
    element carries the fields of the [i]-th entry of the answer (for tiers,
    with numeric fields that fit the state's 64-bit integers). *)
Theorem catalog_Read_pass_through (cl : Client) :
  (calls_of cloudProvidersDataSource_Read cl = [CallListCloudProviders]
   /\ calls_of regionsDataSource_Read cl = [CallListRegions]
   /\ calls_of tiersDataSource_Read cl = [CallListTiers]
   /\ isMutating CallListCloudProviders = false
   /\ isMutating CallListRegions = false
   /\ isMutating CallListTiers = false)
  /\ (forall providers, ListCloudProviders cl = Ok providers ->
        exists state,
          resp_State (answer_of cloudProvidersDataSource_Read cl) = Some state
          /\ len (CloudProviders state) = length providers
          /\ forall i provider, nth_error providers i = Some provider ->
               nth_error (elements (CloudProviders state)) i
               = Some {| cpm_ID := types.StringValue (cp_ID provider);
                         cpm_URL := types.StringValue (cp_URL provider) |})
  /\ (forall regions, ListRegions cl = Ok regions ->
        exists state,
          resp_State (answer_of regionsDataSource_Read cl) = Some state
          /\ len (Regions state) = length regions
          /\ forall i region, nth_error regions i = Some region ->
               nth_error (elements (Regions state)) i
               = Some {| rm_Name := types.StringValue (rg_Name region);
                         rm_CloudProvider := types.StringValue (rg_CloudProvider region) |})
  /\ (forall tiers, ListTiers cl = Ok tiers -> Forall tierFitsInt64 tiers ->
        exists state,
          resp_State (answer_of tiersDataSource_Read cl) = Some state
          /\ len (Tiers state) = length tiers
          /\ forall i tier, nth_error tiers i = Some tier ->
               nth_error (elements (Tiers state)) i
               = Some {| tm_ID := types.Int64Value (tr_ID tier);
                         tm_Type := types.StringValue (tr_Type tier);
                         tm_CloudProvider := types.StringValue (tr_CloudProvider tier);
                         tm_Name := types.StringValue (tr_Name tier);
                         tm_ComputeCostPerHour := types.Known (tr_ComputeCostPerHour tier);
                         tm_IngestionRate := types.Int64Value (tr_IngestionRate tier);
                         tm_ActiveTimeSeries := types.Int64Value (tr_ActiveTimeSeries tier);
                         tm_NewSeriesOver24h := types.Int64Value (tr_NewSeriesOver24h tier);
                         tm_DatapointsReadRate :=
                           types.Int64Value (tr_DatapointsReadRate tier);
                         tm_SeriesReadPerQuery :=
                           types.Int64Value (tr_SeriesReadPerQuery tier);
                         tm_AccessTokenConcurrentRequests :=
                           types.Int64Value (tr_AccessTokenConcurrentRequests tier) |}).
Proof.
  split; [|split; [|split]].
  - unfold cloudProvidersDataSource_Read, regionsDataSource_Read, tiersDataSource_Read.
    handler_steps.
    destruct (ListCloudProviders cl), (ListRegions cl), (ListTiers cl);
      repeat split; reflexivity.
  - intros providers Hcall. unfold cloudProvidersDataSource_Read. handler_steps.
    rewrite Hcall. cbn [fst resp_State].
    eexists. split; [reflexivity|]. cbn [CloudProviders].
    split; [apply rangeAppend_len|].
    intros i provider Hi. rewrite rangeAppend_map. cbn [elements app].
    rewrite nth_error_map, Hi. reflexivity.
  - intros regions Hcall. unfold regionsDataSource_Read. handler_steps.
    rewrite Hcall. cbn [fst resp_State].
    eexists. split; [reflexivity|]. cbn [Regions].
    split; [apply rangeAppend_len|].
    intros i region Hi. rewrite rangeAppend_map. cbn [elements app].
    rewrite nth_error_map, Hi. reflexivity.
  - intros tiers Hcall Hfit. unfold tiersDataSource_Read. handler_steps.
    rewrite Hcall. cbn [fst resp_State].
    eexists. split; [reflexivity|]. cbn [Tiers].
    split; [apply rangeAppend_len|].
    intros i tier Hi. rewrite rangeAppend_map. cbn [elements app].
    rewrite nth_error_map, Hi. cbn [option_map].
    rewrite tierState_fits; [reflexivity|].
    rewrite Forall_forall in Hfit. apply Hfit. eapply nth_error_In; eauto.
Qed.

(** With an empty answer the catalog data sources hand [State.Set] the nil
    slice they started from, where the deployments data source, which starts
    from an allocated slice, hands it an empty one. *)
Lemma catalog_state_of_empty_answer (cl : Client) :
  ListCloudProviders cl = Ok [] -> ListDeployments cl = Ok [] ->
  resp_State (answer_of cloudProvidersDataSource_Read cl)
  = Some {| CloudProviders := nil_slice |}
  /\ resp_State (answer_of (deploymentsDataSource_Read Format_RFC3339) cl)
     = Some {| Deployments := slice_of [] |}.
Proof.
  intros Hp Hd.
  unfold cloudProvidersDataSource_Read, deploymentsDataSource_Read. handler_steps.
  rewrite Hp, Hd. split; reflexivity.
Qed.

(** *** The provider configuration *)

Lemma not_In_error_of_no_error (ds : Diagnostics) (summary detail : string) :
  HasError ds = false -> ~ In (NewErrorDiagnostic summary detail) ds.
Proof.
  intros H Hin. unfold HasError in H.
  assert (existsb isError ds = true) as H'.
  { apply existsb_exists. eexists. split; [exact Hin|reflexivity]. }
  congruence.
Qed.

(** C9 (configuration precedence).  Once the configuration is decoded, the
    key and the URL are the configured values whenever these are not null,
    the empty string included, and the environment variables
    [VMCLOUD_API_KEY] and [VMCLOUD_BASE_URL] otherwise.  [Configure] reports
    Missing API Key Configuration exactly when the key is empty, and exactly
    then it never calls the client constructor and hands out no client.
    With a key that is not empty the constructor is called once, with that
    key, and [WithBaseURL] is among its options exactly when the URL is not
    empty, carrying that URL. *)
Theorem Configure_precedence
    (Getenv : string -> string)
    (New : string -> list VMCloudAPIClientOption -> result Client)
    (req : tfsdkData victoriametricsCloudProviderModel)
    (Hdecoded : HasError (Get_diags req) = false) :
  let config := Get_model req in
  let apiKey := resolved_apiKey Getenv config in
  let baseURL := resolved_baseURL Getenv config in
  let resp := Configure Getenv New req in
  (types.IsNull (APIKey config) = false -> apiKey = types.ValueString (APIKey config))
  /\ (types.IsNull (APIKey config) = true -> apiKey = Getenv "VMCLOUD_API_KEY")
  /\ (types.IsNull (BaseURL config) = false -> baseURL = types.ValueString (BaseURL config))
  /\ (types.IsNull (BaseURL config) = true -> baseURL = Getenv "VMCLOUD_BASE_URL")
  /\ (In (NewErrorDiagnostic "Missing API Key Configuration" missingAPIKeyDetail)
         (cfg_Diagnostics resp)
      <-> apiKey = EmptyString)
  /\ (cfg_New_calls resp = [] <-> apiKey = EmptyString)
  /\ (apiKey = EmptyString -> DataSourceData resp = None /\ ResourceData resp = None)
  /\ (apiKey <> EmptyString ->
      exists options,
        cfg_New_calls resp = [(apiKey, options)]
        /\ forall url, In (WithBaseURL url) options
                       <-> url = baseURL /\ baseURL <> EmptyString).
Proof using Type.
  clear Quote Format_RFC3339.
  intros config apiKey baseURL resp.
  assert (Hresp : resp =
    if String.eqb apiKey EmptyString then
      mkConfigureResponse
        (AddError (Get_diags req) "Missing API Key Configuration" missingAPIKeyDetail)
        None None []
    else
      let options :=
        if negb (String.eqb baseURL EmptyString) then [WithBaseURL baseURL] else [] in
      match New apiKey options with
      | Err err =>
          mkConfigureResponse
            (AddError (Get_diags req) "Unable to Create VictoriaMetrics Cloud API Client"
               ("An unexpected error occurred when creating the VictoriaMetrics Cloud API client: "
                  ++ err))
            None None [(apiKey, options)]
      | Ok client =>
          mkConfigureResponse (Get_diags req) (Some client) (Some client)
            [(apiKey, options)]
      end).
  { subst resp. unfold Configure. cbn [Append app]. rewrite Hdecoded. reflexivity. }
  repeat match goal with |- _ /\ _ => split end.
  - subst apiKey. unfold resolved_apiKey. intros ->. reflexivity.
  - subst apiKey. unfold resolved_apiKey. intros ->. reflexivity.
  - subst baseURL. unfold resolved_baseURL. intros ->. reflexivity.
  - subst baseURL. unfold resolved_baseURL. intros ->. reflexivity.
  - rewrite Hresp. destruct (String.eqb_spec apiKey EmptyString) as [He|Hne].
    + split; [auto|]. intros _. cbn [cfg_Diagnostics]. unfold AddError.
      apply in_or_app. right. left. reflexivity.
    + split; [|congruence]. intros Hin. exfalso.
      cbv zeta in Hin.
      destruct (New apiKey _) as [client|err]; cbn [cfg_Diagnostics] in Hin.
      * exact (not_In_error_of_no_error _ _ _ Hdecoded Hin).
      * unfold AddError in Hin. apply in_app_or in Hin. destruct Hin as [Hin|Hin].
        -- exact (not_In_error_of_no_error _ _ _ Hdecoded Hin).
        -- cbn in Hin. destruct Hin as [Hin|[]]. discriminate Hin.
  - rewrite Hresp. destruct (String.eqb_spec apiKey EmptyString) as [He|Hne].
    + split; auto.
    + split; [|congruence]. cbv zeta. destruct (New apiKey _); discriminate.
  - intros He. rewrite Hresp. apply String.eqb_eq in He. rewrite He. auto.
  - intros Hne. rewrite Hresp. apply String.eqb_neq in Hne. rewrite Hne.
    cbv zeta. eexists. split.
    + destruct (New apiKey _); reflexivity.
    + intros url. destruct (String.eqb_spec baseURL EmptyString) as [He|Hb]; cbn.
      * split; [tauto|]. intros [_ H]. congruence.
      * split.
        -- intros [H|[]]. inversion H. auto.
        -- intros [-> _]. auto.
Qed.

(** *** All operations *)

Lemma HasError_AddError (ds : Diagnostics) (summary detail : string) :
  HasError (AddError ds summary detail) = true.
Proof.
  unfold HasError, AddError. rewrite existsb_app. cbn. apply orb_true_r.
Qed.

(** Split an operation into the paths its handler can take. *)
Ltac handler_paths :=
  repeat match goal with
    | |- context [if HasError ?d then _ else _] => destruct (HasError d) eqn:?
    | |- context [let (_, _) := deployment_flags ?p ?d in _] =>
        destruct (deployment_flags p d) eqn:?
    | |- context [match ?r with Ok _ => _ | Err _ => _ end] => destruct r eqn:?
    | |- context [if invalidImportParts ?l then _ else _] =>
        destruct (invalidImportParts l) eqn:?
    | |- context [if String.eqb ?ID EmptyString then mkImportStateResponse _ _ else _] =>
        destruct (String.eqb ID EmptyString) eqn:?
    end.

Ltac unfold_handlers :=
  unfold run, importOutcome,
    deploymentResource_Create, deploymentResource_Read, deploymentResource_Update,
    deploymentResource_Delete, deploymentResource_ImportState,
    accessTokenResource_Create, accessTokenResource_Read, accessTokenResource_Update,
    accessTokenResource_Delete, accessTokenResource_ImportState,
    ruleFileResource_Create, ruleFileResource_Read, ruleFileResource_Update,
    ruleFileResource_Delete, ruleFileResource_ImportState,
    cloudProvidersDataSource_Read, regionsDataSource_Read, tiersDataSource_Read,
    deploymentsDataSource_Read, deploymentDataSource_Read;
  handler_steps.

(** C5 (one call, and state only on success).  Every operation of the
    resources and data sources invokes at most one client method.  When that
    call is answered with an error the response carries an error diagnostic
    and the response state is not written.  Whenever the response state is
    written, no call has failed and the diagnostics hold no error. *)
Theorem single_call_atomicity (cl : Client) (op : Operation float64) :
  (length (out_calls (run Format_RFC3339 Quote cl op)) <= 1)%nat
  /\ (forall c, In c (out_calls (run Format_RFC3339 Quote cl op)) ->
        callFailed cl c = true ->
        HasError (out_Diagnostics (run Format_RFC3339 Quote cl op)) = true
        /\ out_stateSet (run Format_RFC3339 Quote cl op) = false)
  /\ (out_stateSet (run Format_RFC3339 Quote cl op) = true ->
        HasError (out_Diagnostics (run Format_RFC3339 Quote cl op)) = false
        /\ forall c, In c (out_calls (run Format_RFC3339 Quote cl op)) ->
             callFailed cl c = false).
Proof.
  destruct op; unfold_handlers; handler_paths;
    cbn [out_calls out_Diagnostics out_stateSet resp_Diagnostics resp_State
         imp_Diagnostics imp_SetAttribute isSome length app];
    (split; [lia|]); (split; [|intros Hset; try discriminate Hset; split]);
    try (intros c [<-|[]] Hfail; cbn [callFailed] in Hfail);
    try (intros c [<-|[]]; cbn [callFailed]);
    try (intros c []);
    try match goal with
      | H : ?r = _, Hfail : failed ?r = true |- _ =>
          rewrite H in Hfail; cbn in Hfail; try discriminate Hfail
      | H : ?r = _ |- failed ?r = false => rewrite H; reflexivity
      end;
    try (split; [apply HasError_AddError|reflexivity]);
    try assumption; try reflexivity.
Qed.

Lemma readFlags_keeps (l : types.List) (target : list string) (diags : Diagnostics) d :
  In d diags -> In d (fst (readFlags l target diags)).
Proof.
  intros Hin. unfold readFlags.
  destruct (negb (types.IsNull l)); [|exact Hin].
  destruct (ElementsAs l target) as [more target']. cbn [fst].
  unfold Append. apply in_or_app. now left.
Qed.

Lemma deployment_flags_keeps (plan : deploymentResourceModel) (diags : Diagnostics) d :
  In d diags -> In d (fst (deployment_flags plan diags)).
Proof.
  intros Hin. unfold deployment_flags.
  pose proof (readFlags_keeps (dr_SingleFlags plan) [] diags d Hin) as H1.
  destruct (readFlags (dr_SingleFlags plan) [] diags) as [diags1 single].
  pose proof (readFlags_keeps (dr_SelectFlags plan) [] diags1 d H1) as H2.
  destruct (readFlags (dr_SelectFlags plan) [] diags1) as [diags2 select].
  pose proof (readFlags_keeps (dr_StorageFlags plan) [] diags2 d H2) as H3.
  destruct (readFlags (dr_StorageFlags plan) [] diags2) as [diags3 storage].
  pose proof (readFlags_keeps (dr_InsertFlags plan) [] diags3 d H3) as H4.
  destruct (readFlags (dr_InsertFlags plan) [] diags3) as [diags4 insert].
  exact H4.
Qed.

Lemma ElementsAs_diagnostics (l : types.List) (target : list string) :
  fst (ElementsAs l target) = fst (ElementsAs l []).
Proof.
  unfold ElementsAs. destruct l as [| |elems]; try reflexivity.
  destruct (knownStrings elems); reflexivity.
Qed.

Lemma readFlags_diagnostics (l : types.List) (target : list string) (diags : Diagnostics) :
  fst (readFlags l target diags) = (diags ++ elementsAsDiagnostics l)%list.
Proof.
  unfold readFlags, elementsAsDiagnostics.
  destruct (negb (types.IsNull l)); [|cbn [fst]; now rewrite app_nil_r].
  rewrite <- (ElementsAs_diagnostics l target).
  destruct (ElementsAs l target) as [more target']. reflexivity.
Qed.

(** The diagnostics with which [Update] has prepared its flags are those of
    the decoding followed by what [ElementsAs] reports on each list. *)
Lemma deployment_flags_diagnostics (plan : deploymentResourceModel) (diags : Diagnostics) :
  fst (deployment_flags plan diags)
  = (diags ++ elementsAsDiagnostics (dr_SingleFlags plan)
       ++ elementsAsDiagnostics (dr_SelectFlags plan)
       ++ elementsAsDiagnostics (dr_StorageFlags plan)
       ++ elementsAsDiagnostics (dr_InsertFlags plan))%list.
Proof.
  unfold deployment_flags.
  pose proof (readFlags_diagnostics (dr_SingleFlags plan) [] diags) as H1.
  destruct (readFlags (dr_SingleFlags plan) [] diags) as [diags1 single].
  pose proof (readFlags_diagnostics (dr_SelectFlags plan) [] diags1) as H2.
  destruct (readFlags (dr_SelectFlags plan) [] diags1) as [diags2 select].
  pose proof (readFlags_diagnostics (dr_StorageFlags plan) [] diags2) as H3.
  destruct (readFlags (dr_StorageFlags plan) [] diags2) as [diags3 storage].
  pose proof (readFlags_diagnostics (dr_InsertFlags plan) [] diags3) as H4.
  destruct (readFlags (dr_InsertFlags plan) [] diags3) as [diags4 insert].
  cbn [fst] in *. subst. now rewrite <- !app_assoc.
Qed.

Lemma frameworkDiagnostics_terraform (op : Operation float64) :
  frameworkDiagnostics op = terraformDiagnostics op.
Proof.
  destruct op; try reflexivity.
  cbn [frameworkDiagnostics terraformDiagnostics].
  apply deployment_flags_diagnostics.
Qed.

Lemma detail_prefix (a k b msg : string) :
  a ++ k ++ b ++ msg = (a ++ k ++ b) ++ msg.
Proof.
  induction a as [|c a IH]; cbn [String.append].
  - induction k as [|c k IH]; cbn [String.append]; [reflexivity|].
    now rewrite IH.
  - now rewrite IH.
Qed.

(** The diagnostic a handler adds after a failed call reports that call. *)
Ltac report_failed_call Hin Hcall :=
  match type of Hin with
  | In _ (AddError ?ds ?summary ?detail) =>
      unfold AddError in Hin; apply in_app_or in Hin;
      destruct Hin as [Hin | [Hin | []]];
      [ left
      | right; subst;
        match detail with
        | String.append ?a (String.append ?k (String.append ?b ?msg)) =>
            eexists; exists msg, summary, (a ++ k ++ b), ds
        | String.append ?a ?msg => eexists; exists msg, summary, a, ds
        | ?msg => eexists; exists msg, summary, EmptyString, ds
        end;
        (split; [reflexivity|]);
        (split; [cbn [callError]; rewrite Hcall; reflexivity|]);
        (split; [try rewrite detail_prefix; reflexivity|reflexivity]) ]
  end.

(** C6, as amended (which operations validate nothing themselves).  For
    every operation of the resources and data sources other than
    [ImportState] of the access token and of the rule file and [Update] of
    the access token, each diagnostic of the response is one the framework
    reported, when it decoded the plan, state or configuration or converted
    the flag lists, or it is the last diagnostic of the response and reports
    the failed client call of the operation: an error whose detail ends with
    the text of the error the client answered. *)
Theorem diagnostics_come_from_outside (cl : Client) (op : Operation float64)
    (Hop : checksLocally op = false) :
  diagnosticsComeFromOutside Format_RFC3339 Quote cl op.
Proof.
  unfold diagnosticsComeFromOutside, reportsFailedCall.
  destruct op; try discriminate Hop.
  3: { (* the deployment Update also reports what ElementsAs reports *)
    unfold_handlers. cbn [terraformDiagnostics].
    rewrite <- deployment_flags_diagnostics.
    pose proof (deployment_flags_keeps (Get_model req) (Get_diags req)) as Hkeep.
    destruct (HasError (Get_diags req)) eqn:Hdec.
    { cbn [out_Diagnostics out_calls resp_Diagnostics]. intros diagnostic Hin.
      left. now apply Hkeep. }
    destruct (deployment_flags (Get_model req) (Get_diags req)) as [diags' flags].
    cbn [fst] in *.
    destruct (HasError diags') eqn:Hflags.
    { cbn [out_Diagnostics out_calls resp_Diagnostics]. intros diagnostic Hin.
      now left. }
    destruct (UpdateDeployment cl _ _) as [deployment|err] eqn:Hcall;
      cbn [out_Diagnostics out_calls resp_Diagnostics app]; intros diagnostic Hin.
    - now left.
    - report_failed_call Hin Hcall. exact Hin. }
  all: unfold_handlers; handler_paths;
    cbn [out_calls out_Diagnostics resp_Diagnostics imp_Diagnostics
         terraformDiagnostics Get_diags Get_model app];
    intros diagnostic Hin;
    try (left; exact Hin);
    try (exfalso; exact Hin);
    match goal with
    | Hcall : _ = Err _ |- _ => report_failed_call Hin Hcall; exact Hin
    end.
Qed.

(** *** Replacement *)

Lemma accessToken_never_requiresReplace (name : string) :
  requiresReplace accessTokenResource_Schema name = false.
Proof.
  unfold requiresReplace, accessTokenResource_Schema.
  cbn [existsb PlanModifiers isRequiresReplace attr_name].
  rewrite !andb_false_r. reflexivity.
Qed.

(** C4 (access tokens: no update, and replacement).  [Update] of an access
    token, whatever the request and the client, answers with the single
    error Update not supported, invokes no client method and does not write
    the state.  The schema however attaches [UseStateForUnknown] and never
    [RequiresReplace] to its attributes, to each of those written in the
    configuration in particular, so that a change of any attribute,
    of the description for one, is planned as an update in place and not as
    a replacement; the rule-file schema does require replacement for its
    key attributes. *)
Theorem accessToken_Update_unsupported_without_replacement :
  (forall (cl : Client) req,
      accessTokenResource_Update req cl
      = (mkResponse
           [NewErrorDiagnostic "Update not supported"
              "Access tokens cannot be updated. Any changes require replacement."]
           None,
         []))
  /\ Forall (fun a => existsb isRequiresReplace (PlanModifiers a) = false)
       accessTokenResource_Schema
  /\ Forall (fun a => configurable a = true -> PlanModifiers a = [UseStateForUnknown])
       accessTokenResource_Schema
  /\ (forall name changed,
        plannedAction accessTokenResource_Schema (name :: changed) = UpdateInPlace)
  /\ plannedAction accessTokenResource_Schema ["description"] = UpdateInPlace
  /\ plannedAction ruleFileResource_Schema ["deployment_id"] = Replace
  /\ plannedAction ruleFileResource_Schema ["file_name"] = Replace.
Proof.
  split; [|split; [|split; [|split; [|repeat split]]]].
  - intros cl req. reflexivity.
  - repeat constructor.
  - repeat constructor; cbn; discriminate.
  - intros name changed. unfold plannedAction.
    assert (H : existsb (requiresReplace accessTokenResource_Schema) (name :: changed)
                = false).
    { generalize (name :: changed). intros l.
      induction l as [|x l IH]; cbn [existsb]; [reflexivity|].
      now rewrite accessToken_never_requiresReplace, IH. }
    now rewrite H.
Qed.

End Properties.

(** ** The example run *)

(** C1 (what [Create] sends).  The only client call of a deployment
    [Create] is [CreateDeployment] with the request built from the name,
    type, cloud provider, region, tier, storage size and unit, retention and
    deduplication values and units and the maintenance window of the plan.
    The four flag lists are not part of it: plans that differ only in their
    flags produce the same call.  For [single_demo] of the examples, planned
    with one flag for vmsingle, the flag is stored in the state and never
    sent, whereas [Update] of the deployment sends it. *)
Theorem deployment_Create_omits_flags :
  (forall (Time float64 : Type) (Format_RFC3339 : Time -> string)
          (cl : VMCloudAPIClient Time float64) diags plan single select storage insert,
      calls_of (deploymentResource_Create Format_RFC3339
                  (mktfsdkData diags (withFlags plan single select storage insert))) cl
      = calls_of (deploymentResource_Create Format_RFC3339 (mktfsdkData diags plan)) cl)
  /\ calls_of (deploymentResource_Create Example.Format_RFC3339
                 (mktfsdkData [] Example.single_demo)) Example.client
     = [CallCreateDeployment
          {| dcr_Name := "Single demo";
             dcr_Type := "single_node";
             dcr_Provider := "aws";
             dcr_Region := "eu-west-1";
             dcr_Tier := 21;
             dcr_StorageSize := 20;
             dcr_StorageSizeUnit := "GB";
             dcr_Retention := 30;
             dcr_RetentionUnit := "d";
             dcr_Deduplication := 30;
             dcr_DeduplicationUnit := "s";
             dcr_MaintenanceWindow := "Sat-Sun 3-4am" |}]
  /\ option_map dr_SingleFlags
       (resp_State (answer_of (deploymentResource_Create Example.Format_RFC3339
                                 (mktfsdkData [] Example.single_demo)) Example.client))
     = Some (types.Known [types.Known "-search.maxQueryDuration=360s"])
  /\ calls_of (deploymentResource_Update (mktfsdkData [] Example.single_demo_state))
       Example.client
     = [CallUpdateDeployment "dep-1"
          {| dur_Name := "Single demo";
             dur_Tier := 21;
             dur_StorageSize := 2;
             dur_StorageSizeUnit := "TB";
             dur_Retention := 30;
             dur_RetentionUnit := "d";
             dur_Deduplication := 30;
             dur_DeduplicationUnit := "s";
             dur_MaintenanceWindow := "Sat-Sun 3-4am";
             dur_Flags := {| SingleFlags := ["-search.maxQueryDuration=360s"];
                             SelectFlags := []; StorageFlags := [];
                             InsertFlags := [] |} |}].
Proof.
  split; [|repeat split].
  intros Time float64 Format_RFC3339 cl diags plan single select storage insert.
  unfold calls_of, deploymentResource_Create, bind, invoke, ret.
  cbn [Get_diags Get_model Append app].
  destruct (HasError diags); [reflexivity|].
  change (deployment_createRequest (withFlags plan single select storage insert))
    with (deployment_createRequest plan).
  destruct (CreateDeployment cl (deployment_createRequest plan)); reflexivity.
Qed.

(** C6 as stated fails: importing a rule file under an id without a slash
    is rejected by the provider itself, with no client call and nothing to
    decode; so is a provider configuration without an API key. *)
Lemma local_checks_reject_inputs :
  ~ diagnosticsComeFromOutside Example.Format_RFC3339 Example.Quote Example.client
      (RuleFileImportState Example.float64 "alerts.yaml")
  /\ HasError (out_Diagnostics
                 (run Example.Format_RFC3339 Example.Quote Example.client
                    (RuleFileImportState Example.float64 "alerts.yaml"))) = true
  /\ out_calls (run Example.Format_RFC3339 Example.Quote Example.client
                  (RuleFileImportState Example.float64 "alerts.yaml")) = []
  /\ HasError (cfg_Diagnostics
                 (Configure Example.Getenv Example.New
                    (mktfsdkData [] {| APIKey := types.Null; BaseURL := types.Null |})))
     = true
  /\ cfg_New_calls
       (Configure Example.Getenv Example.New
          (mktfsdkData [] {| APIKey := types.Null; BaseURL := types.Null |})) = [].
Proof.
  split; [|repeat split].
  intros H.
  destruct (H (NewErrorDiagnostic "Invalid Import ID"
                 ("Expected import identifier with format: deployment_id/file_name. Got: "
                    ++ Example.Quote "alerts.yaml")))
    as [Hin|(c & msg & summary & prefix & before & Hcalls & _)].
  - left. reflexivity.
  - exact Hin.
  - discriminate Hcalls.
Qed.

(** ** The theorems at the example run *)

Lemma composite_id_round_trip_witness :
  ("dep-1" <> EmptyString /\ "alerts.yaml" <> EmptyString
   /\ ContainsByte "dep-1" "/" = false /\ ContainsByte "alerts.yaml" "/" = false)
  /\ ruleFileResource_ImportState Example.Quote "dep-1/alerts.yaml"
     = mkImportStateResponse []
         [("deployment_id", "dep-1"); ("file_name", "alerts.yaml");
          ("id", "dep-1/alerts.yaml")]
  /\ accessTokenResource_ImportState Example.Quote "dep-1/alerts.yaml"
     = mkImportStateResponse [] [("deployment_id", "dep-1"); ("id", "alerts.yaml")].
Proof.
  assert (H1 : "dep-1" <> EmptyString) by discriminate.
  assert (H2 : "alerts.yaml" <> EmptyString) by discriminate.
  split; [repeat split; solve [assumption | reflexivity]|].
  destruct (@composite_id_round_trip Example.Time Example.float64 Example.Quote
              "dep-1" "alerts.yaml" H1 H2 eq_refl eq_refl)
    as (_ & Hrule & Htoken & _).
  split; [exact Hrule|exact Htoken].
Defined.

Lemma deployment_Read_storage_size_witness :
  (HasError [] = false
   /\ GetDeploymentDetails Example.client
        (types.ValueString (dr_ID Example.single_demo_state)) = Ok Example.demoInfo
   /\ 0 <= di_StorageSizeGb Example.demoInfo < 2 ^ 63)
  /\ exists state',
       resp_State
         (answer_of (deploymentResource_Read Example.Format_RFC3339
                       (mktfsdkData [] Example.single_demo_state)) Example.client)
       = Some state'
       /\ dr_StorageSize state' = types.Int64Value 2.
Proof.
  assert (Hrange : 0 <= di_StorageSizeGb Example.demoInfo < 2 ^ 63)
    by (split; [discriminate|reflexivity]).
  split; [repeat split; solve [reflexivity | apply Hrange]|].
  destruct (deployment_Read_storage_size Example.Format_RFC3339 Example.client []
              Example.single_demo_state Example.demoInfo eq_refl eq_refl Hrange)
    as (state' & Hstate & _ & _ & _ & Hwhole & _).
  exists state'. split; [exact Hstate|].
  apply (Hwhole 2); reflexivity.
Defined.

Lemma deployment_Update_frame_witness :
  (HasError [] = false
   /\ HasError (fst (deployment_flags Example.single_demo_state [])) = false
   /\ UpdateDeployment Example.client
        (types.ValueString (dr_ID Example.single_demo_state))
        (deployment_updateRequest Example.single_demo_state
           (snd (deployment_flags Example.single_demo_state [])))
      = Ok Example.demoInfo)
  /\ exists state',
       resp_State
         (answer_of (deploymentResource_Update
                       (mktfsdkData [] Example.single_demo_state)) Example.client)
       = Some state'
       /\ dr_Region state' = types.Known "eu-west-1"
       /\ dr_Status state' = types.Known "RUNNING".
Proof.
  split; [repeat split; reflexivity|].
  destruct (deployment_Update_frame Example.client [] Example.single_demo_state
              Example.demoInfo eq_refl eq_refl eq_refl)
    as (_ & _ & state' & Hstate & _ & _ & Hregion & _ & _ & Hstatus & _).
  exists state'. split; [exact Hstate|]. split; [exact Hregion|exact Hstatus].
Defined.

Lemma accessToken_last_used_and_tenant_witness :
  (HasError [] = false
   /\ RevealDeploymentAccessToken Example.client
        (types.ValueString (ar_DeploymentID Example.single_grafana_token_state))
        (types.ValueString (ar_ID Example.single_grafana_token_state))
      = Ok Example.demoToken
   /\ CreateDeploymentAccessToken Example.client
        (types.ValueString (ar_DeploymentID Example.single_grafana_token))
        (accessToken_createRequest Example.single_grafana_token)
      = Ok Example.demoToken)
  /\ (exists state',
        resp_State
          (answer_of (accessTokenResource_Read Example.Format_RFC3339
                        (mktfsdkData [] Example.single_grafana_token_state))
             Example.client)
        = Some state'
        /\ ar_LastUsedAt state' = types.Null
        /\ ar_TenantID state' = types.Known "7")
  /\ (exists plan',
        resp_State
          (answer_of (accessTokenResource_Create Example.Format_RFC3339
                        (mktfsdkData [] Example.single_grafana_token))
             Example.client)
        = Some plan'
        /\ ar_LastUsedAt plan' = types.Unknown).
Proof.
  split; [repeat split; reflexivity|].
  destruct (accessToken_last_used_and_tenant Example.Format_RFC3339 Example.client []
              Example.single_grafana_token_state Example.single_grafana_token
              Example.demoToken Example.demoToken eq_refl eq_refl eq_refl)
    as ((state' & Hstate & _ & Hnull & _ & Hkeep) & (plan' & Hplan & _ & Hleft)).
  split.
  - exists state'. split; [exact Hstate|].
    split; [exact (Hnull eq_refl)|exact (Hkeep eq_refl)].
  - exists plan'. split; [exact Hplan|exact (Hleft eq_refl)].
Defined.

Lemma catalog_Read_pass_through_witness :
  calls_of cloudProvidersDataSource_Read Example.client = [CallListCloudProviders]
  /\ calls_of regionsDataSource_Read Example.client = [CallListRegions]
  /\ calls_of tiersDataSource_Read Example.client = [CallListTiers]
  /\ exists state,
       resp_State (answer_of regionsDataSource_Read Example.client) = Some state
       /\ len (Regions state) = 2%nat
       /\ nth_error (elements (Regions state)) 1
          = Some {| rm_Name := types.Known "us-east-2";
                    rm_CloudProvider := types.Known "aws" |}.
Proof.
  destruct (catalog_Read_pass_through Example.client)
    as ((Hc & Hr & Ht & _) & _ & Hregions & _).
  split; [exact Hc|]. split; [exact Hr|]. split; [exact Ht|].
  destruct (Hregions _ eq_refl) as (state & Hstate & Hlen & Hnth).
  exists state. split; [exact Hstate|]. split; [exact Hlen|].
  exact (Hnth 1%nat _ eq_refl).
Defined.

Lemma Configure_precedence_witness :
  HasError (@nil Diagnostic) = false
  /\ resolved_apiKey Example.Getenv_set
       {| APIKey := types.Known EmptyString; BaseURL := types.Null |} = EmptyString
  /\ resolved_baseURL Example.Getenv_set
       {| APIKey := types.Known EmptyString; BaseURL := types.Null |}
     = "https://api.example.cloud"
  /\ In (NewErrorDiagnostic "Missing API Key Configuration" missingAPIKeyDetail)
        (cfg_Diagnostics
           (Configure Example.Getenv_set Example.New
              (mktfsdkData []
                 {| APIKey := types.Known EmptyString; BaseURL := types.Null |})))
  /\ cfg_New_calls
       (Configure Example.Getenv_set Example.New
          (mktfsdkData []
             {| APIKey := types.Known EmptyString; BaseURL := types.Null |})) = [].
Proof.
  pose proof (Configure_precedence Example.Getenv_set Example.New
                (mktfsdkData []
                   {| APIKey := types.Known EmptyString; BaseURL := types.Null |})
                eq_refl) as H.
  cbv zeta in H.
  destruct H as (Hkey & _ & _ & Hurl & Hmissing & Hcalls & _).
  split; [reflexivity|].
  split; [exact (Hkey eq_refl)|].
  split; [exact (Hurl eq_refl)|].
  split; [apply Hmissing; exact (Hkey eq_refl)|apply Hcalls; exact (Hkey eq_refl)].
Defined.

Lemma diagnostics_come_from_outside_witness :
  checksLocally
    (DeploymentRead Example.float64
       (mktfsdkData [Outage.deprecation] Example.single_demo_state)) = false
  /\ out_Diagnostics
       (run Example.Format_RFC3339 Example.Quote Outage.client
          (DeploymentRead Example.float64
             (mktfsdkData [Outage.deprecation] Example.single_demo_state)))
     = [Outage.deprecation; Outage.readError]
  /\ In Outage.deprecation
       (terraformDiagnostics
          (DeploymentRead Example.float64
             (mktfsdkData [Outage.deprecation] Example.single_demo_state)))
  /\ reportsFailedCall Example.Format_RFC3339 Example.Quote Outage.client
       (DeploymentRead Example.float64
          (mktfsdkData [Outage.deprecation] Example.single_demo_state))
       Outage.readError.
Proof.
  split; [reflexivity|]. split; [reflexivity|]. split; [left; reflexivity|].
  destruct (diagnostics_come_from_outside Example.Format_RFC3339 Example.Quote
              Outage.client
              (DeploymentRead Example.float64
                 (mktfsdkData [Outage.deprecation] Example.single_demo_state))
              eq_refl Outage.readError (or_intror (or_introl eq_refl)))
    as [Hin|Hcall].
  - destruct Hin as [Hin|[]]. discriminate Hin.
  - exact Hcall.
Defined.

(** ** Further properties of the handlers *)

Lemma wrap_keeps_iff (x m : Z) : 0 < m -> (x mod m = x <-> 0 <= x < m).
Proof.
  intros Hm. split.
  - intros H. rewrite <- H. apply Z.mod_pos_bound. exact Hm.
  - intros H. apply Z.mod_small. exact H.
Qed.

Lemma CountByte_app_sep (a b : string) (sep : ascii) :
  CountByte (a ++ String sep b) sep = (CountByte a sep + 1 + CountByte b sep)%nat.
Proof.
  induction a as [|c rest IH]; cbn [CountByte String.append].
  - rewrite Ascii.eqb_refl. reflexivity.
  - rewrite IH. lia.
Qed.

Lemma CountByte_zero (s : string) (sep : ascii) :
  CountByte s sep = O <-> ContainsByte s sep = false.
Proof.
  induction s as [|c rest IH]; cbn [CountByte ContainsByte]; [tauto|].
  destruct (Ascii.eqb c sep); cbn [orb].
  - split; [lia|discriminate].
  - exact IH.
Qed.

(** [Split] gives one part more than there are separators. *)
Lemma Split_length (s : string) (sep : ascii) :
  length (Split s sep) = S (CountByte s sep).
Proof.
  induction s as [|c rest IH]; cbn [Split CountByte]; [reflexivity|].
  destruct (Ascii.eqb c sep); cbn [length]; [now rewrite IH|].
  pose proof (Split_not_nil rest sep) as Hnn.
  destruct (Split rest sep) as [|p ps]; [congruence|].
  cbn [length] in *. lia.
Qed.

(** When a string with a separator put between [d] and [f] splits in two,
    the two parts are [d] and [f]. *)
Lemma Split_composite_two (d f a b : string) (sep : ascii) :
  Split (d ++ String sep f) sep = [a; b] ->
  a = d /\ b = f /\ ContainsByte d sep = false /\ ContainsByte f sep = false.
Proof.
  intros H.
  pose proof (Split_length (d ++ String sep f) sep) as Hlen.
  rewrite H, CountByte_app_sep in Hlen. cbn [length] in Hlen.
  assert (Hd : ContainsByte d sep = false) by (apply CountByte_zero; lia).
  assert (Hf : ContainsByte f sep = false) by (apply CountByte_zero; lia).
  rewrite (Split_app_sep _ _ _ Hd), (Split_without_sep _ _ Hf) in H.
  inversion H; subst; auto.
Qed.

Lemma invalidImportParts_Split (ID : string) :
  invalidImportParts (Split ID "/") = false <-> compositeID ID.
Proof.
  rewrite invalidImportParts_false. unfold compositeID. split.
  - intros (a & b & Hs & Ha & Hb). exists a, b.
    apply Split_two_parts in Hs. tauto.
  - intros (d & f & -> & Hd & Hf & Hds & Hfs). exists d, f.
    split; [|tauto]. apply Split_two_parts. auto.
Qed.

Section Coverage.

Context {Time float64 : Type}.
Variable Format_RFC3339 : Time -> string.
Variable Quote : string -> string.

Local Notation "'Client'" := (VMCloudAPIClient Time float64).

Ltac steps :=
  unfold answer_of, calls_of, outcome, bind, invoke, ret;
  cbn [Get_diags Get_model Append app fst snd].

(** X1 (which import ids are accepted).  [ImportState] of the rule file and
    of the access token accepts an id exactly when it is a deployment id, a
    slash and a name, both not empty and without a slash: an empty id, an id
    without a slash, with a leading or trailing slash or with more than one
    slash is rejected.  A rejected id writes no attribute and reports the
    single error Invalid Import ID. *)
Theorem ImportState_accepts_composite_ids (ID : string) :
  (imp_Diagnostics (ruleFileResource_ImportState Quote ID) = [] <-> compositeID ID)
  /\ (imp_Diagnostics (accessTokenResource_ImportState Quote ID) = [] <-> compositeID ID)
  /\ (CountByte ID "/" <> 1%nat -> ~ compositeID ID)
  /\ (~ compositeID ID ->
      ruleFileResource_ImportState Quote ID
      = mkImportStateResponse
          [NewErrorDiagnostic "Invalid Import ID"
             ("Expected import identifier with format: deployment_id/file_name. Got: "
                ++ Quote ID)] []
      /\ accessTokenResource_ImportState Quote ID
         = mkImportStateResponse
             [NewErrorDiagnostic "Invalid Import ID"
                ("Expected import identifier with format: deployment_id/token_id. Got: "
                   ++ Quote ID)] []).
Proof.
  pose proof (invalidImportParts_Split ID) as Hshape.
  unfold ruleFileResource_ImportState, accessTokenResource_ImportState.
  destruct (invalidImportParts (Split ID "/")) eqn:E; cbn [imp_Diagnostics].
  - assert (Hno : ~ compositeID ID).
    { intros H. apply Hshape in H. discriminate H. }
    repeat split; try discriminate; try tauto.
  - assert (Hyes : compositeID ID) by (now apply Hshape).
    repeat split; try tauto.
    intros Hcount. destruct Hyes as (d & f & -> & _ & _ & Hd & Hf).
    apply CountByte_zero in Hd, Hf.
    change (d ++ "/" ++ f) with (d ++ String "/" f) in Hcount.
    rewrite CountByte_app_sep in Hcount. lia.
Qed.

(** X2 (can the id of a created rule file be imported).  A successful
    rule-file [Create] stores an id that [ImportState] accepts exactly when
    the planned deployment id and file name are not empty and hold no slash;
    then the import writes back that deployment id and that file name.  A
    file name with a slash gives an id that cannot be imported. *)
Theorem ruleFile_Create_id_importable (cl : Client) diags plan u
    (Hdiags : HasError diags = false)
    (Hcall : CreateDeploymentRuleFileContent cl
               (types.ValueString (rf_DeploymentID plan))
               (types.ValueString (rf_FileName plan))
               (types.ValueString (rf_Content plan)) = Ok u) :
  exists id,
    option_map rf_ID
      (resp_State (answer_of (ruleFileResource_Create (mktfsdkData diags plan)) cl))
    = Some (types.Known id)
    /\ (imp_Diagnostics (ruleFileResource_ImportState Quote id) = []
        <-> types.ValueString (rf_DeploymentID plan) <> EmptyString
            /\ types.ValueString (rf_FileName plan) <> EmptyString
            /\ ContainsByte (types.ValueString (rf_DeploymentID plan)) "/" = false
            /\ ContainsByte (types.ValueString (rf_FileName plan)) "/" = false)
    /\ (imp_Diagnostics (ruleFileResource_ImportState Quote id) = [] ->
        imp_SetAttribute (ruleFileResource_ImportState Quote id)
        = [("deployment_id", types.ValueString (rf_DeploymentID plan));
           ("file_name", types.ValueString (rf_FileName plan));
           ("id", id)]).
Proof.
  set (d := types.ValueString (rf_DeploymentID plan)) in *.
  set (f := types.ValueString (rf_FileName plan)) in *.
  exists (d ++ "/" ++ f). split.
  { unfold ruleFileResource_Create. steps. fold d f.
    rewrite Hdiags, Hcall. reflexivity. }
  assert (Hiff : invalidImportParts (Split (d ++ "/" ++ f) "/") = false
                 <-> d <> EmptyString /\ f <> EmptyString
                     /\ ContainsByte d "/" = false /\ ContainsByte f "/" = false).
  { rewrite invalidImportParts_false. split.
    - intros (a & b & Hs & Ha & Hb).
      apply Split_composite_two in Hs. destruct Hs as (-> & -> & Hd & Hf). auto.
    - intros (Hd & Hf & Hds & Hfs). exists d, f. split; [|auto].
      apply Split_two_parts. auto. }
  unfold ruleFileResource_ImportState.
  destruct (invalidImportParts (Split (d ++ "/" ++ f) "/")) eqn:E;
    cbn [imp_Diagnostics imp_SetAttribute].
  - split.
    + split; [discriminate|]. intros H. apply Hiff in H. discriminate H.
    + discriminate.
  - split; [split; [intros _; now apply Hiff|reflexivity]|].
    intros _. destruct (proj1 Hiff eq_refl) as (_ & _ & Hds & Hfs).
    change (d ++ "/" ++ f) with (d ++ String "/" f).
    rewrite (Split_app_sep _ _ _ Hds), (Split_without_sep _ _ Hfs). reflexivity.
Qed.

Lemma ValueInt64_fits (v : types.Int64) :
  fitsInt64 v -> - 2 ^ 63 <= types.ValueInt64 v < 2 ^ 63.
Proof.
  destruct v; cbn [fitsInt64 types.ValueInt64]; lia.
Qed.

(** What [uint32(x)] is: the number of [0, 2^32) that differs from [x] by a
    multiple of 2^32; it is [x] exactly for an [x] of that range. *)
Lemma uint32_congruent (x : Z) :
  0 <= uint32 x < 2 ^ 32
  /\ (exists k, x = uint32 x + k * 2 ^ 32)
  /\ (uint32 x = x <-> 0 <= x < 2 ^ 32).
Proof.
  unfold uint32. split; [apply Z.mod_pos_bound; lia|]. split.
  - exists (x / 2 ^ 32). pose proof (Z.div_mod x (2 ^ 32) ltac:(lia)). lia.
  - apply wrap_keeps_iff. lia.
Qed.

(** What [uint64(x)] is for an [int64]: [x] itself when it is not negative,
    and [x + 2^64] when it is. *)
Lemma uint64_of_int64 (x : Z) :
  - 2 ^ 63 <= x < 2 ^ 63 ->
  0 <= uint64 x < 2 ^ 64
  /\ (0 <= x -> uint64 x = x)
  /\ (x < 0 -> uint64 x = x + 2 ^ 64)
  /\ (uint64 x = x <-> 0 <= x).
Proof.
  intros Hx. unfold uint64.
  assert (Hneg : x < 0 -> x mod 2 ^ 64 = x + 2 ^ 64).
  { intros Hlt. rewrite <- (Z_mod_plus_full x 1 (2 ^ 64)).
    rewrite Z.mul_1_l. apply Z.mod_small. lia. }
  split; [apply Z.mod_pos_bound; lia|]. split; [|split; [exact Hneg|]].
  - intros Hpos. apply Z.mod_small. lia.
  - split.
    + intros Heq. destruct (Z.lt_ge_cases x 0) as [Hlt|Hge]; [|exact Hge].
      rewrite (Hneg Hlt) in Heq. lia.
    + intros Hpos. apply Z.mod_small. lia.
Qed.

(** X3 (numbers in the deployment requests).  For a plan whose numbers are
    64-bit integers, the tier, retention and deduplication that [Create]
    sends are the numbers of [0, 2^32) that differ from the planned ones by
    a multiple of 2^32: the planned numbers themselves exactly when these
    lie in [0, 2^32), and their residues otherwise.  The storage size sent
    is the planned one exactly when that is not negative, and 2^64 more than
    a negative one.  A null or unknown tier is sent as 0.  [Update] sends
    the same four numbers as [Create] for the same plan. *)
Theorem deployment_request_numbers (plan : deploymentResourceModel) (flags : DeploymentFlags)
    (Htier : fitsInt64 (dr_Tier plan))
    (Hretention : fitsInt64 (dr_Retention plan))
    (Hdeduplication : fitsInt64 (dr_Deduplication plan))
    (Hstorage : fitsInt64 (dr_StorageSize plan)) :
  (0 <= dcr_Tier (deployment_createRequest plan) < 2 ^ 32
   /\ (exists k, types.ValueInt64 (dr_Tier plan)
                 = dcr_Tier (deployment_createRequest plan) + k * 2 ^ 32)
   /\ (dcr_Tier (deployment_createRequest plan) = types.ValueInt64 (dr_Tier plan)
       <-> 0 <= types.ValueInt64 (dr_Tier plan) < 2 ^ 32))
  /\ (0 <= dcr_Retention (deployment_createRequest plan) < 2 ^ 32
      /\ (exists k, types.ValueInt64 (dr_Retention plan)
                    = dcr_Retention (deployment_createRequest plan) + k * 2 ^ 32)
      /\ (dcr_Retention (deployment_createRequest plan)
          = types.ValueInt64 (dr_Retention plan)
          <-> 0 <= types.ValueInt64 (dr_Retention plan) < 2 ^ 32))
  /\ (0 <= dcr_Deduplication (deployment_createRequest plan) < 2 ^ 32
      /\ (exists k, types.ValueInt64 (dr_Deduplication plan)
                    = dcr_Deduplication (deployment_createRequest plan) + k * 2 ^ 32)
      /\ (dcr_Deduplication (deployment_createRequest plan)
          = types.ValueInt64 (dr_Deduplication plan)
          <-> 0 <= types.ValueInt64 (dr_Deduplication plan) < 2 ^ 32))
  /\ (0 <= dcr_StorageSize (deployment_createRequest plan) < 2 ^ 64
      /\ (0 <= types.ValueInt64 (dr_StorageSize plan) ->
          dcr_StorageSize (deployment_createRequest plan)
          = types.ValueInt64 (dr_StorageSize plan))
      /\ (types.ValueInt64 (dr_StorageSize plan) < 0 ->
          dcr_StorageSize (deployment_createRequest plan)
          = types.ValueInt64 (dr_StorageSize plan) + 2 ^ 64)
      /\ (dcr_StorageSize (deployment_createRequest plan)
          = types.ValueInt64 (dr_StorageSize plan)
          <-> 0 <= types.ValueInt64 (dr_StorageSize plan)))
  /\ (dr_Tier plan = types.Null \/ dr_Tier plan = types.Unknown ->
      dcr_Tier (deployment_createRequest plan) = 0)
  /\ (dur_Tier (deployment_updateRequest plan flags)
      = dcr_Tier (deployment_createRequest plan)
      /\ dur_Retention (deployment_updateRequest plan flags)
         = dcr_Retention (deployment_createRequest plan)
      /\ dur_Deduplication (deployment_updateRequest plan flags)
         = dcr_Deduplication (deployment_createRequest plan)
      /\ dur_StorageSize (deployment_updateRequest plan flags)
         = dcr_StorageSize (deployment_createRequest plan)).
Proof.
  unfold deployment_createRequest, deployment_updateRequest.
  cbn [dcr_Tier dcr_Retention dcr_Deduplication dcr_StorageSize
       dur_Tier dur_Retention dur_Deduplication dur_StorageSize].
  split; [apply uint32_congruent|].
  split; [apply uint32_congruent|].
  split; [apply uint32_congruent|].
  split; [apply uint64_of_int64, ValueInt64_fits, Hstorage|].
  split; [|repeat split].
  intros [-> | ->]; reflexivity.
Qed.


(** *** The deployment resource *)

(** X4 (what a created deployment's state holds).  After a successful
    [Create] the state is the plan with the id, version, status, creation
    time and access endpoint of the answer: every configured attribute, the
    flag lists included, is the planned one, whatever the answer says of it.
    The one client call is [CreateDeployment], and a [Read] of that state
    asks the API for the id the answer carried. *)
Theorem deployment_Create_state (cl : Client) diags plan deployment
    (Hdiags : HasError diags = false)
    (Hcall : CreateDeployment cl (deployment_createRequest plan) = Ok deployment) :
  exists state',
    deploymentResource_Create Format_RFC3339 (mktfsdkData diags plan) cl
    = (mkResponse diags (Some state'),
       [CallCreateDeployment (deployment_createRequest plan)])
    /\ dr_ID state' = types.StringValue (di_ID deployment)
    /\ dr_Version state' = types.StringValue (di_Version deployment)
    /\ dr_Status state' = types.StringValue (di_Status deployment)
    /\ dr_CreatedAt state' = types.StringValue (Format_RFC3339 (di_CreatedAt deployment))
    /\ dr_AccessEndpoint state' = types.StringValue (di_AccessEndpoint deployment)
    /\ (dr_Name state' = dr_Name plan /\ dr_Type state' = dr_Type plan
        /\ dr_CloudProvider state' = dr_CloudProvider plan
        /\ dr_Region state' = dr_Region plan /\ dr_Tier state' = dr_Tier plan
        /\ dr_StorageSize state' = dr_StorageSize plan
        /\ dr_StorageSizeUnit state' = dr_StorageSizeUnit plan
        /\ dr_Retention state' = dr_Retention plan
        /\ dr_RetentionUnit state' = dr_RetentionUnit plan
        /\ dr_Deduplication state' = dr_Deduplication plan
        /\ dr_DeduplicationUnit state' = dr_DeduplicationUnit plan
        /\ dr_MaintenanceWindow state' = dr_MaintenanceWindow plan
        /\ dr_SingleFlags state' = dr_SingleFlags plan
        /\ dr_SelectFlags state' = dr_SelectFlags plan
        /\ dr_StorageFlags state' = dr_StorageFlags plan
        /\ dr_InsertFlags state' = dr_InsertFlags plan)
    /\ calls_of (deploymentResource_Read Format_RFC3339 (mktfsdkData diags state')) cl
       = [CallGetDeploymentDetails (di_ID deployment)].
Proof.
  eexists. split.
  { unfold deploymentResource_Create. steps. rewrite Hdiags, Hcall. reflexivity. }
  cbn. repeat split.
  unfold deploymentResource_Read. steps. rewrite Hdiags. cbn.
  destruct (GetDeploymentDetails cl (di_ID deployment)); reflexivity.
Qed.

(** X5 (a refresh settles).  A successful [Read] of a deployment keeps the
    id, the storage size unit and the four flag lists of the prior state,
    whatever the API answers; a second [Read] of the refreshed state against
    the same API makes the same call and gives the same response. *)
Theorem deployment_Read_settles (cl : Client) diags state deployment
    (Hdiags : HasError diags = false)
    (Hcall : GetDeploymentDetails cl (types.ValueString (dr_ID state)) = Ok deployment) :
  exists state',
    resp_State
      (answer_of (deploymentResource_Read Format_RFC3339 (mktfsdkData diags state)) cl)
    = Some state'
    /\ dr_ID state' = dr_ID state
    /\ dr_StorageSizeUnit state' = dr_StorageSizeUnit state
    /\ dr_SingleFlags state' = dr_SingleFlags state
    /\ dr_SelectFlags state' = dr_SelectFlags state
    /\ dr_StorageFlags state' = dr_StorageFlags state
    /\ dr_InsertFlags state' = dr_InsertFlags state
    /\ deploymentResource_Read Format_RFC3339 (mktfsdkData diags state') cl
       = deploymentResource_Read Format_RFC3339 (mktfsdkData diags state) cl.
Proof.
  eexists. split.
  { unfold deploymentResource_Read. steps. rewrite Hdiags, Hcall. reflexivity. }
  cbn [dr_ID dr_StorageSizeUnit dr_SingleFlags dr_SelectFlags dr_StorageFlags
       dr_InsertFlags].
  repeat split.
  unfold deploymentResource_Read. steps. rewrite Hdiags.
  cbn [dr_ID dr_StorageSizeUnit dr_SingleFlags dr_SelectFlags dr_StorageFlags
       dr_InsertFlags].
  rewrite Hcall. cbn [fst snd app].
  do 3 f_equal. f_equal.
  unfold deployment_storageSize. cbn [dr_StorageSizeUnit dr_StorageSize].
  destruct (negb (types.IsNull (dr_StorageSizeUnit state))); [|reflexivity].
  destruct (String.eqb (types.ValueString (dr_StorageSizeUnit state)) "GB");
    [reflexivity|].
  destruct (String.eqb (types.ValueString (dr_StorageSizeUnit state)) "TB");
    reflexivity.
Qed.

(** X6 (terabytes are rounded down).  With the unit TB and a reported size
    of [gb] GB below 2^63, a successful [Read] stores the whole number [s]
    of TB with [1024 * s <= gb < 1024 * (s + 1)]: the remainder is dropped,
    and less than 1024 GB reads as 0 TB. *)
Theorem deployment_Read_TB_rounds_down (cl : Client) diags state deployment
    (Hdiags : HasError diags = false)
    (Hcall : GetDeploymentDetails cl (types.ValueString (dr_ID state)) = Ok deployment)
    (Hunit : dr_StorageSizeUnit state = types.StringValue "TB")
    (Hrange : 0 <= di_StorageSizeGb deployment < 2 ^ 63) :
  exists state' s,
    resp_State
      (answer_of (deploymentResource_Read Format_RFC3339 (mktfsdkData diags state)) cl)
    = Some state'
    /\ dr_StorageSize state' = types.Int64Value s
    /\ 1024 * s <= di_StorageSizeGb deployment < 1024 * (s + 1)
    /\ (di_StorageSizeGb deployment < 1024 -> s = 0).
Proof.
  assert (Hq : 0 <= di_StorageSizeGb deployment / 1024 <= di_StorageSizeGb deployment).
  { split; [apply Z.div_pos; lia|apply Z.div_le_upper_bound; lia]. }
  assert (Hs : deployment_storageSize state deployment
               = types.Int64Value (di_StorageSizeGb deployment / 1024)).
  { unfold deployment_storageSize. rewrite Hunit. cbn.
    rewrite div_nonneg by lia. now rewrite int64_in_range by lia. }
  eexists. exists (di_StorageSizeGb deployment / 1024). split.
  { unfold deploymentResource_Read. steps. rewrite Hdiags, Hcall. reflexivity. }
  cbn [dr_StorageSize]. split; [exact Hs|]. split.
  { pose proof (Z.mul_div_le (di_StorageSizeGb deployment) 1024 ltac:(lia)).
    pose proof (Z.mul_succ_div_gt (di_StorageSizeGb deployment) 1024 ltac:(lia)).
    lia. }
  intros Hsmall. apply Z.div_small. lia.
Qed.

Lemma knownStrings_map_Known (ss : list string) :
  knownStrings (map types.Known ss) = Some ss.
Proof.
  induction ss as [|x ss IH]; cbn [map knownStrings]; [reflexivity|].
  now rewrite IH.
Qed.

Lemma readFlags_sends (l : types.List) (ss : list string) (diags : Diagnostics) :
  (l = types.Null /\ ss = []) \/ l = types.Known (map types.Known ss) ->
  readFlags l [] diags = (diags, ss).
Proof.
  intros [[-> ->] | ->]; unfold readFlags; cbn [types.IsNull negb]; [reflexivity|].
  unfold ElementsAs. rewrite knownStrings_map_Known.
  unfold Append. now rewrite app_nil_r.
Qed.

(** X7 (the flags [Update] sends).  When each planned flag list is null or
    a list of known strings, the request of a deployment [Update] carries
    for each component the planned strings in their order, and the empty
    list for a null one, and preparing them reports nothing. *)
Theorem deployment_Update_sends_flags (cl : Client) diags plan single select storage insert
    (Hdiags : HasError diags = false)
    (Hsingle : (dr_SingleFlags plan = types.Null /\ single = [])
               \/ dr_SingleFlags plan = types.Known (map types.Known single))
    (Hselect : (dr_SelectFlags plan = types.Null /\ select = [])
               \/ dr_SelectFlags plan = types.Known (map types.Known select))
    (Hstorage : (dr_StorageFlags plan = types.Null /\ storage = [])
                \/ dr_StorageFlags plan = types.Known (map types.Known storage))
    (Hinsert : (dr_InsertFlags plan = types.Null /\ insert = [])
               \/ dr_InsertFlags plan = types.Known (map types.Known insert)) :
  calls_of (deploymentResource_Update (mktfsdkData diags plan)) cl
  = [CallUpdateDeployment (types.ValueString (dr_ID plan))
       (deployment_updateRequest plan
          {| SingleFlags := single; SelectFlags := select;
             StorageFlags := storage; InsertFlags := insert |})].
Proof.
  unfold deploymentResource_Update. steps. rewrite Hdiags.
  unfold deployment_flags.
  rewrite (readFlags_sends _ _ _ Hsingle), (readFlags_sends _ _ _ Hselect),
    (readFlags_sends _ _ _ Hstorage), (readFlags_sends _ _ _ Hinsert).
  rewrite Hdiags. destruct (UpdateDeployment cl _ _); reflexivity.
Qed.

(** X8 (flags that cannot be sent).  When preparing the flags of a
    deployment [Update] reports an error, as for a list that is unknown or
    holds a null or unknown element, no client method is invoked and the
    state is not written. *)
Theorem deployment_Update_unsendable_flags (cl : Client) diags plan :
  (HasError (fst (deployment_flags plan diags)) = true ->
   resp_State (answer_of (deploymentResource_Update (mktfsdkData diags plan)) cl) = None
   /\ calls_of (deploymentResource_Update (mktfsdkData diags plan)) cl = [])
  /\ (forall elems,
        dr_SingleFlags plan = types.Known elems -> knownStrings elems = None ->
        HasError (fst (deployment_flags plan diags)) = true)
  /\ (dr_SingleFlags plan = types.Unknown ->
      HasError (fst (deployment_flags plan diags)) = true).
Proof.
  assert (Hkeep : forall d, In d (fst (readFlags (dr_SingleFlags plan) [] diags)) ->
                            In d (fst (deployment_flags plan diags))).
  { intros d Hin. unfold deployment_flags.
    destruct (readFlags (dr_SingleFlags plan) [] diags) as [diags1 single].
    pose proof (readFlags_keeps (dr_SelectFlags plan) [] diags1 d Hin) as H2.
    destruct (readFlags (dr_SelectFlags plan) [] diags1) as [diags2 select].
    pose proof (readFlags_keeps (dr_StorageFlags plan) [] diags2 d H2) as H3.
    destruct (readFlags (dr_StorageFlags plan) [] diags2) as [diags3 storage].
    pose proof (readFlags_keeps (dr_InsertFlags plan) [] diags3 d H3) as H4.
    destruct (readFlags (dr_InsertFlags plan) [] diags3) as [diags4 insert].
    exact H4. }
  assert (Herr : forall d, isError d = true ->
                   In d (fst (readFlags (dr_SingleFlags plan) [] diags)) ->
                   HasError (fst (deployment_flags plan diags)) = true).
  { intros d Hd Hin. unfold HasError. apply existsb_exists.
    exists d. split; [now apply Hkeep|exact Hd]. }
  split; [|split].
  - intros Hflags. unfold deploymentResource_Update. steps.
    destruct (HasError diags); [split; reflexivity|].
    destruct (deployment_flags plan diags) as [diags' flags]. cbn [fst] in Hflags.
    rewrite Hflags. split; reflexivity.
  - intros elems Hl Hnone.
    apply (Herr (NewErrorDiagnostic "Value Conversion Error"
                   "unhandled null or unknown element")); [reflexivity|].
    rewrite Hl. unfold readFlags, ElementsAs. cbn [types.IsNull negb].
    rewrite Hnone. cbn [fst]. unfold Append. apply in_or_app. right. now left.
  - intros Hl.
    apply (Herr (NewErrorDiagnostic "Value Conversion Error"
                   "unhandled null or unknown list")); [reflexivity|].
    rewrite Hl. unfold readFlags, ElementsAs. cbn [types.IsNull negb fst].
    unfold Append. apply in_or_app. right. now left.
Qed.

(** *** Every operation *)

Ltac paths :=
  repeat match goal with
    | |- context [if HasError ?d then _ else _] => destruct (HasError d) eqn:?
    | |- context [let (_, _) := deployment_flags ?p ?d in _] =>
        destruct (deployment_flags p d) eqn:?
    | |- context [match ?r with Ok _ => _ | Err _ => _ end] => destruct r eqn:?
    | |- context [if invalidImportParts ?l then _ else _] =>
        destruct (invalidImportParts l) eqn:?
    end.

Ltac handlers :=
  unfold run, importOutcome,
    deploymentResource_Create, deploymentResource_Read, deploymentResource_Update,
    deploymentResource_Delete, deploymentResource_ImportState,
    accessTokenResource_Create, accessTokenResource_Read, accessTokenResource_Update,
    accessTokenResource_Delete, accessTokenResource_ImportState,
    ruleFileResource_Create, ruleFileResource_Read, ruleFileResource_Update,
    ruleFileResource_Delete, ruleFileResource_ImportState,
    cloudProvidersDataSource_Read, regionsDataSource_Read, tiersDataSource_Read,
    deploymentsDataSource_Read, deploymentDataSource_Read;
  steps.

(** X9 (a request that does not decode).  When decoding the plan, state or
    configuration of an operation reports an error, the operation, unless it
    is the access-token [Update], invokes no client method, does not write
    the state and answers with the diagnostics of the decoding alone. *)
Theorem undecoded_request_stops (cl : Client) (op : Operation float64)
    (Hdecode : HasError (decodeDiagnostics op) = true)
    (Hop : isRemoteOperation op = true) :
  run Format_RFC3339 Quote cl op = mkOutcome [] (decodeDiagnostics op) false.
Proof.
  destruct op; try discriminate Hop; cbn [decodeDiagnostics] in Hdecode;
    try discriminate Hdecode;
    handlers; rewrite Hdecode; reflexivity.
Qed.

(** X10 (the successful path).  An operation that talks to the API and whose
    request decodes without error (the flag lists included, for the
    deployment [Update]) invokes exactly one client method.  When that call
    succeeds the response carries the diagnostics of the decoding and
    nothing else, and the state is written, except by a [Delete], which
    never writes it. *)
Theorem decoded_request_calls_once (cl : Client) (op : Operation float64)
    (Hop : isRemoteOperation op = true)
    (Hdecode : HasError (frameworkDiagnostics op) = false) :
  (exists c, out_calls (run Format_RFC3339 Quote cl op) = [c]
             /\ (callFailed cl c = false ->
                 out_Diagnostics (run Format_RFC3339 Quote cl op)
                 = frameworkDiagnostics op
                 /\ out_stateSet (run Format_RFC3339 Quote cl op) = negb (isDelete op)))
  /\ (isDelete op = true -> out_stateSet (run Format_RFC3339 Quote cl op) = false).
Proof.
  destruct op; try discriminate Hop; cbn [frameworkDiagnostics] in Hdecode.
  3: { (* the deployment Update *)
    assert (Hdiags : HasError (Get_diags req) = false).
    { destruct (HasError (Get_diags req)) eqn:E; [|reflexivity].
      unfold HasError in E. apply existsb_exists in E. destruct E as (d & Hin & Hd).
      assert (HasError (fst (deployment_flags (Get_model req) (Get_diags req))) = true).
      { unfold HasError. apply existsb_exists. exists d.
        split; [now apply deployment_flags_keeps|exact Hd]. }
      congruence. }
    handlers. cbn [frameworkDiagnostics isDelete negb]. rewrite Hdiags.
    destruct (deployment_flags (Get_model req) (Get_diags req)) as [diags' flags].
    cbn [fst] in *. rewrite Hdecode.
    split; [|discriminate].
    destruct (UpdateDeployment cl _ _) as [deployment|err] eqn:Hcall;
      cbn [app out_calls out_Diagnostics out_stateSet resp_Diagnostics resp_State isSome];
      (eexists; split; [reflexivity|]); cbn [callFailed]; rewrite Hcall;
      intros Hok; [split; reflexivity|discriminate Hok]. }
  all: handlers; cbn [frameworkDiagnostics isDelete negb];
    try rewrite Hdecode;
    match goal with
    | |- context [match ?r with Ok _ => _ | Err _ => _ end] => destruct r eqn:Hcall
    end;
    cbn [app out_calls out_Diagnostics out_stateSet resp_Diagnostics resp_State isSome];
    (split; [eexists; split; [reflexivity|]; cbn [callFailed]; rewrite Hcall;
             intros Hok; try discriminate Hok; split; reflexivity
            |try discriminate; intros _; reflexivity]).
Qed.

Lemma detail_with_key (a k b msg : string) :
  a ++ k ++ b ++ msg = (a ++ k ++ b) ++ msg.
Proof.
  induction a as [|c a IH]; cbn [String.append].
  - induction k as [|c k IH]; cbn [String.append]; [reflexivity|].
    now rewrite IH.
  - now rewrite IH.
Qed.

(** X11 (what a failed call reports).  When the one client call of an
    operation is answered with an error, the response carries the
    diagnostics of the decoding followed by exactly one error, whose detail
    ends with the error text of the client. *)
Theorem failed_call_reports_client_error (cl : Client) (op : Operation float64) c msg
    (Hcalls : out_calls (run Format_RFC3339 Quote cl op) = [c])
    (Herr : callError cl c = Some msg) :
  exists summary prefix,
    out_Diagnostics (run Format_RFC3339 Quote cl op)
    = (frameworkDiagnostics op
         ++ [NewErrorDiagnostic summary (prefix ++ msg)])%list
    /\ out_stateSet (run Format_RFC3339 Quote cl op) = false.
Proof.
  destruct op; revert Hcalls; handlers; cbn [frameworkDiagnostics]; paths;
    cbn [out_calls out_Diagnostics out_stateSet resp_Diagnostics resp_State isSome
         imp_Diagnostics imp_SetAttribute];
    intros Hcalls; try discriminate Hcalls;
    injection Hcalls as <-; cbn [callError] in Herr;
    match goal with
    | H : ?r = _, Herr : resultError ?r = _ |- _ =>
        rewrite H in Herr; cbn [resultError] in Herr; try discriminate Herr;
        injection Herr as ->
    end;
    try match goal with
      | H : deployment_flags ?p ?ds = (?ds', _) |- context [deployment_flags ?p ?ds] =>
          rewrite H; cbn [fst]
      end;
    unfold AddError;
    first
      [ exists "Unable to Read Cloud Providers", EmptyString; split; reflexivity
      | exists "Unable to Read Regions", EmptyString; split; reflexivity
      | exists "Unable to Read Tiers", EmptyString; split; reflexivity
      | exists "Unable to Read Deployments", EmptyString; split; reflexivity
      | exists "Unable to Read Deployment", EmptyString; split; reflexivity
      | eexists; eexists; split; reflexivity
      | rewrite detail_with_key; eexists; eexists; split; reflexivity ].
Qed.

(** X12 (a delete keeps its hands off the state).  [Delete] of a
    deployment, an access token and a rule file never write the response
    state; with a decoded state they invoke the delete method with the keys
    of that state and nothing else. *)
Theorem Delete_calls_by_key (cl : Client) diags
    (deployment : deploymentResourceModel) (token : accessTokenResourceModel)
    (file : ruleFileResourceModel)
    (Hdiags : HasError diags = false) :
  (resp_State (answer_of (deploymentResource_Delete (mktfsdkData diags deployment)) cl)
   = None
   /\ calls_of (deploymentResource_Delete (mktfsdkData diags deployment)) cl
      = [CallDeleteDeployment (types.ValueString (dr_ID deployment))])
  /\ (resp_State (answer_of (accessTokenResource_Delete (mktfsdkData diags token)) cl)
      = None
      /\ calls_of (accessTokenResource_Delete (mktfsdkData diags token)) cl
         = [CallDeleteDeploymentAccessToken
              (types.ValueString (ar_DeploymentID token))
              (types.ValueString (ar_ID token))])
  /\ (resp_State (answer_of (ruleFileResource_Delete (mktfsdkData diags file)) cl)
      = None
      /\ calls_of (ruleFileResource_Delete (mktfsdkData diags file)) cl
         = [CallDeleteDeploymentRuleFile
              (types.ValueString (rf_DeploymentID file))
              (types.ValueString (rf_FileName file))]).
Proof.
  unfold deploymentResource_Delete, accessTokenResource_Delete, ruleFileResource_Delete.
  steps. rewrite Hdiags.
  destruct (DeleteDeployment cl _), (DeleteDeploymentAccessToken cl _ _),
    (DeleteDeploymentRuleFile cl _ _); repeat split; reflexivity.
Qed.

(** *** The access-token and rule-file resources *)

(** X13 (what a created token's state holds).  [Create] of an access token
    sends the planned type and description to the planned deployment, with
    the planned tenant id, which is the empty string when the plan has none.
    After success the state keeps the deployment id, type, description and
    tenant id of the plan and takes the id, secret, creator and creation time
    from the answer; a [Read] of that state reveals the token of that
    deployment under the id the answer carried. *)
Theorem accessToken_Create_state (cl : Client) diags plan token
    (Hdiags : HasError diags = false)
    (Hcall : CreateDeploymentAccessToken cl
               (types.ValueString (ar_DeploymentID plan))
               (accessToken_createRequest plan) = Ok token) :
  accessToken_createRequest plan
  = {| atr_Type := types.ValueString (ar_Type plan);
       atr_Description := types.ValueString (ar_Description plan);
       atr_TenantID := types.ValueString (ar_TenantID plan) |}
  /\ exists state',
       accessTokenResource_Create Format_RFC3339 (mktfsdkData diags plan) cl
       = (mkResponse diags (Some state'),
          [CallCreateDeploymentAccessToken (types.ValueString (ar_DeploymentID plan))
             (accessToken_createRequest plan)])
       /\ ar_DeploymentID state' = ar_DeploymentID plan
       /\ ar_Type state' = ar_Type plan
       /\ ar_Description state' = ar_Description plan
       /\ ar_TenantID state' = ar_TenantID plan
       /\ ar_ID state' = types.StringValue (at_ID token)
       /\ ar_Secret state' = types.StringValue (at_Secret token)
       /\ ar_CreatedBy state' = types.StringValue (at_CreatedBy token)
       /\ ar_CreatedAt state' = types.StringValue (Format_RFC3339 (at_CreatedAt token))
       /\ calls_of (accessTokenResource_Read Format_RFC3339 (mktfsdkData diags state')) cl
          = [CallRevealDeploymentAccessToken
               (types.ValueString (ar_DeploymentID plan)) (at_ID token)].
Proof.
  split.
  { unfold accessToken_createRequest. destruct (ar_TenantID plan); reflexivity. }
  eexists. split.
  { unfold accessTokenResource_Create. steps. rewrite Hdiags, Hcall. reflexivity. }
  cbn. repeat split.
  unfold accessTokenResource_Read. steps. rewrite Hdiags. cbn.
  destruct (RevealDeploymentAccessToken cl _ _); reflexivity.
Qed.

(** X14 (a token refresh settles).  A successful [Read] of an access token
    keeps the id and the deployment id of the prior state, and a second
    [Read] of the refreshed state against the same API makes the same call
    and gives the same response. *)
Theorem accessToken_Read_settles (cl : Client) diags state token
    (Hdiags : HasError diags = false)
    (Hcall : RevealDeploymentAccessToken cl
               (types.ValueString (ar_DeploymentID state))
               (types.ValueString (ar_ID state)) = Ok token) :
  exists state',
    resp_State
      (answer_of (accessTokenResource_Read Format_RFC3339 (mktfsdkData diags state)) cl)
    = Some state'
    /\ ar_ID state' = ar_ID state
    /\ ar_DeploymentID state' = ar_DeploymentID state
    /\ accessTokenResource_Read Format_RFC3339 (mktfsdkData diags state') cl
       = accessTokenResource_Read Format_RFC3339 (mktfsdkData diags state) cl.
Proof.
  eexists. split.
  { unfold accessTokenResource_Read. steps. rewrite Hdiags, Hcall. reflexivity. }
  cbn [ar_ID ar_DeploymentID]. repeat split.
  unfold accessTokenResource_Read. steps. rewrite Hdiags.
  cbn [ar_ID ar_DeploymentID ar_TenantID]. rewrite Hcall. cbn [fst snd app].
  do 3 f_equal. f_equal.
  destruct (negb (String.eqb (at_TenantID token) EmptyString)); reflexivity.
Qed.

(** X15 (rule files: what refresh and update keep).  A successful [Read] of
    a rule file replaces the content by the one the API answers and keeps
    the id, deployment id and file name; a second [Read] of the refreshed
    state gives the same response.  A successful [Update] sends the planned
    content under the planned deployment id and file name and stores the
    plan unchanged. *)
Theorem ruleFile_Read_and_Update (cl : Client) diags state plan content u
    (Hdiags : HasError diags = false)
    (Hread : GetDeploymentRuleFileContent cl
               (types.ValueString (rf_DeploymentID state))
               (types.ValueString (rf_FileName state)) = Ok content)
    (Hupdate : UpdateDeploymentRuleFileContent cl
                 (types.ValueString (rf_DeploymentID plan))
                 (types.ValueString (rf_FileName plan))
                 (types.ValueString (rf_Content plan)) = Ok u) :
  (exists state',
      resp_State (answer_of (ruleFileResource_Read (mktfsdkData diags state)) cl)
      = Some state'
      /\ rf_ID state' = rf_ID state
      /\ rf_DeploymentID state' = rf_DeploymentID state
      /\ rf_FileName state' = rf_FileName state
      /\ rf_Content state' = types.StringValue content
      /\ ruleFileResource_Read (mktfsdkData diags state') cl
         = ruleFileResource_Read (mktfsdkData diags state) cl)
  /\ ruleFileResource_Update (mktfsdkData diags plan) cl
     = (mkResponse diags (Some plan),
        [CallUpdateDeploymentRuleFileContent
           (types.ValueString (rf_DeploymentID plan))
           (types.ValueString (rf_FileName plan))
           (types.ValueString (rf_Content plan))]).
Proof.
  split.
  - eexists. split.
    { unfold ruleFileResource_Read. steps. rewrite Hdiags, Hread. reflexivity. }
    cbn [rf_ID rf_DeploymentID rf_FileName rf_Content].
    split; [reflexivity|]. split; [reflexivity|]. split; [reflexivity|].
    split; [reflexivity|].
    unfold ruleFileResource_Read. steps. rewrite Hdiags.
    cbn [rf_ID rf_DeploymentID rf_FileName]. rewrite Hread. reflexivity.
  - unfold ruleFileResource_Update. steps. rewrite Hdiags, Hupdate. reflexivity.
Qed.

(** *** The deployment data sources *)

(** X16 (the list of deployments).  The deployments data source invokes
    [ListDeployments] and nothing else.  On an error it reports Unable to
    Read Deployments with the text of the error and writes no state.  On
    success the state list is an allocated one, empty for an empty answer,
    with the length of the answer, and its [i]-th element carries the fields
    of the [i]-th entry, the creation time in RFC 3339 (for tiers that fit
    the state's 64-bit integer). *)
Theorem deployments_Read_pass_through (cl : Client) :
  calls_of (deploymentsDataSource_Read Format_RFC3339) cl = [CallListDeployments]
  /\ isMutating CallListDeployments = false
  /\ (forall err, ListDeployments cl = Err err ->
        answer_of (deploymentsDataSource_Read Format_RFC3339) cl
        = mkResponse [NewErrorDiagnostic "Unable to Read Deployments" err] None)
  /\ (forall deployments, ListDeployments cl = Ok deployments ->
        Forall (fun d => 0 <= dl_Tier d < 2 ^ 63) deployments ->
        exists state,
          answer_of (deploymentsDataSource_Read Format_RFC3339) cl
          = mkResponse [] (Some state)
          /\ Deployments state <> nil_slice
          /\ len (Deployments state) = length deployments
          /\ forall i d, nth_error deployments i = Some d ->
               nth_error (elements (Deployments state)) i
               = Some {| dsm_ID := types.StringValue (dl_ID d);
                         dsm_Name := types.StringValue (dl_Name d);
                         dsm_Type := types.StringValue (dl_Type d);
                         dsm_Tier := types.Int64Value (dl_Tier d);
                         dsm_Version := types.StringValue (dl_Version d);
                         dsm_CloudProvider := types.StringValue (dl_CloudProvider d);
                         dsm_Region := types.StringValue (dl_Region d);
                         dsm_Status := types.StringValue (dl_Status d);
                         dsm_CreatedAt :=
                           types.StringValue (Format_RFC3339 (dl_CreatedAt d)) |}).
Proof.
  unfold deploymentsDataSource_Read. steps.
  split; [destruct (ListDeployments cl); reflexivity|].
  split; [reflexivity|]. split.
  - intros err ->. reflexivity.
  - intros deployments -> Hfit. cbn [fst]. eexists. split; [reflexivity|].
    cbn [Deployments]. split; [|split].
    + destruct deployments as [|d rest]; [discriminate|].
      unfold rangeAppend. cbn [fold_left].
      assert (H : forall (xs : list (DeploymentSummary Time)) l,
                    fold_left (fun acc x => append acc (deploymentState Format_RFC3339 x))
                      xs (slice_of l) <> nil_slice).
      { induction xs as [|x xs IH]; intros l; cbn [fold_left]; [discriminate|].
        unfold append at 2. apply IH. }
      unfold append at 2. apply H.
    + unfold len. rewrite rangeAppend_map. cbn [elements app]. apply length_map.
    + intros i d Hi. rewrite rangeAppend_map. cbn [elements app].
      rewrite nth_error_map, Hi. cbn [option_map]. unfold deploymentState.
      rewrite Forall_forall in Hfit.
      rewrite int64_in_range; [reflexivity|].
      pose proof (Hfit d (nth_error_In _ _ Hi)). lia.
Qed.

(** X17 (data source and resource see the same deployment).  For the same
    deployment id and the same API, the deployment data source and [Read]
    of the deployment resource make the same call and, when it succeeds,
    agree on the name, type, cloud provider, region, tier, retention and
    deduplication with their units, maintenance window, version, status,
    creation time and access endpoint; with the unit GB the resource's
    storage size is the data source's size in GB.  The data source keeps the
    configured id. *)
Theorem deployment_data_source_agrees (cl : Client) diags config state deployment
    (Hdiags : HasError diags = false)
    (Hid : types.ValueString (dd_ID config) = types.ValueString (dr_ID state))
    (Hcall : GetDeploymentDetails cl (types.ValueString (dr_ID state)) = Ok deployment) :
  calls_of (deploymentDataSource_Read Format_RFC3339 (mktfsdkData diags config)) cl
  = calls_of (deploymentResource_Read Format_RFC3339 (mktfsdkData diags state)) cl
  /\ exists data resource,
       resp_State
         (answer_of (deploymentDataSource_Read Format_RFC3339 (mktfsdkData diags config)) cl)
       = Some data
       /\ resp_State
            (answer_of (deploymentResource_Read Format_RFC3339 (mktfsdkData diags state)) cl)
          = Some resource
       /\ dd_ID data = dd_ID config
       /\ (dd_Name data = dr_Name resource /\ dd_Type data = dr_Type resource
           /\ dd_CloudProvider data = dr_CloudProvider resource
           /\ dd_Region data = dr_Region resource /\ dd_Tier data = dr_Tier resource
           /\ dd_Retention data = dr_Retention resource
           /\ dd_RetentionUnit data = dr_RetentionUnit resource
           /\ dd_Deduplication data = dr_Deduplication resource
           /\ dd_DeduplicationUnit data = dr_DeduplicationUnit resource
           /\ dd_MaintenanceWindow data = dr_MaintenanceWindow resource
           /\ dd_Version data = dr_Version resource
           /\ dd_Status data = dr_Status resource
           /\ dd_CreatedAt data = dr_CreatedAt resource
           /\ dd_AccessEndpoint data = dr_AccessEndpoint resource)
       /\ (dr_StorageSizeUnit state = types.StringValue "GB" ->
           dr_StorageSize resource = dd_StorageSizeGb data).
Proof.
  unfold deploymentDataSource_Read, deploymentResource_Read. steps.
  rewrite Hdiags, Hid, Hcall. cbn [fst snd app resp_State].
  split; [reflexivity|]. eexists. eexists.
  split; [reflexivity|]. split; [reflexivity|]. cbn.
  repeat split. intros Hunit. unfold deployment_storageSize. rewrite Hunit.
  reflexivity.
Qed.

(** *** Configuration and registration *)

(** X18 (the client the provider hands out).  Whatever the configuration and
    the environment, [Configure] calls the client constructor at most once
    and hands the data sources and the resources the same thing: the client
    the constructor returned, exactly when the response holds no error, and
    nothing otherwise.  When the constructor fails the response ends with
    the error Unable to Create VictoriaMetrics Cloud API Client, whose detail
    ends with the constructor's error text. *)
Theorem Configure_hands_out_one_client
    (Getenv : string -> string)
    (New : string -> list VMCloudAPIClientOption -> result Client)
    (req : tfsdkData victoriametricsCloudProviderModel) :
  DataSourceData (Configure Getenv New req) = ResourceData (Configure Getenv New req)
  /\ (length (cfg_New_calls (Configure Getenv New req)) <= 1)%nat
  /\ (HasError (cfg_Diagnostics (Configure Getenv New req)) = false
      <-> exists client, ResourceData (Configure Getenv New req) = Some client)
  /\ (forall client, ResourceData (Configure Getenv New req) = Some client ->
        exists options,
          cfg_New_calls (Configure Getenv New req)
          = [(resolved_apiKey Getenv (Get_model req), options)]
          /\ New (resolved_apiKey Getenv (Get_model req)) options = Ok client)
  /\ (forall apiKey options err,
        cfg_New_calls (Configure Getenv New req) = [(apiKey, options)] ->
        New apiKey options = Err err ->
        cfg_Diagnostics (Configure Getenv New req)
        = (Get_diags req
             ++ [NewErrorDiagnostic "Unable to Create VictoriaMetrics Cloud API Client"
                   ("An unexpected error occurred when creating the VictoriaMetrics Cloud API client: "
                      ++ err)])%list
        /\ ResourceData (Configure Getenv New req) = None).
Proof using Type.
  clear Quote Format_RFC3339.
  unfold Configure. cbn [Append app].
  destruct (HasError (Get_diags req)) eqn:Hdec.
  { cbn [DataSourceData ResourceData cfg_New_calls cfg_Diagnostics length].
    rewrite Hdec. repeat split; try discriminate; try lia.
    intros [client H]. discriminate H. }
  destruct (String.eqb (resolved_apiKey Getenv (Get_model req)) EmptyString).
  { cbn [DataSourceData ResourceData cfg_New_calls cfg_Diagnostics length].
    rewrite HasError_AddError. repeat split; try discriminate; try lia.
    intros [client H]. discriminate H. }
  cbv zeta.
  destruct (New (resolved_apiKey Getenv (Get_model req)) _) as [client|err] eqn:HNew;
    cbn [DataSourceData ResourceData cfg_New_calls cfg_Diagnostics length].
  - rewrite Hdec. repeat split; try lia; eauto.
    + intros c Hc. injection Hc as <-. eexists. split; [reflexivity|exact HNew].
    + injection H as <- <-. congruence.
    + injection H as <- <-. congruence.
  - rewrite HasError_AddError. repeat split; try discriminate; try lia.
    + intros [client H]. discriminate H.
    + injection H as <- <-. rewrite HNew in H0. injection H0 as <-. reflexivity.
Qed.

(** X19 (handlers accept what the provider hands out).  [Configure] of a
    resource or data source keeps its client and reports nothing for nil
    provider data, stores a client it is given, and reports Unexpected
    Configure Type, keeping its client, for anything else.  Whatever the
    provider's [Configure] hands out is therefore accepted without a
    diagnostic, and the handler holds the provider's client whenever the
    provider made one. *)
Theorem handlers_accept_provider_data
    (Getenv : string -> string)
    (New : string -> list VMCloudAPIClientOption -> result Client)
    (req : tfsdkData victoriametricsCloudProviderModel)
    (client : option Client) :
  resource_Configure client (providerData (ResourceData (Configure Getenv New req)))
  = ([], match ResourceData (Configure Getenv New req) with
         | Some c => Some c
         | None => client
         end)
  /\ dataSource_Configure client (providerData (DataSourceData (Configure Getenv New req)))
     = ([], match DataSourceData (Configure Getenv New req) with
            | Some c => Some c
            | None => client
            end)
  /\ (forall data,
        (HasError (fst (resource_Configure client data)) = true
         <-> exists T, data = any_other T)
        /\ (HasError (fst (dataSource_Configure client data)) = true
            <-> exists T, data = any_other T)
        /\ (HasError (fst (resource_Configure client data)) = true ->
            snd (resource_Configure client data) = client)
        /\ (HasError (fst (dataSource_Configure client data)) = true ->
            snd (dataSource_Configure client data) = client)).
Proof using Type.
  clear Quote Format_RFC3339.
  split; [|split].
  - destruct (ResourceData (Configure Getenv New req)); reflexivity.
  - destruct (DataSourceData (Configure Getenv New req)); reflexivity.
  - intros data. destruct data as [|c|T]; cbn [resource_Configure dataSource_Configure fst snd];
      try rewrite !HasError_AddError; cbn [HasError existsb];
      repeat split; try discriminate; eauto;
      intros [T' H]; discriminate H.
Qed.

Lemma append_cancel_l (p a b : string) : p ++ a = p ++ b -> a = b.
Proof.
  induction p as [|c p IH]; cbn [String.append]; intros H; [exact H|].
  injection H as H. now apply IH.
Qed.

(** X20 (type names).  For every provider type name, the three resources
    answer pairwise distinct type names in [Metadata], and so do the five
    data sources; each name is the provider type name followed by a suffix.
    With the type name of this provider they are the names of the
    configuration language: [victoriametricscloud_deployment] and so on. *)
Theorem type_names_are_distinct (ProviderTypeName version : string) :
  NoDup (map (fun r => resource_Metadata r ProviderTypeName) Resources)
  /\ NoDup (map (fun d => dataSource_Metadata d ProviderTypeName) DataSources)
  /\ (forall r, exists suffix,
        resource_Metadata r ProviderTypeName = ProviderTypeName ++ suffix)
  /\ (forall d, exists suffix,
        dataSource_Metadata d ProviderTypeName = ProviderTypeName ++ suffix)
  /\ map (fun r => resource_Metadata r (fst (victoriametricsCloudProvider_Metadata version)))
       Resources
     = ["victoriametricscloud_deployment"; "victoriametricscloud_access_token";
        "victoriametricscloud_rule_file"]
  /\ map (fun d => dataSource_Metadata d (fst (victoriametricsCloudProvider_Metadata version)))
       DataSources
     = ["victoriametricscloud_cloud_providers"; "victoriametricscloud_regions";
        "victoriametricscloud_tiers"; "victoriametricscloud_deployment";
        "victoriametricscloud_deployments"].
Proof using Type.
  clear Quote Format_RFC3339.
  assert (Hdistinct : forall l : list string, NoDup l ->
            NoDup (map (fun suffix => ProviderTypeName ++ suffix) l)).
  { intros l Hl. induction Hl as [|x l Hx Hl IH]; cbn [map]; constructor; [|exact IH].
    intros Hin. apply in_map_iff in Hin. destruct Hin as (y & Heq & Hy).
    apply append_cancel_l in Heq. subst y. contradiction. }
  split; [|split; [|split; [|split; [|split]]]].
  - apply (Hdistinct ["_deployment"; "_access_token"; "_rule_file"]).
    repeat constructor; cbn [In]; intros H;
      repeat (destruct H as [H|H]; [discriminate H|]); exact H.
  - apply (Hdistinct ["_cloud_providers"; "_regions"; "_tiers"; "_deployment";
                      "_deployments"]).
    repeat constructor; cbn [In]; intros H;
      repeat (destruct H as [H|H]; [discriminate H|]); exact H.
  - intros r. destruct r; eexists; reflexivity.
  - intros d. destruct d; eexists; reflexivity.
  - reflexivity.
  - reflexivity.
Qed.

Lemma deployment_never_requiresReplace (name : string) :
  requiresReplace deploymentResource_Schema name = false.
Proof.
  unfold requiresReplace, deploymentResource_Schema.
  cbn [existsb PlanModifiers isRequiresReplace attr_name].
  rewrite !andb_false_r. reflexivity.
Qed.

(** X21 (moving a deployment is an update that sends nothing).  No
    attribute of the deployment schema requires replacement, so a change of
    type, cloud provider or region is planned as an update in place.  That
    [Update] makes the call it would make without the change, and on success
    stores the new type, cloud provider and region in the state. *)
Theorem deployment_placement_change_updates_in_place
    (cl : Client) diags plan type cloudProvider region deployment
    (Hdiags : HasError diags = false)
    (Hflags : HasError (fst (deployment_flags plan diags)) = false)
    (Hcall : UpdateDeployment cl (types.ValueString (dr_ID plan))
               (deployment_updateRequest plan (snd (deployment_flags plan diags)))
             = Ok deployment) :
  (forall name changed,
      plannedAction deploymentResource_Schema (name :: changed) = UpdateInPlace)
  /\ deploymentResource_Update
       (mktfsdkData diags (withPlacement plan type cloudProvider region)) cl
     = (mkResponse (fst (deployment_flags plan diags))
          (Some (withPlacement
                   {| dr_ID := dr_ID plan; dr_Name := dr_Name plan;
                      dr_Type := dr_Type plan;
                      dr_CloudProvider := dr_CloudProvider plan;
                      dr_Region := dr_Region plan;
                      dr_Tier := dr_Tier plan; dr_StorageSize := dr_StorageSize plan;
                      dr_StorageSizeUnit := dr_StorageSizeUnit plan;
                      dr_Retention := dr_Retention plan;
                      dr_RetentionUnit := dr_RetentionUnit plan;
                      dr_Deduplication := dr_Deduplication plan;
                      dr_DeduplicationUnit := dr_DeduplicationUnit plan;
                      dr_MaintenanceWindow := dr_MaintenanceWindow plan;
                      dr_SingleFlags := dr_SingleFlags plan;
                      dr_SelectFlags := dr_SelectFlags plan;
                      dr_StorageFlags := dr_StorageFlags plan;
                      dr_InsertFlags := dr_InsertFlags plan;
                      dr_Version := types.StringValue (di_Version deployment);
                      dr_Status := types.StringValue (di_Status deployment);
                      dr_CreatedAt := dr_CreatedAt plan;
                      dr_AccessEndpoint :=
                        types.StringValue (di_AccessEndpoint deployment) |}
                   type cloudProvider region)),
        [CallUpdateDeployment (types.ValueString (dr_ID plan))
           (deployment_updateRequest plan (snd (deployment_flags plan diags)))]).
Proof using Type.
  clear Quote Format_RFC3339.
  split.
  - intros name changed. unfold plannedAction.
    assert (H : existsb (requiresReplace deploymentResource_Schema) (name :: changed)
                = false).
    { generalize (name :: changed). intros l.
      induction l as [|x l IH]; cbn [existsb]; [reflexivity|].
      now rewrite deployment_never_requiresReplace, IH. }
    now rewrite H.
  - unfold deploymentResource_Update. steps. rewrite Hdiags.
    rewrite deployment_flags_withPlacement.
    destruct (deployment_flags plan diags) as [diags' flags]. cbn [fst snd] in *.
    rewrite Hflags, deployment_updateRequest_withPlacement.
    change (dr_ID (withPlacement plan type cloudProvider region)) with (dr_ID plan).
    rewrite Hcall. reflexivity.
Qed.

End Coverage.

(** ** The further properties at the example runs *)

Lemma ruleFile_Create_id_importable_witness :
  (HasError [] = false
   /\ CreateDeploymentRuleFileContent Example.client "dep-1" "recording_rules.yaml"
        "groups: []" = Ok tt)
  /\ exists id,
       option_map rf_ID
         (resp_State (answer_of (ruleFileResource_Create
                                   (mktfsdkData [] Outage.recording_rules))
                        Example.client))
       = Some (types.Known id)
       /\ imp_Diagnostics (ruleFileResource_ImportState Example.Quote id) = [].
Proof.
  split; [split; reflexivity|].
  destruct (ruleFile_Create_id_importable Example.Quote Example.client []
              Outage.recording_rules tt eq_refl eq_refl)
    as (id & Hid & Hiff & _).
  exists id. split; [exact Hid|].
  apply Hiff. repeat split; try reflexivity; discriminate.
Defined.

Lemma deployment_Create_state_witness :
  (HasError [] = false
   /\ CreateDeployment Example.client (deployment_createRequest Example.single_demo)
      = Ok Example.demoInfo)
  /\ exists state',
       resp_State (answer_of (deploymentResource_Create Example.Format_RFC3339
                                (mktfsdkData [] Example.single_demo)) Example.client)
       = Some state'
       /\ dr_ID state' = types.Known "dep-1"
       /\ dr_SingleFlags state' = types.Known [types.Known "-search.maxQueryDuration=360s"].
Proof.
  split; [split; reflexivity|].
  destruct (deployment_Create_state Example.Format_RFC3339 Example.client []
              Example.single_demo Example.demoInfo eq_refl eq_refl)
    as (state' & Hrun & Hid & _ & _ & _ & _ & Hplan & _).
  exists state'. unfold answer_of. rewrite Hrun. split; [reflexivity|].
  split; [exact Hid|]. apply Hplan.
Defined.

Lemma deployment_Read_settles_witness :
  (HasError [] = false
   /\ GetDeploymentDetails Example.client "dep-1" = Ok Example.demoInfo)
  /\ exists state',
       resp_State (answer_of (deploymentResource_Read Example.Format_RFC3339
                                (mktfsdkData [] Example.single_demo_state))
                     Example.client)
       = Some state'
       /\ deploymentResource_Read Example.Format_RFC3339 (mktfsdkData [] state')
            Example.client
          = deploymentResource_Read Example.Format_RFC3339
              (mktfsdkData [] Example.single_demo_state) Example.client.
Proof.
  split; [split; reflexivity|].
  destruct (deployment_Read_settles Example.Format_RFC3339 Example.client []
              Example.single_demo_state Example.demoInfo eq_refl eq_refl)
    as (state' & Hstate & _ & _ & _ & _ & _ & _ & Hagain).
  exists state'. split; [exact Hstate|exact Hagain].
Defined.

Lemma deployment_Read_TB_rounds_down_witness :
  (HasError [] = false
   /\ GetDeploymentDetails Example.client "dep-1" = Ok Example.demoInfo
   /\ dr_StorageSizeUnit Example.single_demo_state = types.StringValue "TB"
   /\ 0 <= di_StorageSizeGb Example.demoInfo < 2 ^ 63)
  /\ exists state' s,
       resp_State (answer_of (deploymentResource_Read Example.Format_RFC3339
                                (mktfsdkData [] Example.single_demo_state))
                     Example.client)
       = Some state'
       /\ dr_StorageSize state' = types.Int64Value s
       /\ 1024 * s <= 2048 < 1024 * (s + 1).
Proof.
  assert (Hrange : 0 <= di_StorageSizeGb Example.demoInfo < 2 ^ 63)
    by (split; [discriminate|reflexivity]).
  split; [repeat split; solve [reflexivity | apply Hrange]|].
  destruct (deployment_Read_TB_rounds_down Example.Format_RFC3339 Example.client []
              Example.single_demo_state Example.demoInfo eq_refl eq_refl eq_refl Hrange)
    as (state' & s & Hstate & Hsize & Hbounds & _).
  exists state', s. split; [exact Hstate|]. split; [exact Hsize|exact Hbounds].
Defined.

Lemma deployment_Update_sends_flags_witness :
  HasError [] = false
  /\ calls_of (deploymentResource_Update (mktfsdkData [] Example.single_demo_state))
       Example.client
     = [CallUpdateDeployment "dep-1"
          (deployment_updateRequest Example.single_demo_state
             {| SingleFlags := ["-search.maxQueryDuration=360s"];
                SelectFlags := []; StorageFlags := []; InsertFlags := [] |})].
Proof.
  split; [reflexivity|].
  exact (deployment_Update_sends_flags Example.client [] Example.single_demo_state
           ["-search.maxQueryDuration=360s"] [] [] [] eq_refl
           (or_intror eq_refl) (or_introl (conj eq_refl eq_refl))
           (or_introl (conj eq_refl eq_refl)) (or_introl (conj eq_refl eq_refl))).
Defined.

Lemma undecoded_request_stops_witness :
  (HasError (decodeDiagnostics
               (DeploymentCreate Example.float64
                  (mktfsdkData Outage.undecodable Example.single_demo))) = true
   /\ isRemoteOperation
        (DeploymentCreate Example.float64
           (mktfsdkData Outage.undecodable Example.single_demo)) = true)
  /\ run Example.Format_RFC3339 Example.Quote Example.client
       (DeploymentCreate Example.float64
          (mktfsdkData Outage.undecodable Example.single_demo))
     = mkOutcome [] Outage.undecodable false.
Proof.
  split; [split; reflexivity|].
  exact (undecoded_request_stops Example.Format_RFC3339 Example.Quote Example.client
           (DeploymentCreate Example.float64
              (mktfsdkData Outage.undecodable Example.single_demo))
           eq_refl eq_refl).
Defined.

Lemma decoded_request_calls_once_witness :
  (isRemoteOperation
     (RuleFileDelete Example.float64 (mktfsdkData [] Outage.recording_rules)) = true
   /\ HasError (frameworkDiagnostics
                  (RuleFileDelete Example.float64
                     (mktfsdkData [] Outage.recording_rules))) = false)
  /\ exists c,
       out_calls (run Example.Format_RFC3339 Example.Quote Example.client
                    (RuleFileDelete Example.float64
                       (mktfsdkData [] Outage.recording_rules))) = [c].
Proof.
  split; [split; reflexivity|].
  destruct (decoded_request_calls_once Example.Format_RFC3339 Example.Quote
              Example.client
              (RuleFileDelete Example.float64 (mktfsdkData [] Outage.recording_rules))
              eq_refl eq_refl)
    as ((c & Hc & _) & _).
  exists c. exact Hc.
Defined.

Lemma failed_call_reports_client_error_witness :
  (out_calls (run Example.Format_RFC3339 Example.Quote Outage.client
                (DeploymentRead Example.float64
                   (mktfsdkData [] Example.single_demo_state)))
   = [CallGetDeploymentDetails "dep-1"]
   /\ callError Outage.client (CallGetDeploymentDetails "dep-1")
      = Some "503 Service Unavailable")
  /\ exists summary prefix,
       out_Diagnostics (run Example.Format_RFC3339 Example.Quote Outage.client
                          (DeploymentRead Example.float64
                             (mktfsdkData [] Example.single_demo_state)))
       = [NewErrorDiagnostic summary (prefix ++ "503 Service Unavailable")].
Proof.
  split; [split; reflexivity|].
  destruct (failed_call_reports_client_error Example.Format_RFC3339 Example.Quote
              Outage.client
              (DeploymentRead Example.float64 (mktfsdkData [] Example.single_demo_state))
              (CallGetDeploymentDetails "dep-1") "503 Service Unavailable"
              eq_refl eq_refl)
    as (summary & prefix & Hdiags & _).
  exists summary, prefix. exact Hdiags.
Defined.

Lemma Delete_calls_by_key_witness :
  HasError [] = false
  /\ calls_of (accessTokenResource_Delete
                 (mktfsdkData [] Example.single_grafana_token_state)) Outage.client
     = [CallDeleteDeploymentAccessToken "dep-1" "tok-1"]
  /\ resp_State (answer_of (accessTokenResource_Delete
                              (mktfsdkData [] Example.single_grafana_token_state))
                   Outage.client) = None.
Proof.
  split; [reflexivity|].
  destruct (Delete_calls_by_key Outage.client [] Example.single_demo_state
              Example.single_grafana_token_state Outage.recording_rules eq_refl)
    as (_ & (Hstate & Hcalls) & _).
  split; [exact Hcalls|exact Hstate].
Defined.

Lemma accessToken_Create_state_witness :
  (HasError [] = false
   /\ CreateDeploymentAccessToken Example.client "dep-1"
        (accessToken_createRequest Example.single_grafana_token) = Ok Example.demoToken)
  /\ atr_TenantID (accessToken_createRequest Example.single_grafana_token) = EmptyString
  /\ exists state',
       resp_State (answer_of (accessTokenResource_Create Example.Format_RFC3339
                                (mktfsdkData [] Example.single_grafana_token))
                     Example.client)
       = Some state'
       /\ ar_TenantID state' = types.Null
       /\ ar_ID state' = types.Known "tok-1".
Proof.
  split; [split; reflexivity|].
  destruct (accessToken_Create_state Example.Format_RFC3339 Example.client []
              Example.single_grafana_token Example.demoToken eq_refl eq_refl)
    as (Hreq & state' & Hrun & _ & _ & _ & Htenant & Hid & _).
  split; [rewrite Hreq; reflexivity|].
  exists state'. unfold answer_of. rewrite Hrun.
  split; [reflexivity|]. split; [exact Htenant|exact Hid].
Defined.

Lemma accessToken_Read_settles_witness :
  (HasError [] = false
   /\ RevealDeploymentAccessToken Example.client "dep-1" "tok-1" = Ok Example.demoToken)
  /\ exists state',
       resp_State (answer_of (accessTokenResource_Read Example.Format_RFC3339
                                (mktfsdkData [] Example.single_grafana_token_state))
                     Example.client)
       = Some state'
       /\ accessTokenResource_Read Example.Format_RFC3339 (mktfsdkData [] state')
            Example.client
          = accessTokenResource_Read Example.Format_RFC3339
              (mktfsdkData [] Example.single_grafana_token_state) Example.client.
Proof.
  split; [split; reflexivity|].
  destruct (accessToken_Read_settles Example.Format_RFC3339 Example.client []
              Example.single_grafana_token_state Example.demoToken eq_refl eq_refl)
    as (state' & Hstate & _ & _ & Hagain).
  exists state'. split; [exact Hstate|exact Hagain].
Defined.

Lemma ruleFile_Read_and_Update_witness :
  (HasError [] = false
   /\ GetDeploymentRuleFileContent Example.client "dep-1" "recording_rules.yaml"
      = Ok "groups: []"
   /\ UpdateDeploymentRuleFileContent Example.client "dep-1" "recording_rules.yaml"
        "groups: []" = Ok tt)
  /\ ruleFileResource_Update (mktfsdkData [] Outage.recording_rules) Example.client
     = (mkResponse [] (Some Outage.recording_rules),
        [CallUpdateDeploymentRuleFileContent "dep-1" "recording_rules.yaml"
           "groups: []"]).
Proof.
  split; [repeat split; reflexivity|].
  exact (proj2 (ruleFile_Read_and_Update Example.client [] Outage.recording_rules
                  Outage.recording_rules "groups: []" tt eq_refl eq_refl eq_refl)).
Defined.

Lemma deployment_data_source_agrees_witness :
  (HasError [] = false
   /\ types.ValueString (dd_ID Outage.demoConfig)
      = types.ValueString (dr_ID Example.single_demo_state)
   /\ GetDeploymentDetails Example.client "dep-1" = Ok Example.demoInfo)
  /\ calls_of (deploymentDataSource_Read Example.Format_RFC3339
                 (mktfsdkData [] Outage.demoConfig)) Example.client
     = calls_of (deploymentResource_Read Example.Format_RFC3339
                   (mktfsdkData [] Example.single_demo_state)) Example.client.
Proof.
  split; [repeat split; reflexivity|].
  exact (proj1 (deployment_data_source_agrees Example.Format_RFC3339 Example.client []
                  Outage.demoConfig Example.single_demo_state Example.demoInfo
                  eq_refl eq_refl eq_refl)).
Defined.

Lemma deployment_placement_change_updates_in_place_witness :
  (HasError [] = false
   /\ HasError (fst (deployment_flags Example.single_demo_state [])) = false
   /\ UpdateDeployment Example.client "dep-1"
        (deployment_updateRequest Example.single_demo_state
           (snd (deployment_flags Example.single_demo_state [])))
      = Ok Example.demoInfo)
  /\ plannedAction deploymentResource_Schema ["region"] = UpdateInPlace
  /\ calls_of (deploymentResource_Update
                 (mktfsdkData []
                    (withPlacement Example.single_demo_state
                       (types.Known "single_node") (types.Known "aws")
                       (types.Known "us-east-2")))) Example.client
     = calls_of (deploymentResource_Update (mktfsdkData [] Example.single_demo_state))
         Example.client.
Proof.
  split; [repeat split; reflexivity|].
  destruct (deployment_placement_change_updates_in_place Example.client []
              Example.single_demo_state (types.Known "single_node") (types.Known "aws")
              (types.Known "us-east-2") Example.demoInfo eq_refl eq_refl eq_refl)
    as (Hplan & Hrun).
  split; [exact (Hplan "region" [])|].
  unfold calls_of. rewrite Hrun. reflexivity.
Defined.

Lemma deployment_request_numbers_witness :
  (fitsInt64 (dr_Tier Outage.oversized) /\ fitsInt64 (dr_Retention Outage.oversized)
   /\ fitsInt64 (dr_Deduplication Outage.oversized)
   /\ fitsInt64 (dr_StorageSize Outage.oversized))
  /\ dcr_Tier (deployment_createRequest Outage.oversized) <> 4294967317
  /\ dcr_StorageSize (deployment_createRequest Outage.oversized) = 18446744073709551615.
Proof.
  assert (H1 : fitsInt64 (dr_Tier Outage.oversized)) by (cbn; lia).
  assert (H2 : fitsInt64 (dr_Retention Outage.oversized)) by (cbn; lia).
  assert (H3 : fitsInt64 (dr_Deduplication Outage.oversized)) by (cbn; lia).
  assert (H4 : fitsInt64 (dr_StorageSize Outage.oversized)) by (cbn; lia).
  split; [exact (conj H1 (conj H2 (conj H3 H4)))|].
  destruct (deployment_request_numbers Outage.oversized
              {| SingleFlags := []; SelectFlags := []; StorageFlags := [];
                 InsertFlags := [] |} H1 H2 H3 H4)
    as ((_ & _ & Htier) & _ & _ & (_ & _ & Hneg & _) & _).
  split.
  - intros Heq. apply Htier in Heq. cbn in Heq. lia.
  - rewrite Hneg; [reflexivity|]. cbn. lia.
Defined.
